(** * Student management backend

    A shallow embedding of the request handlers and model hooks of the
    service: the result grading hook, the payment cycle calculator, the
    account and student routes and the token routes.

    Conventions.
    - A JavaScript [Number] that carries a score, a total of marks or a
      grade point is an IEEE 754 double ([float]) with the language's own
      addition, division and comparisons; an amount of money, on which the
      code only tests the sign, is an exact rational ([Q]); a [Date] is its
      time value in milliseconds ([Z]); an [ObjectId] is its hexadecimal
      rendering.
    - A field that may be [undefined] or [null] is an [option].
    - A string of a field that the schema declares with setters ([trim],
      [lowercase]) is taken, in a stored document and in a request body
      that is stored, in the form the setters leave it; the sign-in route,
      whose queries cast the login with them, applies them itself.
    - A handler is a function from the stored collections and the request to
      the response and the new collections; reading the clock or drawing a
      fresh identifier or token is an explicit argument. *)

From Stdlib Require Import ZArith QArith Qround Qabs List String Ascii Bool Lia Lqa.
From Stdlib Require Import DecimalString.
From Stdlib Require Import Floats.
Import ListNotations.

Set Implicit Arguments.

(** A decimal literal in [float_scope] is the double nearest to it, as a
    numeric literal of the source language is. *)
Set Warnings "-inexact-float".

(* ================================================================== *)
(** * JavaScript primitives used by the handlers *)
(* ================================================================== *)

Module JS.

(** [x || 0] on a numeric field: [undefined], [NaN] and both zeros are
    falsy. *)
Definition num_or0 (x : option float) : float :=
  match x with
  | Some q => if is_zero q || is_nan q then 0%float else q
  | None => 0%float
  end.

(** Truthiness of a string-valued field: [undefined] and [""] are falsy. *)
Definition truthy_str (x : option string) : bool :=
  match x with
  | Some s => negb (String.eqb s EmptyString)
  | None => false
  end.

(** Truthiness of an integer-valued field: [undefined] and [0] are falsy. *)
Definition truthy_int (x : option Z) : bool :=
  match x with
  | Some n => negb (Z.eqb n 0)
  | None => false
  end.

(** [a > b] on numbers: false as soon as one side is [NaN]. *)
Definition gtb (a b : float) : bool := (b <? a)%float.

(** The rational a finite double stands for ([0] stands in for the
    infinities and [NaN], which every use excludes beforehand). *)
Definition exact (x : float) : Q :=
  match Prim2SF x with
  | S754_finite s m e =>
      let v := inject_Z (Zpos m) * Qpower 2 e in
      if s then - v else v
  | _ => 0
  end.

(** The double nearest to a rational that is not negative, a tie going to
    the even mantissa: the quotient is cut after at least 64 bits, a last
    bit records whether anything was cut off, and the result is rounded to
    the 53 bits of a double. *)
Definition nearest (q : Q) : float :=
  let a := Qnum q in
  let b := Zpos (Qden q) in
  if (a <=? 0)%Z then 0%float
  else
    let s := Z.max 0 (64 + Z.log2 b - Z.log2 a) in
    let m := (a * 2 ^ s / b)%Z in
    let sticky := if (a * 2 ^ s mod b =? 0)%Z then 0%Z else 1%Z in
    SF2Prim (binary_normalize prec emax (2 * m + sticky) (- s - 1) false).

(** A counter of the language as a number. *)
Definition ofNat (n : nat) : float := nearest (inject_Z (Z.of_nat n)).

(** [parseFloat(x.toFixed(2))].  [toFixed] renders [NaN], the infinities
    and a number of magnitude [1e21] or more as [toString] does, and
    [parseFloat] reads them back unchanged.  Otherwise it works on the
    magnitude of the number: it takes the integer [n] for which [n / 100]
    is nearest to the exact value of the double, the larger one on a tie,
    writes its digits with a sign when the number is below zero, and
    [parseFloat] returns the double nearest to that decimal. *)
Definition toFixed2 (x : float) : float :=
  if is_nan x || is_infinity x then x
  else if (1e21 <=? abs x)%float then x
  else
    let n := Qfloor (Qabs (exact x) * 100 + (1 # 2)) in
    let r := nearest (inject_Z n / 100) in
    if (x <? 0)%float then (- r)%float else r.

(** [Number.prototype.toString] on an integer. *)
Definition toString (n : Z) : string :=
  NilEmpty.string_of_int (Z.to_int n).

Fixpoint zeros (k : nat) : string :=
  match k with
  | O => EmptyString
  | S k' => String "0" (zeros k')
  end.

(** [s.padStart(width, '0')]. *)
Definition padStart0 (width : nat) (s : string) : string :=
  String.append (zeros (width - String.length s)) s.

Fixpoint drop (n : nat) (s : string) : string :=
  match n, s with
  | S n', String _ rest => drop n' rest
  | _, _ => s
  end.

(** [s.slice(-k)]: the last [k] characters, or all of a shorter string. *)
Definition sliceLast (k : nat) (s : string) : string :=
  drop (String.length s - k) s.

Definition isSpace (c : ascii) : bool :=
  let n := nat_of_ascii c in
  (Nat.leb 9 n && Nat.leb n 13) || Nat.eqb n 32.

Fixpoint skipSpaces (s : string) : string :=
  match s with
  | String c rest => if isSpace c then skipSpaces rest else s
  | EmptyString => s
  end.

Definition digitVal (c : ascii) : option Z :=
  let n := nat_of_ascii c in
  if Nat.leb 48 n && Nat.leb n 57 then Some (Z.of_nat (n - 48)) else None.

Definition hexVal (c : ascii) : option Z :=
  let n := nat_of_ascii c in
  if Nat.leb 48 n && Nat.leb n 57 then Some (Z.of_nat (n - 48))
  else if Nat.leb 97 n && Nat.leb n 102 then Some (Z.of_nat (n - 87))
  else if Nat.leb 65 n && Nat.leb n 70 then Some (Z.of_nat (n - 55))
  else None.

(** The value of the longest prefix of digits, [None] when it is empty. *)
Fixpoint digits (val : ascii -> option Z) (radix : Z) (acc : option Z)
    (s : string) : option Z :=
  match s with
  | EmptyString => acc
  | String c rest =>
      match val c with
      | Some d =>
          digits val radix
            (Some (radix * match acc with Some a => a | None => 0 end + d)%Z)
            rest
      | None => acc
      end
  end.

(** [s.toUpperCase()] on an ASCII string. *)
Fixpoint toUpperCase (s : string) : string :=
  match s with
  | EmptyString => EmptyString
  | String c rest =>
      let n := nat_of_ascii c in
      String (if Nat.leb 97 n && Nat.leb n 122 then ascii_of_nat (n - 32) else c)
        (toUpperCase rest)
  end.

(** [s.toLowerCase()] on an ASCII string. *)
Fixpoint toLowerCase (s : string) : string :=
  match s with
  | EmptyString => EmptyString
  | String c rest =>
      let n := nat_of_ascii c in
      String (if Nat.leb 65 n && Nat.leb n 90 then ascii_of_nat (n + 32) else c)
        (toLowerCase rest)
  end.

(** [s.trimEnd()] and [s.trim()] on an ASCII string. *)
Fixpoint trimEnd (s : string) : string :=
  match s with
  | EmptyString => EmptyString
  | String c rest =>
      match trimEnd rest with
      | EmptyString => if isSpace c then EmptyString else String c EmptyString
      | kept => String c kept
      end
  end.

Definition trim (s : string) : string := trimEnd (skipSpaces s).

(** [parseInt(s)] on an ASCII string: white space, a sign, an optional
    [0x], then digits; [None] is [NaN]. *)
Definition parseInt (s : string) : option Z :=
  let s1 := skipSpaces s in
  let '(sign, s2) :=
    match s1 with
    | String "-" r => ((-1)%Z, r)
    | String "+" r => (1%Z, r)
    | _ => (1%Z, s1)
    end in
  match s2 with
  | String "0" (String "x" r) | String "0" (String "X" r) =>
      option_map (Z.mul sign) (digits hexVal 16 None r)
  | _ => option_map (Z.mul sign) (digits digitVal 10 None s2)
  end.

End JS.

(* ================================================================== *)
(** * Data model (the three schemas) *)
(* ================================================================== *)

Definition ObjectId := string.
Bind Scope string_scope with ObjectId.

Inductive Role := super_admin | admin | teacher | student.

Definition Role_eqb (a b : Role) : bool :=
  match a, b with
  | super_admin, super_admin | admin, admin
  | teacher, teacher | student, student => true
  | _, _ => false
  end.

Inductive ExamType := mcq | cq | combined.

Record RefreshToken := mkRefreshToken {
  token : string;
  token_createdAt : Z
}.

Record ClassSection := mkClassSection {
  cs_class : string;
  cs_section : string
}.

Module Mark.
Record t := mk {
  subject : string;
  mcqScore : option float;
  mcqTotal : option float;
  cqScore : option float;
  cqTotal : option float;
  totalScore : float;
  grade : option string;
  gpa : option float
}.
End Mark.

Module Result.
Record t := mk {
  _id : ObjectId;
  student : ObjectId;
  class : string;
  semester : option string;
  examType : ExamType;
  marks : list Mark.t;
  totalMcqMarks : float;
  totalCqMarks : float;
  totalMarks : float;
  averageGPA : float;
  createdAt : Z
}.
End Result.

(** External collaborators: the modules the repository requires but which are
    configuration or third-party code. *)
Class Collaborators := {
  (** [config/gradeUtils]: percentage to (letter, grade point). *)
  getGrade : float -> string * float;
  (** [config/subjectsConfig]: class key to its subjects. *)
  subjectsConfig : string -> option (list string);
  (** [jwt.verify] with the server secret: the [id] of the payload of a
      token that verifies. *)
  jwt_verify : string -> option ObjectId;
  (** [jwt.sign({ id }, secret, { expiresIn: '24h' })]. *)
  jwt_sign : ObjectId -> string;
  (** [bcrypt.hash] after [genSalt] and [bcrypt.compare]. *)
  bcrypt_hash : string -> string;
  bcrypt_compare : string -> string -> bool
}.

(* ================================================================== *)
(** * Result grading: [resultSchema.pre("save")] *)
(* ================================================================== *)

Module Grading.
Section WithCollaborators.
Context {C : Collaborators}.

Import Mark.

(** The locals of the hook, and the calls it makes to [next] in order. *)
Record locals := mkLocals {
  totalMcq : float;
  totalCq : float;
  totalMarks : float;
  gpaSum : float;
  subjectCount : nat;
  nextCalls : list (option string)
}.

Definition locals0 : locals := mkLocals 0 0 0 0 0 [].

Definition subjectTotalScore (m : Mark.t) : float :=
  (JS.num_or0 (mcqScore m) + JS.num_or0 (cqScore m))%float.

Definition subjectTotalMarks (m : Mark.t) : float :=
  (JS.num_or0 (mcqTotal m) + JS.num_or0 (cqTotal m))%float.

Definition exceeds (m : Mark.t) : bool :=
  JS.gtb (subjectTotalScore m) (subjectTotalMarks m).

Definition scoreError (m : Mark.t) : string :=
  String.append "Score exceeds total marks for subject "%string (subject m).

Definition percentage (m : Mark.t) : float :=
  if JS.gtb (subjectTotalMarks m) 0
  then (subjectTotalScore m / subjectTotalMarks m * 100)%float
  else 0%float.

(** The callback given to [this.marks.map].  [return next(err)] leaves the
    callback only: its value for that entry is [undefined] and the
    traversal goes on. *)
Definition gradeEntry (st : locals) (m : Mark.t) : locals * option Mark.t :=
  if exceeds m
  then (mkLocals (totalMcq st) (totalCq st) (totalMarks st) (gpaSum st)
          (subjectCount st) (nextCalls st ++ [Some (scoreError m)]),
        None)
  else
    let '(g, p) := getGrade (percentage m) in
    (mkLocals (totalMcq st + JS.num_or0 (mcqScore m))%float
              (totalCq st + JS.num_or0 (cqScore m))%float
              (totalMarks st + subjectTotalScore m)%float
              (gpaSum st + p)%float
              (S (subjectCount st))
              (nextCalls st),
     Some (Mark.mk (subject m) (mcqScore m) (mcqTotal m) (cqScore m)
             (cqTotal m) (subjectTotalScore m) (Some g) (Some p))).

(** [Array.prototype.map] with the callback above, threading the locals. *)
Fixpoint gradeAll (st : locals) (ms : list Mark.t)
  : locals * list (option Mark.t) :=
  match ms with
  | [] => (st, [])
  | m :: rest =>
      let '(st1, r) := gradeEntry st m in
      let '(st2, rs) := gradeAll st1 rest in
      (st2, r :: rs)
  end.

(** The entries of the mapped array that are records.  An entry for which
    the callback returned [undefined] arises only after [next(err)], when
    the document is not stored. *)
Fixpoint definedEntries (rs : list (option Mark.t)) : list Mark.t :=
  match rs with
  | [] => []
  | Some m :: rest => m :: definedEntries rest
  | None :: rest => definedEntries rest
  end.

(** The document after the hook, and the calls to [next] in order. *)
Definition pre_save (doc : Result.t) : Result.t * list (option string) :=
  match Result.marks doc with
  | [] => (doc, [Some "Marks array cannot be empty"%string])
  | _ :: _ =>
      let '(st, rs) := gradeAll locals0 (Result.marks doc) in
      (Result.mk (Result._id doc) (Result.student doc) (Result.class doc)
         (Result.semester doc) (Result.examType doc)
         (definedEntries rs)
         (totalMcq st) (totalCq st) (totalMarks st)
         (match subjectCount st with
          | O => 0%float
          | S _ => JS.toFixed2 (gpaSum st / JS.ofNat (subjectCount st))%float
          end)
         (Result.createdAt doc),
       nextCalls st ++ [None])
  end.

End WithCollaborators.
End Grading.

(* ================================================================== *)
(** * Accounts, students and the stored collections *)
(* ================================================================== *)

Module User.
Record t := mk {
  _id : ObjectId;
  firstName : string;
  lastName : string;
  email : string;
  password : string;
  role : Role;
  assignedClasses : list ClassSection;
  adminCode : option string;
  createdBy : option ObjectId;
  refreshTokens : list RefreshToken;
  createdAt : Z
}.
End User.

Record PaymentDetail := mkPaymentDetail {
  initialAmount : Q;
  increasedAmount : Q;
  dueDate : Z;
  isPaid : bool;
  pd_createdAt : Z
}.

Module Student.
(** [lastPaymentDate] is read and written by the payment routes; the
    schema itself does not declare it. *)
Record t := mk {
  _id : ObjectId;
  name : string;
  userName : string;
  password : string;
  roll : Z;
  class : string;
  section : string;
  paymentAmount : Q;
  hasPaid : bool;
  paymentDetails : list PaymentDetail;
  createdBy : option ObjectId;
  refreshTokens : list RefreshToken;
  createdAt : Z;
  lastPaymentDate : option Z
}.
End Student.

Record DB := mkDB {
  users : list User.t;
  students : list Student.t;
  results : list Result.t
}.

(** [Model.findById]. *)
Definition findUser (db : DB) (id : ObjectId) : option User.t :=
  find (fun u => String.eqb (User._id u) id) (users db).

Definition findStudent (db : DB) (id : ObjectId) : option Student.t :=
  find (fun s => String.eqb (Student._id s) id) (students db).

(** Why a [save] was rejected. *)
Inductive SaveError :=
| ValidationFailed
| HookError (message : string)
| DuplicateKey (keyPattern : string)
| NeverSettles.

(* ================================================================== *)
(** * Responses and the two middlewares *)
(* ================================================================== *)

(** The projection of a student that the read routes return. *)
Record StudentSummary := mkStudentSummary {
  sum_name : string;
  sum_roll : Z;
  sum_class : string;
  sum_section : string
}.

(** [populate("createdBy", "firstName lastName email role")]. *)
Record Creator := mkCreator {
  cr_id : ObjectId;
  cr_firstName : string;
  cr_lastName : string;
  cr_email : string;
  cr_role : Role
}.

(** A student document after [select("-password -refreshTokens")] and
    [populate("createdBy", ...)]: the paths of the schema but those two. *)
Record StudentView := mkStudentView {
  sv_id : ObjectId;
  sv_name : string;
  sv_userName : string;
  sv_roll : Z;
  sv_class : string;
  sv_section : string;
  sv_paymentAmount : Q;
  sv_hasPaid : bool;
  sv_paymentDetails : list PaymentDetail;
  sv_createdBy : option Creator;
  sv_createdAt : Z
}.

(** The [user] object [POST /admin/create] answers with. *)
Record AdminView := mkAdminView {
  av_id : ObjectId;
  av_firstName : string;
  av_lastName : string;
  av_email : string;
  av_role : Role;
  av_adminCode : option string;
  av_createdBy : option ObjectId
}.

(** The [student] object the update route answers with. *)
Record StudentBrief := mkStudentBrief {
  sb_id : ObjectId;
  sb_name : string;
  sb_userName : string;
  sb_roll : Z;
  sb_class : string;
  sb_section : string;
  sb_createdBy : option ObjectId
}.

(** The [student] object of the payment routes; the populated creator is
    represented by its identifier. *)
Record PaymentView := mkPaymentView {
  pv_id : ObjectId;
  pv_name : string;
  pv_userName : string;
  pv_roll : Z;
  pv_class : string;
  pv_section : string;
  pv_paymentAmount : Q;
  pv_hasPaid : bool;
  pv_lastPaymentDate : option Z;
  pv_daysLeft : Z;
  pv_isOverdue : bool;
  pv_nextPaymentDue : Z;
  pv_createdBy : option ObjectId
}.

(** The [results] object of the result read routes. *)
Record ResultSummary := mkResultSummary {
  rs_examType : ExamType;
  rs_semester : option string;
  rs_marks : list Mark.t;
  rs_totalMcqMarks : float;
  rs_totalCqMarks : float;
  rs_totalMarks : float;
  rs_averageGPA : float
}.

Inductive Payload :=
| NoData
| ResultData (data : Result.t)
| ResultsOf (s : StudentSummary) (r : ResultSummary)
| OneStudent (s : StudentView)
| UpdatedStudent (s : StudentBrief)
| PaymentInfo (p : PaymentView)
| ManyStudents (students : list StudentView) (userRole : Role)
    (assignedClasses : option (list ClassSection))
| CreatedAdmin (a : AdminView)
| SignedIn (accessToken refreshToken : string) (id : ObjectId) (role : Role)
| Tokens (accessToken refreshToken : string).

Record Response := mkResponse {
  status : Z;
  message : option string;
  payload : Payload
}.

Definition reply (st : Z) (msg : string) : Response :=
  mkResponse st (Some msg) NoData.

(** A handler runs until it sends a response: [inl r] is an early
    [return res.status(..).json(..)], [inr a] goes on with [a]. *)
Definition step (A : Type) := (Response + A)%type.

Notation "x <- m ;; k" :=
  (match m with
   | inl r => inl r
   | inr x => k
   end)
  (at level 61, m at next level, right associativity).

(** [if (!o) return r]. *)
Definition orReply (A : Type) (o : option A) (r : Response) : step A :=
  match o with
  | Some a => inr a
  | None => inl r
  end.

(** [if (cond) return r]. *)
Definition replyIf (cond : bool) (r : Response) : step unit :=
  if cond then inl r else inr tt.

(** An early response leaves the collections as they were. *)
Definition finish (db : DB) (m : step (Response * DB)) : Response * DB :=
  match m with
  | inl r => (r, db)
  | inr p => p
  end.

(** [String.prototype.split] on a one-character separator. *)
Fixpoint split (sep : ascii) (s : string) : list string :=
  match s with
  | EmptyString => [EmptyString]
  | String c rest =>
      if Ascii.eqb c sep then EmptyString :: split sep rest
      else match split sep rest with
           | w :: ws => String c w :: ws
           | [] => [String c EmptyString]
           end
  end.

Section Middleware.
Context {C : Collaborators}.

(** [authHeader && authHeader.split(" ")[1]], when it is truthy. *)
Definition bearerToken (authHeader : option string) : option string :=
  match authHeader with
  | None => None
  | Some h =>
      match nth_error (split " "%char h) 1 with
      | Some t => if String.eqb t EmptyString then None else Some t
      | None => None
      end
  end.

(** [authenticateToken]: the response it sends, or [req.user.id]. *)
Definition authenticateToken (authHeader : option string)
  : Response + ObjectId :=
  match bearerToken authHeader with
  | None => inl (reply 401 "Access token required")
  | Some t =>
      match jwt_verify t with
      | None => inl (reply 403 "Invalid or expired token")
      | Some id => inr id
      end
  end.

(** [requireRole(allowedRoles)]: the response it sends, or
    [req.currentUser]. *)
Definition requireRole (allowedRoles : list Role) (db : DB) (id : ObjectId)
  : Response + User.t :=
  match findUser db id with
  | None => inl (reply 404 "User not found")
  | Some user =>
      if existsb (Role_eqb (User.role user)) allowedRoles
      then inr user
      else inl (reply 403 "Insufficient permissions")
  end.

End Middleware.

(* ================================================================== *)
(** * Result routes: [POST /submit/combined], [GET /results/:studentId] *)
(* ================================================================== *)

Module ResultRoutes.
Section WithCollaborators.
Context {C : Collaborators}.

(** The validators the schema declares: [required], [enum], [min: 0].
    [min] lets [undefined] and [null] through and asks [v >= 0] of a number,
    which [NaN] fails. *)
Definition semesters : list string := ["1st"; "2nd"; "3rd"]%string.

Definition min0 (x : option float) : bool :=
  match x with
  | Some q => (0 <=? q)%float
  | None => true
  end.

Definition validMark (m : Mark.t) : bool :=
  negb (String.eqb (Mark.subject m) EmptyString)
  && min0 (Mark.mcqScore m) && min0 (Mark.mcqTotal m)
  && min0 (Mark.cqScore m) && min0 (Mark.cqTotal m).

Definition validate (doc : Result.t) : bool :=
  negb (String.eqb (Result.student doc) EmptyString)
  && negb (String.eqb (Result.class doc) EmptyString)
  && match Result.semester doc with
     | Some s => existsb (String.eqb s) semesters
     | None => false
     end
  && forallb validMark (Result.marks doc).

(** [doc.save()]: validation, then the hook, then the insertion; the
    document's [_id] is drawn fresh by the driver.  The hook is written in
    the callback style, and the middleware runner honours the first call of
    [next] only: an error there rejects the save, a later call is ignored. *)
Definition save (db : DB) (doc : Result.t) : (SaveError + Result.t) * DB :=
  if validate doc then
    match Grading.pre_save doc with
    | (_, Some e :: _) => (inl (HookError e), db)
    | (doc', None :: _) =>
        (inr doc', mkDB (users db) (students db) (results db ++ [doc']))
    | (_, []) => (inl NeverSettles, db)
    end
  else (inl ValidationFailed, db).

(** One value of the [marks] object of the request body. *)
Record SubjectMarks := mkSubjectMarks {
  sm_mcqScore : option float;
  sm_mcqTotal : option float;
  sm_cqScore : option float;
  sm_cqTotal : option float
}.

Record SubmitBody := mkSubmitBody {
  studentId : option ObjectId;
  className : option string;
  classNumber : option string;
  semester : option string;
  marks : option (string -> option SubjectMarks)
}.

(** [className || classNumber]. *)
Definition classKey (b : SubmitBody) : option string :=
  if JS.truthy_str (className b) then className b else classNumber b.

(** The callback of [validSubjects.map] in the combined route. *)
Definition formatCombined (marksObj : string -> option SubjectMarks)
    (subject : string) : Mark.t :=
  match marksObj subject with
  | Some sm =>
      Mark.mk subject (Some (JS.num_or0 (sm_mcqScore sm)))
        (Some (JS.num_or0 (sm_mcqTotal sm)))
        (Some (JS.num_or0 (sm_cqScore sm)))
        (Some (JS.num_or0 (sm_cqTotal sm))) 0 None None
  | None =>
      Mark.mk subject (Some 0%float) (Some 0%float) (Some 0%float)
        (Some 0%float) 0 None None
  end.

Definition serverError : Response := reply 500 "Server error".

(** [`Invalid class: ${classKey}`]. *)
Definition invalidClass (k : option string) : string :=
  String.append "Invalid class: "
    match k with
    | Some s => s
    | None => "undefined"%string
    end.

(** [POST /submit/combined].  [now] and [newId] are the creation time and
    the identifier the new document receives.  With [marks] absent from
    the body the first [marks[subject]] throws, which the handler's
    [catch] answers. *)
Definition submitCombined (now : Z) (newId : ObjectId) (db : DB)
    (authHeader : option string) (b : SubmitBody) : Response * DB :=
  finish db (
    uid <- authenticateToken authHeader ;;
    _ <- requireRole [teacher; admin; super_admin] db uid ;;
    sid <- orReply (studentId b) (reply 404 "Student not found") ;;
    _ <- orReply (findStudent db sid) (reply 404 "Student not found") ;;
    key <- orReply (classKey b) (reply 400 (invalidClass None)) ;;
    validSubjects <- orReply (subjectsConfig key)
                       (reply 400 (invalidClass (Some key))) ;;
    marksObj <- match marks b, validSubjects with
                | Some o, _ => inr o
                | None, [] => inr (fun _ => None)
                | None, _ :: _ => inl serverError
                end ;;
    let formattedMarks := map (formatCombined marksObj) validSubjects in
    let newResult :=
      Result.mk newId sid key (semester b) combined formattedMarks
        0 0 0 0 now in
    match save db newResult with
    | (inr saved, db') =>
        inr (mkResponse 201
               (Some "Combined result submitted successfully"%string)
               (ResultData saved), db')
    | (inl _, db') => inr (serverError, db')
    end).

(** [findOne(filter).sort({ createdAt: -1 })] on the results. *)
Definition latest (rs : list Result.t) : option Result.t :=
  fold_left
    (fun best r =>
       match best with
       | None => Some r
       | Some b0 =>
           if Z.ltb (Result.createdAt b0) (Result.createdAt r)
           then Some r else Some b0
       end) rs None.

Definition summaryOf (s : Student.t) : StudentSummary :=
  mkStudentSummary (Student.name s) (Student.roll s) (Student.class s)
    (Student.section s).

Definition resultsOf (r : Result.t) : ResultSummary :=
  mkResultSummary (Result.examType r) (Result.semester r) (Result.marks r)
    (Result.totalMcqMarks r) (Result.totalCqMarks r) (Result.totalMarks r)
    (Result.averageGPA r).

(** [GET /results/:studentId]: the route registers the handler alone. *)
Definition getResults (db : DB) (authHeader : option string)
    (studentId : ObjectId) : Response :=
  match findStudent db studentId with
  | None => reply 404 "Student not found"
  | Some s =>
      match latest (filter (fun r => String.eqb (Result.student r) studentId)
                      (results db)) with
      | None => reply 404 "No results found for this student"
      | Some r => mkResponse 200 None (ResultsOf (summaryOf s) (resultsOf r))
      end
  end.

(** The stored string of an exam type. *)
Definition examTypeName (e : ExamType) : string :=
  match e with
  | mcq => "mcq"
  | cq => "cq"
  | combined => "combined"
  end.

(** [GET /results/:studentId/:examType]: [authenticateToken], then the
    handler; [examType] is the path parameter as it comes. *)
Definition getResultsByType (db : DB) (authHeader : option string)
    (studentId : ObjectId) (examType : string) : Response :=
  match
    _ <- authenticateToken authHeader ;;
    s <- orReply (findStudent db studentId) (reply 404 "Student not found") ;;
    r <- orReply
           (latest (filter (fun r => String.eqb (Result.student r) studentId
                                     && String.eqb
                                          (examTypeName (Result.examType r))
                                          examType)
                      (results db)))
           (reply 404 (String.append "No "
                         (String.append (JS.toUpperCase examType)
                            " results found for this student"))) ;;
    inr (mkResponse 200 None (ResultsOf (summaryOf s) (resultsOf r)))
  with
  | inl r => r
  | inr r => r
  end.

End WithCollaborators.
End ResultRoutes.

(* ================================================================== *)
(** * Saving accounts and students *)
(* ================================================================== *)

(** Replace the document with the same [_id], or append a new one. *)
Fixpoint upsert (A : Type) (id : A -> ObjectId) (d : A) (l : list A) : list A :=
  match l with
  | [] => [d]
  | x :: rest =>
      if String.eqb (id x) (id d) then d :: rest
      else x :: upsert id d rest
  end.

Definition nonEmpty (s : string) : bool := negb (String.eqb s EmptyString).

Definition validToken (t : RefreshToken) : bool := nonEmpty (token t).

Module StudentModel.

(** [studentSchema.pre("save")]; [now] is [new Date()]. *)
Definition pre_save (now : Z) (s : Student.t) : Student.t :=
  let details := Student.paymentDetails s in
  let set amount paid :=
    Student.mk (Student._id s) (Student.name s) (Student.userName s)
      (Student.password s) (Student.roll s) (Student.class s)
      (Student.section s) amount paid details (Student.createdBy s)
      (Student.refreshTokens s) (Student.createdAt s)
      (Student.lastPaymentDate s) in
  match nth_error details (List.length details - 1) with
  | Some latestPayment =>
      set (if isPaid latestPayment then 0
           else if Z.ltb (dueDate latestPayment) now
                then increasedAmount latestPayment
                else initialAmount latestPayment)
          (isPaid latestPayment)
  | None => set 0 false
  end.

(** The validators the schema declares. *)
Definition validDetail (d : PaymentDetail) : bool :=
  Qle_bool 0 (initialAmount d) && Qle_bool 0 (increasedAmount d).

Definition validate (s : Student.t) : bool :=
  nonEmpty (Student.name s) && nonEmpty (Student.userName s)
  && Nat.leb 6 (String.length (Student.password s))
  && nonEmpty (Student.class s) && nonEmpty (Student.section s)
  && Qle_bool 0 (Student.paymentAmount s)
  && forallb validDetail (Student.paymentDetails s)
  && forallb validToken (Student.refreshTokens s).

(** The unique index on [userName]. *)
Definition userNameTaken (db : DB) (s : Student.t) : bool :=
  existsb (fun o => negb (String.eqb (Student._id o) (Student._id s))
                    && String.eqb (Student.userName o) (Student.userName s))
    (students db).

(** [student.save()]: validation, the hook, then the write. *)
Definition save (now : Z) (db : DB) (s : Student.t)
  : (SaveError + Student.t) * DB :=
  if validate s then
    let s' := pre_save now s in
    if userNameTaken db s' then (inl (DuplicateKey "userName"), db)
    else (inr s',
          mkDB (users db) (upsert Student._id s' (students db)) (results db))
  else (inl ValidationFailed, db).

End StudentModel.

Module UserModel.

Definition validClass (c : ClassSection) : bool :=
  nonEmpty (cs_class c) && nonEmpty (cs_section c).

Definition validate (u : User.t) : bool :=
  nonEmpty (User.firstName u) && nonEmpty (User.lastName u)
  && nonEmpty (User.email u)
  && Nat.leb 6 (String.length (User.password u))
  && forallb validClass (User.assignedClasses u)
  && forallb validToken (User.refreshTokens u).

(** The unique index on [email] and the sparse unique index on
    [adminCode]. *)
Definition emailTaken (db : DB) (u : User.t) : bool :=
  existsb (fun o => negb (String.eqb (User._id o) (User._id u))
                    && String.eqb (User.email o) (User.email u))
    (users db).

Definition adminCodeTaken (db : DB) (u : User.t) : bool :=
  match User.adminCode u with
  | None => false
  | Some code =>
      existsb (fun o => negb (String.eqb (User._id o) (User._id u))
                        && match User.adminCode o with
                           | Some c => String.eqb c code
                           | None => false
                           end)
        (users db)
  end.

(** [user.save()]: validation, then the write (the schema has no hook).
    A document made by [new User(..)] is inserted, its [_id] drawn fresh by
    the driver; a document that was read is written back in place. *)
Definition save (isNew : bool) (db : DB) (u : User.t)
  : (SaveError + User.t) * DB :=
  if validate u then
    if emailTaken db u then (inl (DuplicateKey "email"), db)
    else if adminCodeTaken db u then (inl (DuplicateKey "adminCode"), db)
    else (inr u,
          mkDB (if isNew then users db ++ [u]
                else upsert User._id u (users db))
            (students db) (results db))
  else (inl ValidationFailed, db).

End UserModel.

(* ================================================================== *)
(** * Payment routes *)
(* ================================================================== *)

Module Payments.
Section WithCollaborators.
Context {C : Collaborators}.
Local Open Scope Z_scope.

Record PaymentCycle := mkPaymentCycle {
  needsReset : bool;
  daysLeft : Z;
  isOverdue : bool
}.

(** [calculatePaymentCycle]; [now] is [new Date()]. *)
Definition calculatePaymentCycle (now lastPaymentDate : Z) : PaymentCycle :=
  let daysSinceLastPayment :=
    (now - lastPaymentDate) / (1000 * 60 * 60 * 24) in
  let daysLeft := 30 - daysSinceLastPayment in
  if 30 <=? daysSinceLastPayment
  then mkPaymentCycle true 0 true
  else mkPaymentCycle false (Z.max 0 daysLeft) false.

(** The body of [PUT /payments/:studentId]: a field is [Some] when it is
    present with the type the handler asks for. *)
Record PaymentBody := mkPaymentBody {
  paymentAmount : option Q;
  hasPaid : option bool
}.

(** [student.createdBy.toString() !== req.user.id]; reading [toString] of
    an absent [createdBy] throws. *)
Definition notCreator (createdBy : option ObjectId) (uid : ObjectId)
  : step bool :=
  match createdBy with
  | Some c => inr (negb (String.eqb c uid))
  | None => inl (reply 500 "Server error")
  end.

(** [PUT /payments/:studentId]. *)
Definition updatePayment (now : Z) (db : DB) (authHeader : option string)
    (studentId : ObjectId) (b : PaymentBody) : Response * DB :=
  finish db (
    uid <- authenticateToken authHeader ;;
    currentUser <- requireRole [admin; super_admin] db uid ;;
    amount <- orReply (paymentAmount b) (reply 400 "Invalid payment amount") ;;
    _ <- replyIf (negb (Qle_bool 0 amount))
           (reply 400 "Invalid payment amount") ;;
    paid <- orReply (hasPaid b) (reply 400 "Invalid payment status") ;;
    student <- orReply (findStudent db studentId)
                 (reply 404 "Student not found") ;;
    denied <- (if Role_eqb (User.role currentUser) super_admin
               then inr false
               else notCreator (Student.createdBy student) uid) ;;
    _ <- replyIf denied (reply 403 "Not authorized to update this student") ;;
    let lastPaymentDate :=
      match Student.lastPaymentDate student with
      | Some d => d
      | None => Student.createdAt student
      end in
    let paymentCycle := calculatePaymentCycle now lastPaymentDate in
    let newLast :=
      if needsReset paymentCycle && paid then Some now
      else if paid then Some now else Student.lastPaymentDate student in
    let updatedStudent :=
      Student.mk (Student._id student) (Student.name student)
        (Student.userName student) (Student.password student)
        (Student.roll student) (Student.class student)
        (Student.section student) amount paid
        (Student.paymentDetails student) (Student.createdBy student)
        (Student.refreshTokens student) (Student.createdAt student)
        newLast in
    let base :=
      match newLast with
      | Some d => d
      | None => Student.createdAt updatedStudent
      end in
    let currentCycle := calculatePaymentCycle now base in
    inr (mkResponse 200
           (Some "Student payment information updated successfully"%string)
           (PaymentInfo
              (mkPaymentView (Student._id updatedStudent)
                 (Student.name updatedStudent)
                 (Student.userName updatedStudent)
                 (Student.roll updatedStudent)
                 (Student.class updatedStudent)
                 (Student.section updatedStudent)
                 (Student.paymentAmount updatedStudent)
                 (Student.hasPaid updatedStudent)
                 (Student.lastPaymentDate updatedStudent)
                 (daysLeft currentCycle) (isOverdue currentCycle)
                 (base + 30 * 24 * 60 * 60 * 1000)
                 (Student.createdBy updatedStudent))),
         mkDB (users db)
           (upsert Student._id updatedStudent (students db))
           (results db))).

End WithCollaborators.
End Payments.

(* ================================================================== *)
(** * Update routes: [PUT /student/:id], [DELETE /user/:id] *)
(* ================================================================== *)

Module UpdateRoutes.
Section WithCollaborators.
Context {C : Collaborators}.

Record StudentBody := mkStudentBody {
  name : option string;
  userName : option string;
  password : option string;
  roll : option Z;
  class : option string;
  section : option string
}.

Definition str (x : option string) : string :=
  match x with
  | Some s => s
  | None => EmptyString
  end.

(** [cls => cls.class === student.class && cls.section === student.section]
    under [some]. *)
Definition isAssigned (u : User.t) (s : Student.t) : bool :=
  existsb (fun cls => String.eqb (cs_class cls) (Student.class s)
                      && String.eqb (cs_section cls) (Student.section s))
    (User.assignedClasses u).

(** [['super_admin', 'admin'].includes(currentUser?.role)]. *)
Definition isAdminRole (currentUser : option User.t) : bool :=
  match currentUser with
  | Some u => existsb (Role_eqb (User.role u)) [super_admin; admin]
  | None => false
  end.

Definition briefOf (s : Student.t) : StudentBrief :=
  mkStudentBrief (Student._id s) (Student.name s) (Student.userName s)
    (Student.roll s) (Student.class s) (Student.section s)
    (Student.createdBy s).

Definition setStudent (s : Student.t) (name userName password : string)
    (roll : Z) (class section : string) : Student.t :=
  Student.mk (Student._id s) name userName password roll class section
    (Student.paymentAmount s) (Student.hasPaid s) (Student.paymentDetails s)
    (Student.createdBy s) (Student.refreshTokens s) (Student.createdAt s)
    (Student.lastPaymentDate s).

(** [PUT /student/:id] of the update router; [now] is the clock of the
    save hook. *)
Definition updateStudent (now : Z) (db : DB) (authHeader : option string)
    (id : ObjectId) (b : StudentBody) : Response * DB :=
  finish db (
    uid <- authenticateToken authHeader ;;
    student <- orReply (findStudent db id) (reply 404 "Student not found") ;;
    let currentUser := findUser db uid in
    (* Role-based permission checks *)
    _ <- match currentUser with
         | Some _ => inr tt
         | None =>
             match findStudent db uid with
             | Some currentStudent =>
                 replyIf (negb (String.eqb (Student._id currentStudent) id))
                   (reply 404 "Current user not found")
             | None => inl (reply 404 "Current user not found")
             end
         end ;;
    _ <- match currentUser with
         | Some u =>
             if Role_eqb (User.role u) teacher then
               _ <- replyIf (negb (isAssigned u student))
                      (reply 403 "Not authorized to update this student") ;;
               replyIf (JS.truthy_str (userName b) || JS.truthy_str (class b)
                        || JS.truthy_str (section b))
                 (reply 403 "Teachers can only update name or roll")
             else inr tt
         | None =>
             replyIf (JS.truthy_int (roll b) || JS.truthy_str (class b)
                      || JS.truthy_str (section b) || JS.truthy_str (userName b))
               (reply 403 "Students can only update name or password")
         end ;;
    (* Validate input *)
    newUserName <-
      (if JS.truthy_str (userName b)
          && negb (String.eqb (str (userName b)) (Student.userName student))
       then
         _ <- replyIf
                match find (fun o => String.eqb (Student.userName o)
                                       (str (userName b)))
                        (students db) with
                | Some existingStudent =>
                    negb (String.eqb (Student._id existingStudent) id)
                | None => false
                end
                (reply 400 "Username already in use") ;;
         inr (str (userName b))
       else inr (Student.userName student)) ;;
    _ <- replyIf
           (JS.truthy_int (roll b) && JS.truthy_str (class b)
            && JS.truthy_str (section b)
            && existsb (fun o => Z.eqb (Student.roll o)
                                   (match roll b with Some n => n | None => 0%Z end)
                                 && String.eqb (Student.class o) (str (class b))
                                 && String.eqb (Student.section o) (str (section b))
                                 && negb (String.eqb (Student._id o) id))
                 (students db))
           (reply 400 "Roll number already exists in this class and section") ;;
    _ <- replyIf (JS.truthy_str (password b)
                  && Nat.ltb (String.length (str (password b))) 6)
           (reply 400 "Password must be at least 6 characters") ;;
    (* Update fields *)
    let updated :=
      setStudent student
        (if JS.truthy_str (name b) then str (name b) else Student.name student)
        newUserName
        (if JS.truthy_str (password b) then bcrypt_hash (str (password b))
         else Student.password student)
        (match roll b with
         | Some n => if JS.truthy_int (roll b) && isAdminRole currentUser
                     then n else Student.roll student
         | None => Student.roll student
         end)
        (if JS.truthy_str (class b) && isAdminRole currentUser
         then str (class b) else Student.class student)
        (if JS.truthy_str (section b) && isAdminRole currentUser
         then str (section b) else Student.section student) in
    match StudentModel.save now db updated with
    | (inr saved, db') =>
        inr (mkResponse 200 (Some "Student updated successfully"%string)
               (UpdatedStudent (briefOf saved)), db')
    | (inl (DuplicateKey _), db') =>
        inr (reply 400 "Username or roll number already exists", db')
    | (inl _, db') => inr (reply 500 "Server error", db')
    end).

(** [User.deleteOne({ _id: id })]. *)
Fixpoint deleteOne (id : ObjectId) (l : list User.t) : list User.t :=
  match l with
  | [] => []
  | u :: rest =>
      if String.eqb (User._id u) id then rest else u :: deleteOne id rest
  end.

(** [DELETE /user/:id]. *)
Definition deleteUser (db : DB) (authHeader : option string) (id : ObjectId)
  : Response * DB :=
  finish db (
    uid <- authenticateToken authHeader ;;
    _ <- requireRole [super_admin; admin] db uid ;;
    user <- orReply (findUser db id) (reply 404 "User not found") ;;
    (* Role-based permission checks *)
    currentUser <- orReply (findUser db uid) (reply 500 "Server error") ;;
    denied <- (if Role_eqb (User.role currentUser) super_admin
               then inr false
               else Payments.notCreator (User.createdBy user) uid) ;;
    _ <- replyIf denied (reply 403 "Not authorized to delete this user") ;;
    (* Prevent super_admin from being deleted *)
    _ <- replyIf (Role_eqb (User.role user) super_admin)
           (reply 403 "Super admin cannot be deleted") ;;
    inr (reply 200 "User deleted successfully",
         mkDB (deleteOne id (users db)) (students db) (results db))).

End WithCollaborators.
End UpdateRoutes.

(* ================================================================== *)
(** * Account routes: [generateAdminCode], [POST /admin/create] *)
(* ================================================================== *)

Module AdminRoutes.
Section WithCollaborators.
Context {C : Collaborators}.

(** What the generator reads of [new Date()]: [getFullYear()] and
    [getMonth()] (January is 0). *)
Record Today := mkToday {
  fullYear : Z;
  month : Z
}.

(** [year + month]. *)
Definition codePrefix (t : Today) : string :=
  String.append (JS.sliceLast 2 (JS.toString (fullYear t)))
    (JS.padStart0 2 (JS.toString (month t + 1))).

(** The admin codes that match [new RegExp(`^${prefix}`)]. *)
Definition codesWith (prefix : string) (us : list User.t) : list string :=
  flat_map (fun u => match User.adminCode u with
                     | Some c => if String.prefix prefix c then [c] else []
                     | None => []
                     end) us.

(** The first of the codes under [sort: { adminCode: -1 }]. *)
Definition greatest (codes : list string) : option string :=
  fold_left (fun best c =>
               match best with
               | None => Some c
               | Some b0 => if String.ltb b0 c then Some c else Some b0
               end) codes None.

(** [sequence.toString()], where [None] is [NaN]. *)
Definition showSequence (sequence : option Z) : string :=
  match sequence with
  | Some n => JS.toString n
  | None => "NaN"%string
  end.

(** [generateAdminCode]. *)
Definition generateAdminCode (t : Today) (db : DB) : string :=
  let prefix := codePrefix t in
  let sequence :=
    match greatest (codesWith prefix (users db)) with
    | Some code =>
        if nonEmpty code
        then option_map (fun lastSequence => (lastSequence + 1)%Z)
               (JS.parseInt (JS.sliceLast 3 code))
        else Some 1%Z
    | None => Some 1%Z
    end in
  String.append prefix (JS.padStart0 3 (showSequence sequence)).

Record AdminBody := mkAdminBody {
  firstName : option string;
  lastName : option string;
  email : option string;
  password : option string
}.

Definition adminView (u : User.t) : AdminView :=
  mkAdminView (User._id u) (User.firstName u) (User.lastName u)
    (User.email u) (User.role u) (User.adminCode u) (User.createdBy u).

(** The handler of [POST /admin/create] from the point where the code has
    been generated: build the account, save it, answer. *)
Definition createAdminWith (adminCode : string) (now : Z) (newId : ObjectId)
    (db : DB) (uid : ObjectId) (b : AdminBody) : Response * DB :=
  let user :=
    User.mk newId (UpdateRoutes.str (firstName b))
      (UpdateRoutes.str (lastName b)) (UpdateRoutes.str (email b))
      (bcrypt_hash (UpdateRoutes.str (password b))) admin []
      (Some adminCode) (Some uid) [] now in
  match UserModel.save true db user with
  | (inr saved, db') =>
      (mkResponse 201 (Some "Admin created successfully"%string)
         (CreatedAdmin (adminView saved)), db')
  | (inl (DuplicateKey key), db') =>
      if String.eqb key "adminCode"
      then (reply 400 "Admin code already exists. Please try again.", db')
      else (reply 400 "User already exists", db')
  | (inl _, db') => (reply 500 "Server error", db')
  end.

(** The checks of [POST /admin/create] that come before the generation. *)
Definition createAdminChecks (db : DB) (authHeader : option string)
    (b : AdminBody) : step ObjectId :=
  uid <- authenticateToken authHeader ;;
  _ <- requireRole [super_admin] db uid ;;
  _ <- replyIf (negb (JS.truthy_str (firstName b) && JS.truthy_str (lastName b)
                      && JS.truthy_str (email b) && JS.truthy_str (password b)))
         (reply 400 "All fields are required") ;;
  _ <- replyIf (Nat.ltb (String.length (UpdateRoutes.str (password b))) 6)
         (reply 400 "Password must be at least 6 characters") ;;
  _ <- replyIf (existsb (fun u => String.eqb (User.email u)
                                    (UpdateRoutes.str (email b)))
                  (users db))
         (reply 400 "User already exists") ;;
  inr uid.

(** [POST /admin/create]. *)
Definition createAdmin (t : Today) (now : Z) (newId : ObjectId) (db : DB)
    (authHeader : option string) (b : AdminBody) : Response * DB :=
  match createAdminChecks db authHeader b with
  | inl r => (r, db)
  | inr uid => createAdminWith (generateAdminCode t db) now newId db uid b
  end.

End WithCollaborators.
End AdminRoutes.

(* ================================================================== *)
(** * Token routes: [POST /signin], [POST /refresh], [POST /logout] *)
(* ================================================================== *)

Module TokenRoutes.
Section WithCollaborators.
Context {C : Collaborators}.

(** [refreshTokens.slice(-5)]. *)
Definition lastFive (l : list RefreshToken) : list RefreshToken :=
  skipn (List.length l - 5) l.

(** [push({ token })], then the limit to five devices. *)
Definition pushLimited (now : Z) (refreshToken : string)
    (l : list RefreshToken) : list RefreshToken :=
  let pushed := l ++ [mkRefreshToken refreshToken now] in
  if Nat.ltb 5 (List.length pushed) then lastFive pushed else pushed.

(** [filter(token => token.token !== refreshToken)]. *)
Definition without (refreshToken : string) (l : list RefreshToken)
  : list RefreshToken :=
  filter (fun t => negb (String.eqb (token t) refreshToken)) l.

Definition setUserTokens (u : User.t) (l : list RefreshToken) : User.t :=
  User.mk (User._id u) (User.firstName u) (User.lastName u) (User.email u)
    (User.password u) (User.role u) (User.assignedClasses u)
    (User.adminCode u) (User.createdBy u) l (User.createdAt u).

Definition setStudentTokens (s : Student.t) (l : list RefreshToken)
  : Student.t :=
  Student.mk (Student._id s) (Student.name s) (Student.userName s)
    (Student.password s) (Student.roll s) (Student.class s)
    (Student.section s) (Student.paymentAmount s) (Student.hasPaid s)
    (Student.paymentDetails s) (Student.createdBy s) l
    (Student.createdAt s) (Student.lastPaymentDate s).

Definition saveUser (db : DB) (u : User.t) (ok : Response) : Response * DB :=
  match UserModel.save false db u with
  | (inr _, db') => (ok, db')
  | (inl _, db') => (reply 500 "Server error", db')
  end.

Definition saveStudent (now : Z) (db : DB) (s : Student.t) (ok : Response)
  : Response * DB :=
  match StudentModel.save now db s with
  | (inr _, db') => (ok, db')
  | (inl _, db') => (reply 500 "Server error", db')
  end.

Record SigninBody := mkSigninBody {
  email : option string;
  password : option string
}.

(** [POST /signin]; [refreshToken] is the [crypto.randomBytes(40)] of
    [generateTokens].  The two [findOne] cast their filter with the
    schema's setters: [email] is trimmed and put in lower case, [userName]
    is trimmed. *)
Definition signin (now : Z) (refreshToken : string) (db : DB)
    (b : SigninBody) : Response * DB :=
  finish db (
    _ <- replyIf (negb (JS.truthy_str (email b) && JS.truthy_str (password b)))
           (reply 400 "Email and password are required") ;;
    let login := UpdateRoutes.str (email b) in
    let pass := UpdateRoutes.str (password b) in
    match find (fun u => String.eqb (User.email u)
                                    (JS.toLowerCase (JS.trim login)))
            (users db) with
    | None =>
        studentDoc <- orReply
                        (find (fun s => String.eqb (Student.userName s)
                                          (JS.trim login))
                           (students db))
                        (reply 400 "Invalid email/username or password") ;;
        _ <- replyIf (negb (bcrypt_compare pass (Student.password studentDoc)))
               (reply 400 "Invalid email/username or password") ;;
        inr (saveStudent now db
               (setStudentTokens studentDoc
                  (pushLimited now refreshToken
                     (Student.refreshTokens studentDoc)))
               (mkResponse 200 None
                  (SignedIn (jwt_sign (Student._id studentDoc)) refreshToken
                     (Student._id studentDoc) student)))
    | Some user =>
        _ <- replyIf (negb (bcrypt_compare pass (User.password user)))
               (reply 400 "Invalid email or password") ;;
        inr (saveUser db
               (setUserTokens user
                  (pushLimited now refreshToken (User.refreshTokens user)))
               (mkResponse 200 None
                  (SignedIn (jwt_sign (User._id user)) refreshToken
                     (User._id user) (User.role user))))
    end).

Definition holds (refreshToken : string) (l : list RefreshToken) : bool :=
  existsb (fun t => String.eqb (token t) refreshToken) l.

(** [POST /refresh]; [newRefreshToken] is the fresh random token. *)
Definition refresh (now : Z) (newRefreshToken : string) (db : DB)
    (refreshToken : option string) : Response * DB :=
  finish db (
    _ <- replyIf (negb (JS.truthy_str refreshToken))
           (reply 400 "Refresh token required") ;;
    let old := UpdateRoutes.str refreshToken in
    match find (fun u => holds old (User.refreshTokens u)) (users db) with
    | Some user =>
        inr (saveUser db
               (setUserTokens user
                  (without old (User.refreshTokens user)
                   ++ [mkRefreshToken newRefreshToken now]))
               (mkResponse 200 None
                  (Tokens (jwt_sign (User._id user)) newRefreshToken)))
    | None =>
        student <- orReply
                     (find (fun s => holds old (Student.refreshTokens s))
                        (students db))
                     (reply 403 "Invalid refresh token") ;;
        inr (saveStudent now db
               (setStudentTokens student
                  (without old (Student.refreshTokens student)
                   ++ [mkRefreshToken newRefreshToken now]))
               (mkResponse 200 None
                  (Tokens (jwt_sign (Student._id student)) newRefreshToken)))
    end).

(** [POST /logout]. *)
Definition logout (now : Z) (db : DB) (authHeader : option string)
    (refreshToken : option string) : Response * DB :=
  finish db (
    uid <- authenticateToken authHeader ;;
    _ <- replyIf (negb (JS.truthy_str refreshToken))
           (reply 400 "Refresh token required") ;;
    let old := UpdateRoutes.str refreshToken in
    match findUser db uid with
    | Some user =>
        inr (saveUser db
               (setUserTokens user (without old (User.refreshTokens user)))
               (reply 200 "Logged out successfully"))
    | None =>
        student <- orReply (findStudent db uid) (reply 404 "User not found") ;;
        inr (saveStudent now db
               (setStudentTokens student
                  (without old (Student.refreshTokens student)))
               (reply 200 "Logged out successfully"))
    end).

End WithCollaborators.
End TokenRoutes.

(* ================================================================== *)
(** * Student routes: [GET /student], [GET /student/:id], [PUT /student/:id] *)
(* ================================================================== *)

Module StudentRoutes.
Section WithCollaborators.
Context {C : Collaborators}.

(** [populate("createdBy", "firstName lastName email role")]. *)
Definition populateCreator (db : DB) (createdBy : option ObjectId)
  : option Creator :=
  match createdBy with
  | Some id =>
      match findUser db id with
      | Some u => Some (mkCreator (User._id u) (User.firstName u)
                          (User.lastName u) (User.email u) (User.role u))
      | None => None
      end
  | None => None
  end.

(** [select("-password -refreshTokens")] and the population above. *)
Definition viewOf (db : DB) (s : Student.t) : StudentView :=
  mkStudentView (Student._id s) (Student.name s) (Student.userName s)
    (Student.roll s) (Student.class s) (Student.section s)
    (Student.paymentAmount s) (Student.hasPaid s) (Student.paymentDetails s)
    (populateCreator db (Student.createdBy s)) (Student.createdAt s).

(** [GET /student/:id]. *)
Definition getStudent (db : DB) (authHeader : option string) (id : ObjectId)
  : Response :=
  match
    uid <- authenticateToken authHeader ;;
    _ <- requireRole [super_admin; admin; teacher] db uid ;;
    s <- orReply (findStudent db id) (reply 404 "Student not found") ;;
    inr (mkResponse 200 None (OneStudent (viewOf db s)))
  with
  | inl r => r
  | inr r => r
  end.

(** [sort({ class: 1, section: 1, roll: 1 })], as a stable insertion. *)
Definition before (a b : Student.t) : bool :=
  match String.compare (Student.class a) (Student.class b) with
  | Lt => true
  | Gt => false
  | Eq =>
      match String.compare (Student.section a) (Student.section b) with
      | Lt => true
      | Gt => false
      | Eq => Z.leb (Student.roll a) (Student.roll b)
      end
  end.

Fixpoint insert (s : Student.t) (l : list Student.t) : list Student.t :=
  match l with
  | [] => [s]
  | x :: rest => if before s x then s :: l else x :: insert s rest
  end.

Definition sorted (l : list Student.t) : list Student.t :=
  fold_right insert [] l.

Definition inClass (className : string) (s : Student.t) : bool :=
  String.eqb (Student.class s) className.

Definition inSection (section : string) (s : Student.t) : bool :=
  String.eqb (Student.section s) section.

(** [{ $or: classes.map(cls => ({ class, section })) }]. *)
Definition inAnyOf (classes : list ClassSection) (s : Student.t) : bool :=
  existsb (fun cls => inClass (cs_class cls) s && inSection (cs_section cls) s)
    classes.

(** The query of the super admin branch. *)
Definition superQuery (className section : option string)
  : Student.t -> bool :=
  if JS.truthy_str className && JS.truthy_str section
  then fun s => inClass (UpdateRoutes.str className) s
                && inSection (UpdateRoutes.str section) s
  else if JS.truthy_str className then inClass (UpdateRoutes.str className)
  else if JS.truthy_str section then inSection (UpdateRoutes.str section)
  else fun _ => true.

(** The query of the admin branch: created by the admin or by a teacher
    the admin created. *)
Definition adminQuery (db : DB) (currentUser : User.t)
    (className section : option string) : Student.t -> bool :=
  let teacherIds :=
    map User._id
      (filter (fun u =>
                 match User.createdBy u with
                 | Some c => String.eqb c (User._id currentUser)
                 | None => false
                 end && Role_eqb (User.role u) teacher)
         (users db)) in
  fun s =>
    match Student.createdBy s with
    | Some c => existsb (String.eqb c) (User._id currentUser :: teacherIds)
    | None => false
    end
    && (if JS.truthy_str className
        then inClass (UpdateRoutes.str className) s else true)
    && (if JS.truthy_str section
        then inSection (UpdateRoutes.str section) s else true).

(** The teacher branch: [None] when [students] is set to the empty array
    without a query, otherwise the query to run. *)
Definition teacherQuery (assignedClasses : list ClassSection)
    (className section : option string) : option (Student.t -> bool) :=
  match assignedClasses with
  | [] => None
  | _ :: _ =>
      let cn := UpdateRoutes.str className in
      let sec := UpdateRoutes.str section in
      if JS.truthy_str className && JS.truthy_str section then
        if existsb (fun cls => String.eqb (cs_class cls) cn
                               && String.eqb (cs_section cls) sec)
             assignedClasses
        then Some (fun s => inClass cn s && inSection sec s)
        else None
      else if JS.truthy_str className then
        if existsb (fun cls => String.eqb (cs_class cls) cn) assignedClasses
        then Some (inAnyOf (filter (fun cls => String.eqb (cs_class cls) cn)
                              assignedClasses))
        else None
      else if JS.truthy_str section then
        if existsb (fun cls => String.eqb (cs_section cls) sec) assignedClasses
        then Some (inAnyOf (filter (fun cls => String.eqb (cs_section cls) sec)
                              assignedClasses))
        else None
      else Some (inAnyOf assignedClasses)
  end.

Definition countMessage (n : nat) (suffix : string) : string :=
  String.append (JS.toString (Z.of_nat n)) suffix.

(** [GET /student] with the query parameters [class] and [section]. *)
Definition listStudents (db : DB) (authHeader : option string)
    (className section : option string) : Response :=
  match
    uid <- authenticateToken authHeader ;;
    currentUser <- requireRole [super_admin; admin; teacher] db uid ;;
    let run q := map (viewOf db) (sorted (filter q (students db))) in
    match User.role currentUser with
    | super_admin =>
        let found := run (superQuery className section) in
        inr (mkResponse 200
               (Some (countMessage (List.length found) " students found"))
               (ManyStudents found super_admin None))
    | admin =>
        let found := run (adminQuery db currentUser className section) in
        inr (mkResponse 200
               (Some (countMessage (List.length found)
                        " students under your management"))
               (ManyStudents found admin None))
    | _ =>
        teacherDoc <- orReply (findUser db (User._id currentUser))
                        (reply 404 "Teacher not found") ;;
        let found :=
          match teacherQuery (User.assignedClasses teacherDoc)
                  className section with
          | Some q => run q
          | None => []
          end in
        inr (mkResponse 200
               (Some (countMessage (List.length found)
                        " students in your assigned classes"))
               (ManyStudents found (User.role currentUser)
                  (Some (User.assignedClasses currentUser))))
    end
  with
  | inl r => r
  | inr r => r
  end.

(** [PUT /student/:id] of the students router. *)
Definition putStudent (now : Z) (db : DB) (authHeader : option string)
    (id : ObjectId) (b : UpdateRoutes.StudentBody) : Response * DB :=
  finish db (
    uid <- authenticateToken authHeader ;;
    _ <- requireRole [super_admin; admin; teacher] db uid ;;
    s <- orReply (findStudent db id) (reply 404 "Student not found") ;;
    _ <- replyIf (JS.truthy_str (UpdateRoutes.password b)
                  && Nat.ltb (String.length
                                (UpdateRoutes.str (UpdateRoutes.password b))) 6)
           (reply 400 "Password must be at least 6 characters") ;;
    let updated :=
      UpdateRoutes.setStudent s
        (if JS.truthy_str (UpdateRoutes.name b)
         then UpdateRoutes.str (UpdateRoutes.name b) else Student.name s)
        (if JS.truthy_str (UpdateRoutes.userName b)
         then UpdateRoutes.str (UpdateRoutes.userName b)
         else Student.userName s)
        (if JS.truthy_str (UpdateRoutes.password b)
         then bcrypt_hash (UpdateRoutes.str (UpdateRoutes.password b))
         else Student.password s)
        (match UpdateRoutes.roll b with
         | Some n => if JS.truthy_int (UpdateRoutes.roll b)
                     then n else Student.roll s
         | None => Student.roll s
         end)
        (if JS.truthy_str (UpdateRoutes.class b)
         then UpdateRoutes.str (UpdateRoutes.class b) else Student.class s)
        (match UpdateRoutes.section b with
         | Some sec => sec
         | None => Student.section s
         end) in
    match StudentModel.save now db updated with
    | (inr saved, db') =>
        inr (mkResponse 200 (Some "Student updated successfully"%string)
               (OneStudent (viewOf db' saved)), db')
    | (inl (DuplicateKey _), db') =>
        inr (reply 400 "Username already exists", db')
    | (inl _, db') => inr (reply 500 "Server error", db')
    end).

End WithCollaborators.
End StudentRoutes.

(* ================================================================== *)
(** * The mounted application: which router answers a request *)
(* ================================================================== *)

Module Api.
Section WithCollaborators.
Context {C : Collaborators}.

(** The routers of the application, in the order [router.use('/data', ..)]
    mounts them on the one path. *)
Inductive Router :=
| signinRouter | studentsRouter | dashboardRouter | resultRouter
| updateRouter | paymentsRouter.

Definition mounted : list Router :=
  [signinRouter; studentsRouter; dashboardRouter; resultRouter;
   updateRouter; paymentsRouter].

Definition StudentUpdate : Type :=
  Z -> DB -> option string -> ObjectId -> UpdateRoutes.StudentBody
  -> Response * DB.

(** The handler chain a router registers for [PUT /student/:id], when it
    registers one.  Both chains end every request they receive with a
    response: each middleware answers or goes on to the next handler of
    the same chain, and the last handler answers on every path. *)
Definition putStudentOf (r : Router) : option StudentUpdate :=
  match r with
  | studentsRouter => Some StudentRoutes.putStudent
  | updateRouter => Some UpdateRoutes.updateStudent
  | _ => None
  end.

(** A request goes through the routers in mount order and is answered by
    the first chain registered for it; with none, the application answers
    404. *)
Fixpoint firstRegistered (A : Type) (route : Router -> option A)
    (rs : list Router) : option A :=
  match rs with
  | [] => None
  | r :: rest =>
      match route r with
      | Some h => Some h
      | None => firstRegistered route rest
      end
  end.

(** [PUT /api/data/student/:id] as the application answers it. *)
Definition putStudent (now : Z) (db : DB) (authHeader : option string)
    (id : ObjectId) (b : UpdateRoutes.StudentBody) : Response * DB :=
  match firstRegistered putStudentOf mounted with
  | Some h => h now db authHeader id b
  | None => (mkResponse 404 None NoData, db)
  end.

End WithCollaborators.
End Api.

(* ================================================================== *)
(** * Further routes of the same routers *)
(* ================================================================== *)

(** The strings of a request body are taken in the form the schema's
    setters ([trim], [lowercase]) leave them. *)

(** An answer whose entity is none of the payloads above: the status and
    message, and the entity when the handler sends one. *)
Record Sent (A : Type) := mkSent {
  head : Response;
  entity : option A
}.

(** An early response carries no entity and leaves the collections as they
    were. *)
Definition conclude (A : Type) (db : DB) (m : step (Sent A * DB))
  : Sent A * DB :=
  match m with
  | inl r => (mkSent r None, db)
  | inr p => p
  end.

(** [Model.deleteOne({ _id: id })]. *)
Fixpoint deleteFirst (A : Type) (key : A -> ObjectId) (id : ObjectId)
    (l : list A) : list A :=
  match l with
  | [] => []
  | x :: rest =>
      if String.eqb (key x) id then rest else x :: deleteFirst key id rest
  end.

(** The [user] object of the account routes: [adminCode] is present for an
    admin, [assignedClasses] for a teacher. *)
Record AccountView := mkAccountView {
  ac_id : ObjectId;
  ac_firstName : string;
  ac_lastName : string;
  ac_email : string;
  ac_role : Role;
  ac_adminCode : option string;
  ac_assignedClasses : option (list ClassSection);
  ac_createdBy : option ObjectId
}.

(** One element of an [assignedClasses] array of a request body. *)
Record ClassInfo := mkClassInfo {
  ci_class : option string;
  ci_section : option string
}.

(** [!classInfo.class || !classInfo.section]. *)
Definition incomplete (c : ClassInfo) : bool :=
  negb (JS.truthy_str (ci_class c) && JS.truthy_str (ci_section c)).

Definition toClassSection (c : ClassInfo) : ClassSection :=
  mkClassSection (UpdateRoutes.str (ci_class c)) (UpdateRoutes.str (ci_section c)).

(* ------------------------------------------------------------------ *)
(** ** [POST /submit/mcq] and [POST /submit/cq] *)

Module ScoreRoutes.
Section WithCollaborators.
Context {C : Collaborators}.

(** One value of the [marks] object of these two routes. *)
Record ScoreTotal := mkScoreTotal {
  score : option float;
  total : option float
}.

Record ScoreBody := mkScoreBody {
  studentId : option ObjectId;
  className : option string;
  classNumber : option string;
  semester : option string;
  marks : option (string -> option ScoreTotal)
}.

Definition classKey (b : ScoreBody) : option string :=
  if JS.truthy_str (className b) then className b else classNumber b.

(** The callback of [validSubjects.map] in the MCQ route. *)
Definition formatMcq (marksObj : string -> option ScoreTotal)
    (subject : string) : Mark.t :=
  match marksObj subject with
  | Some sm =>
      Mark.mk subject (Some (JS.num_or0 (score sm)))
        (Some (JS.num_or0 (total sm))) (Some 0%float) (Some 0%float) 0 None None
  | None =>
      Mark.mk subject (Some 0%float) (Some 0%float) (Some 0%float)
        (Some 0%float) 0 None None
  end.

(** The callback of [validSubjects.map] in the CQ route. *)
Definition formatCq (marksObj : string -> option ScoreTotal)
    (subject : string) : Mark.t :=
  match marksObj subject with
  | Some sm =>
      Mark.mk subject (Some 0%float) (Some 0%float)
        (Some (JS.num_or0 (score sm)))
        (Some (JS.num_or0 (total sm))) 0 None None
  | None =>
      Mark.mk subject (Some 0%float) (Some 0%float) (Some 0%float)
        (Some 0%float) 0 None None
  end.

(** The two handlers are the same text but for the formatter, the exam
    type and the message of the 201 answer. *)
Definition submitScores (examType : ExamType)
    (format : (string -> option ScoreTotal) -> string -> Mark.t)
    (submitted : string) (now : Z) (newId : ObjectId) (db : DB)
    (authHeader : option string) (b : ScoreBody) : Response * DB :=
  finish db (
    uid <- authenticateToken authHeader ;;
    _ <- requireRole [teacher; admin; super_admin] db uid ;;
    sid <- orReply (studentId b) (reply 404 "Student not found") ;;
    _ <- orReply (findStudent db sid) (reply 404 "Student not found") ;;
    key <- orReply (classKey b) (reply 400 (ResultRoutes.invalidClass None)) ;;
    validSubjects <- orReply (subjectsConfig key)
                       (reply 400 (ResultRoutes.invalidClass (Some key))) ;;
    marksObj <- match marks b, validSubjects with
                | Some o, _ => inr o
                | None, [] => inr (fun _ => None)
                | None, _ :: _ => inl ResultRoutes.serverError
                end ;;
    let formattedMarks := map (format marksObj) validSubjects in
    let newResult :=
      Result.mk newId sid key (semester b) examType formattedMarks
        0 0 0 0 now in
    match ResultRoutes.save db newResult with
    | (inr saved, db') =>
        inr (mkResponse 201 (Some submitted) (ResultData saved), db')
    | (inl _, db') => inr (ResultRoutes.serverError, db')
    end).

(** [POST /submit/mcq]. *)
Definition submitMcq :=
  submitScores mcq formatMcq "MCQ result submitted successfully".

(** [POST /submit/cq]. *)
Definition submitCq :=
  submitScores cq formatCq "CQ result submitted successfully".

End WithCollaborators.
End ScoreRoutes.

(* ------------------------------------------------------------------ *)
(** ** [GET /payments/:studentId] and [POST /payments/auto-reset] *)

Module PaymentReads.
Section WithCollaborators.
Context {C : Collaborators}.
Local Open Scope Z_scope.

Definition setHasPaid (s : Student.t) (paid : bool) : Student.t :=
  Student.mk (Student._id s) (Student.name s) (Student.userName s)
    (Student.password s) (Student.roll s) (Student.class s)
    (Student.section s) (Student.paymentAmount s) paid
    (Student.paymentDetails s) (Student.createdBy s)
    (Student.refreshTokens s) (Student.createdAt s)
    (Student.lastPaymentDate s).

(** [student.lastPaymentDate || student.createdAt]. *)
Definition cycleStart (s : Student.t) : Z :=
  match Student.lastPaymentDate s with
  | Some d => d
  | None => Student.createdAt s
  end.

(** [GET /payments/:studentId]. *)
Definition getPayment (now : Z) (db : DB) (authHeader : option string)
    (studentId : ObjectId) : Response * DB :=
  finish db (
    uid <- authenticateToken authHeader ;;
    currentUser <- requireRole [admin; super_admin; teacher] db uid ;;
    s <- orReply (findStudent db studentId) (reply 404 "Student not found") ;;
    denied <- (if Role_eqb (User.role currentUser) super_admin
               then inr false
               else Payments.notCreator (Student.createdBy s) uid) ;;
    _ <- replyIf denied (reply 403 "Not authorized to view this student") ;;
    let lastPaymentDate := cycleStart s in
    let paymentCycle := Payments.calculatePaymentCycle now lastPaymentDate in
    let reset := Payments.needsReset paymentCycle && Student.hasPaid s in
    let s1 := if reset then setHasPaid s false else s in
    inr (mkResponse 200 None
           (PaymentInfo
              (mkPaymentView (Student._id s1) (Student.name s1)
                 (Student.userName s1) (Student.roll s1) (Student.class s1)
                 (Student.section s1) (Student.paymentAmount s1)
                 (if Payments.needsReset paymentCycle then false
                  else Student.hasPaid s1)
                 (Student.lastPaymentDate s1)
                 (Payments.daysLeft paymentCycle)
                 (Payments.isOverdue paymentCycle)
                 (lastPaymentDate + 30 * 24 * 60 * 60 * 1000)
                 (Student.createdBy s1))),
         if reset
         then mkDB (users db) (upsert Student._id s1 (students db)) (results db)
         else db)).

(** The filter of the sweep: the cycle began before [thirtyDaysAgo] and the
    student has paid. *)
Definition due (thirtyDaysAgo : Z) (s : Student.t) : bool :=
  match Student.lastPaymentDate s with
  | Some d => d <? thirtyDaysAgo
  | None => Student.createdAt s <? thirtyDaysAgo
  end && Student.hasPaid s.

(** [Student.updateMany(filter, { $set: { hasPaid: false } })]. *)
Definition sweep (thirtyDaysAgo : Z) (l : list Student.t) : list Student.t :=
  map (fun s => if due thirtyDaysAgo s then setHasPaid s false else s) l.

Definition resetMessage (n : nat) : string :=
  String.append "Payment cycle reset completed. "
    (String.append (JS.toString (Z.of_nat n)) " students updated.").

(** [POST /payments/auto-reset]; [thirtyDaysAgo] is the date the handler
    computes with [setDate(getDate() - 30)]; the entity of the answer is
    [resetCount]. *)
Definition autoReset (thirtyDaysAgo : Z) (db : DB)
    (authHeader : option string) : Sent nat * DB :=
  conclude db (
    uid <- authenticateToken authHeader ;;
    _ <- requireRole [super_admin] db uid ;;
    let modifiedCount :=
      List.length (filter (due thirtyDaysAgo) (students db)) in
    inr (mkSent (reply 200 (resetMessage modifiedCount)) (Some modifiedCount),
         mkDB (users db) (sweep thirtyDaysAgo (students db)) (results db))).

End WithCollaborators.
End PaymentReads.

(* ------------------------------------------------------------------ *)
(** ** [PUT /user/:id] and [DELETE /student/:id] of the update router *)

Module AccountUpdate.
Section WithCollaborators.
Context {C : Collaborators}.

Record UserBody := mkUserBody {
  firstName : option string;
  lastName : option string;
  email : option string;
  password : option string;
  role : option string;
  adminCode : option string;
  assignedClasses : option (list ClassInfo)
}.

(** [['super_admin', 'admin', 'teacher'].includes(role)], with the role it
    names. *)
Definition allowedRole (r : option string) : option Role :=
  match r with
  | Some s =>
      if String.eqb s "super_admin" then Some super_admin
      else if String.eqb s "admin" then Some admin
      else if String.eqb s "teacher" then Some teacher
      else None
  | None => None
  end.

Definition accountView (u : User.t) : AccountView :=
  mkAccountView (User._id u) (User.firstName u) (User.lastName u)
    (User.email u) (User.role u)
    (if Role_eqb (User.role u) admin then User.adminCode u else None)
    (if Role_eqb (User.role u) teacher then Some (User.assignedClasses u)
     else None)
    (User.createdBy u).

(** The permission checks of [PUT /user/:id]. *)
Definition mayUpdate (currentUser user : User.t) (uid : ObjectId) : step unit :=
  if Role_eqb (User.role currentUser) super_admin then inr tt
  else
    _ <- (if Role_eqb (User.role currentUser) admin
          then denied <- Payments.notCreator (User.createdBy user) uid ;;
               replyIf denied (reply 403 "Not authorized to update this user")
          else inr tt) ;;
    if Role_eqb (User.role currentUser) teacher
    then replyIf (negb (String.eqb (User._id user) uid))
           (reply 403 "Not authorized to update other users")
    else inr tt.

(** [PUT /user/:id]. *)
Definition updateUser (db : DB) (authHeader : option string) (id : ObjectId)
    (b : UserBody) : Sent AccountView * DB :=
  conclude db (
    uid <- authenticateToken authHeader ;;
    user <- orReply (findUser db id) (reply 404 "User not found") ;;
    currentUser <- orReply (findUser db uid)
                     (reply 404 "Current user not found") ;;
    _ <- mayUpdate currentUser user uid ;;
    (* Validate input *)
    newEmail <-
      (if JS.truthy_str (email b)
          && negb (String.eqb (UpdateRoutes.str (email b)) (User.email user))
       then
         _ <- replyIf (existsb (fun o => String.eqb (User.email o)
                                           (UpdateRoutes.str (email b)))
                         (users db))
                (reply 400 "Email already in use") ;;
         inr (UpdateRoutes.str (email b))
       else inr (User.email user)) ;;
    _ <- replyIf (JS.truthy_str (password b)
                  && Nat.ltb (String.length (UpdateRoutes.str (password b))) 6)
           (reply 400 "Password must be at least 6 characters") ;;
    (* Role-specific updates *)
    let isSuper := Role_eqb (User.role currentUser) super_admin in
    let newRole :=
      match allowedRole (role b) with
      | Some r => if isSuper then r else User.role user
      | None => User.role user
      end in
    newCode <-
      (if isSuper && JS.truthy_str (adminCode b) && Role_eqb newRole admin
       then
         _ <- replyIf
                match find (fun o => match User.adminCode o with
                                     | Some c => String.eqb c
                                                   (UpdateRoutes.str (adminCode b))
                                     | None => false
                                     end) (users db) with
                | Some existingAdmin =>
                    negb (String.eqb (User._id existingAdmin) id)
                | None => false
                end
                (reply 400 "Admin code already in use") ;;
         inr (adminCode b)
       else inr (User.adminCode user)) ;;
    newClasses <-
      match assignedClasses b with
      | Some l =>
          if existsb (Role_eqb (User.role currentUser)) [super_admin; admin]
          then
            _ <- replyIf (existsb incomplete l)
                   (reply 400
                      "Each assigned class must have both class and section") ;;
            inr (map toClassSection l)
          else inr (User.assignedClasses user)
      | None => inr (User.assignedClasses user)
      end ;;
    let updated :=
      User.mk (User._id user)
        (if JS.truthy_str (firstName b) then UpdateRoutes.str (firstName b)
         else User.firstName user)
        (if JS.truthy_str (lastName b) then UpdateRoutes.str (lastName b)
         else User.lastName user)
        newEmail
        (if JS.truthy_str (password b)
         then bcrypt_hash (UpdateRoutes.str (password b))
         else User.password user)
        newRole newClasses newCode (User.createdBy user)
        (User.refreshTokens user) (User.createdAt user) in
    match UserModel.save false db updated with
    | (inr saved, db') =>
        inr (mkSent (reply 200 "User updated successfully")
               (Some (accountView saved)), db')
    | (inl (DuplicateKey _), db') =>
        inr (mkSent (reply 400 "Email or admin code already exists") None, db')
    | (inl _, db') => inr (mkSent (reply 500 "Server error") None, db')
    end).

(** [DELETE /student/:id]. *)
Definition deleteStudent (db : DB) (authHeader : option string)
    (id : ObjectId) : Response * DB :=
  finish db (
    uid <- authenticateToken authHeader ;;
    s <- orReply (findStudent db id) (reply 404 "Student not found") ;;
    currentUser <- orReply (findUser db uid)
                     (reply 403 "Not authorized to delete students") ;;
    _ <- (if Role_eqb (User.role currentUser) teacher
          then replyIf (negb (UpdateRoutes.isAssigned currentUser s))
                 (reply 403 "Not authorized to delete this student")
          else if Role_eqb (User.role currentUser) admin
          then denied <- Payments.notCreator (Student.createdBy s) uid ;;
               replyIf denied
                 (reply 403 "Not authorized to delete this student")
          else inr tt) ;;
    inr (reply 200 "Student deleted successfully",
         mkDB (users db) (deleteFirst Student._id id (students db))
           (results db))).

End WithCollaborators.
End AccountUpdate.

(* ------------------------------------------------------------------ *)
(** ** [POST /setup-super-admin], [POST /teacher/create],
       [POST /student/create] of the sign-in router *)

Module AccountCreate.
Section WithCollaborators.
Context {C : Collaborators}.

Definition isSuperAdmin (u : User.t) : bool :=
  Role_eqb (User.role u) super_admin.

Definition creatorView (u : User.t) : Creator :=
  mkCreator (User._id u) (User.firstName u) (User.lastName u)
    (User.email u) (User.role u).

(** [POST /setup-super-admin]; the route has no middleware. *)
Definition setupSuperAdmin (now : Z) (newId : ObjectId) (db : DB)
    (b : AdminRoutes.AdminBody) : Sent Creator * DB :=
  conclude db (
    _ <- replyIf (existsb isSuperAdmin (users db))
           (reply 400 "Super admin already exists") ;;
    _ <- replyIf (negb (JS.truthy_str (AdminRoutes.firstName b)
                        && JS.truthy_str (AdminRoutes.lastName b)
                        && JS.truthy_str (AdminRoutes.email b)
                        && JS.truthy_str (AdminRoutes.password b)))
           (reply 400 "All fields are required") ;;
    _ <- replyIf (Nat.ltb (String.length
                             (UpdateRoutes.str (AdminRoutes.password b))) 6)
           (reply 400 "Password must be at least 6 characters") ;;
    let superAdmin :=
      User.mk newId (UpdateRoutes.str (AdminRoutes.firstName b))
        (UpdateRoutes.str (AdminRoutes.lastName b))
        (UpdateRoutes.str (AdminRoutes.email b))
        (bcrypt_hash (UpdateRoutes.str (AdminRoutes.password b)))
        super_admin [] None None [] now in
    match UserModel.save true db superAdmin with
    | (inr saved, db') =>
        inr (mkSent (reply 201 "Super admin created successfully")
               (Some (creatorView saved)), db')
    | (inl (DuplicateKey _), db') =>
        inr (mkSent (reply 400 "User already exists") None, db')
    | (inl _, db') => inr (mkSent (reply 500 "Server error") None, db')
    end).

Record TeacherBody := mkTeacherBody {
  firstName : option string;
  lastName : option string;
  email : option string;
  password : option string;
  assignedClasses : option (list ClassInfo)
}.

(** [POST /teacher/create]; [assignedClasses] is [Some] when the body has
    an array there. *)
Definition createTeacher (now : Z) (newId : ObjectId) (db : DB)
    (authHeader : option string) (b : TeacherBody) : Sent AccountView * DB :=
  conclude db (
    uid <- authenticateToken authHeader ;;
    _ <- requireRole [admin; super_admin] db uid ;;
    classes <-
      match assignedClasses b with
      | Some l =>
          if JS.truthy_str (firstName b) && JS.truthy_str (lastName b)
             && JS.truthy_str (email b) && JS.truthy_str (password b)
          then inr l
          else inl (reply 400
                 "All fields are required and assignedClasses must be an array")
      | None =>
          inl (reply 400
                 "All fields are required and assignedClasses must be an array")
      end ;;
    _ <- replyIf (Nat.ltb (String.length (UpdateRoutes.str (password b))) 6)
           (reply 400 "Password must be at least 6 characters") ;;
    _ <- replyIf (existsb incomplete classes)
           (reply 400 "Each assigned class must have both class and section") ;;
    _ <- replyIf (existsb (fun u => String.eqb (User.email u)
                                      (UpdateRoutes.str (email b)))
                    (users db))
           (reply 400 "User already exists") ;;
    let user :=
      User.mk newId (UpdateRoutes.str (firstName b))
        (UpdateRoutes.str (lastName b)) (UpdateRoutes.str (email b))
        (bcrypt_hash (UpdateRoutes.str (password b))) teacher
        (map toClassSection classes) None (Some uid) [] now in
    match UserModel.save true db user with
    | (inr saved, db') =>
        inr (mkSent (reply 201 "Teacher created successfully")
               (Some (AccountUpdate.accountView saved)), db')
    | (inl (DuplicateKey _), db') =>
        inr (mkSent (reply 400 "User already exists") None, db')
    | (inl _, db') => inr (mkSent (reply 500 "Server error") None, db')
    end).

(** [`Roll ${roll} already exists in Class ${studentClass} (${section})`];
    the section is never empty where the message is built. *)
Definition rollTaken (roll : Z) (studentClass section : string) : string :=
  String.append "Roll "
    (String.append (JS.toString roll)
       (String.append " already exists in Class "
          (String.append studentClass
             (String.append " (" (String.append section ")"))))).

(** A stored student with that roll in that class and section. *)
Definition sameSeat (roll : Z) (studentClass section : string)
    (o : Student.t) : bool :=
  String.eqb (Student.class o) studentClass
  && String.eqb (Student.section o) section
  && Z.eqb (Student.roll o) roll.

(** [POST /student/create]. *)
Definition createStudent (now : Z) (newId : ObjectId) (db : DB)
    (authHeader : option string) (b : UpdateRoutes.StudentBody)
  : Response * DB :=
  finish db (
    uid <- authenticateToken authHeader ;;
    _ <- requireRole [admin; super_admin] db uid ;;
    _ <- replyIf (negb (JS.truthy_str (UpdateRoutes.name b)
                        && JS.truthy_str (UpdateRoutes.userName b)
                        && JS.truthy_str (UpdateRoutes.password b)
                        && JS.truthy_int (UpdateRoutes.roll b)
                        && JS.truthy_str (UpdateRoutes.class b)
                        && JS.truthy_str (UpdateRoutes.section b)))
           (reply 400 "All fields are required") ;;
    let name := UpdateRoutes.str (UpdateRoutes.name b) in
    let userName := UpdateRoutes.str (UpdateRoutes.userName b) in
    let password := UpdateRoutes.str (UpdateRoutes.password b) in
    let roll := match UpdateRoutes.roll b with Some n => n | None => 0%Z end in
    let studentClass := UpdateRoutes.str (UpdateRoutes.class b) in
    let section := UpdateRoutes.str (UpdateRoutes.section b) in
    _ <- replyIf (Nat.ltb (String.length password) 6)
           (reply 400 "Password must be at least 6 characters") ;;
    _ <- replyIf (existsb (fun o => String.eqb (Student.userName o) userName)
                    (students db))
           (reply 400 "Username already taken") ;;
    _ <- replyIf (existsb (sameSeat roll studentClass section) (students db))
           (reply 400 (rollTaken roll studentClass section)) ;;
    let newStudent :=
      Student.mk newId name userName (bcrypt_hash password) roll studentClass
        section 0 false [] (Some uid) [] now None in
    match StudentModel.save now db newStudent with
    | (inr saved, db') =>
        inr (mkResponse 201 (Some "Student created successfully"%string)
               (UpdatedStudent (UpdateRoutes.briefOf saved)), db')
    | (inl _, db') => inr (reply 500 "Server error", db')
    end).

End WithCollaborators.
End AccountCreate.

(* ------------------------------------------------------------------ *)
(** ** [DELETE /student/:id] of the students router *)

Module StudentsRouter.
Section WithCollaborators.
Context {C : Collaborators}.

(** [DELETE /student/:id]; [findByIdAndDelete] removes the document with
    that [_id]. *)
Definition deleteStudent (db : DB) (authHeader : option string)
    (id : ObjectId) : Response * DB :=
  finish db (
    uid <- authenticateToken authHeader ;;
    _ <- requireRole [super_admin; admin] db uid ;;
    _ <- orReply (findStudent db id) (reply 404 "Student not found") ;;
    inr (reply 200 "Student deleted successfully",
         mkDB (users db) (deleteFirst Student._id id (students db))
           (results db))).

End WithCollaborators.
End StudentsRouter.

(* ------------------------------------------------------------------ *)
(** ** [GET /teachers] of the sign-in router *)

Module TeacherList.
Section WithCollaborators.
Context {C : Collaborators}.

(** [populate('createdBy', 'firstName lastName email')]. *)
Record CreatorBrief := mkCreatorBrief {
  cb_id : ObjectId;
  cb_firstName : string;
  cb_lastName : string;
  cb_email : string
}.

(** An account after [select('-password -refreshTokens')] and the
    population above. *)
Record Listed := mkListed {
  li_id : ObjectId;
  li_firstName : string;
  li_lastName : string;
  li_email : string;
  li_role : Role;
  li_assignedClasses : list ClassSection;
  li_adminCode : option string;
  li_createdBy : option CreatorBrief;
  li_createdAt : Z
}.

Definition populateBrief (db : DB) (createdBy : option ObjectId)
  : option CreatorBrief :=
  match createdBy with
  | Some id =>
      match findUser db id with
      | Some u => Some (mkCreatorBrief (User._id u) (User.firstName u)
                          (User.lastName u) (User.email u))
      | None => None
      end
  | None => None
  end.

Definition listed (db : DB) (u : User.t) : Listed :=
  mkListed (User._id u) (User.firstName u) (User.lastName u) (User.email u)
    (User.role u) (User.assignedClasses u) (User.adminCode u)
    (populateBrief db (User.createdBy u)) (User.createdAt u).

(** [sort({ createdAt: -1 })], as a stable insertion. *)
Definition newer (a b : User.t) : bool :=
  Z.leb (User.createdAt b) (User.createdAt a).

Fixpoint insert (u : User.t) (l : list User.t) : list User.t :=
  match l with
  | [] => [u]
  | x :: rest => if newer u x then u :: l else x :: insert u rest
  end.

Definition newestFirst (l : list User.t) : list User.t :=
  fold_right insert [] l.

(** [{ class: { $in: teacherClasses } }]. *)
Definition classAmong (teacherClasses : list string) (cls : ClassSection)
  : bool :=
  existsb (String.eqb (cs_class cls)) teacherClasses.

(** The object under [$elemMatch] once [classFilter] is spread over what
    was there: [class] is the class of the query when the query names
    one, and the condition that was there otherwise; [section] is the
    section of the query when the query names one. *)
Definition merged (base : option (list string))
    (className section : option string) (cls : ClassSection) : bool :=
  (if JS.truthy_str className
   then String.eqb (cs_class cls) (UpdateRoutes.str className)
   else match base with
        | Some teacherClasses => classAmong teacherClasses cls
        | None => true
        end)
  && (if JS.truthy_str section
      then String.eqb (cs_section cls) (UpdateRoutes.str section)
      else true).

(** [query.assignedClasses], when the query has one. *)
Definition assignedFilter (base : option (list string))
    (className section : option string) : option (ClassSection -> bool) :=
  if JS.truthy_str className || JS.truthy_str section
  then Some (merged base className section)
  else match base with
       | Some teacherClasses => Some (classAmong teacherClasses)
       | None => None
       end.

(** The query of [User.find]: [role: 'teacher'], [createdBy] for an admin,
    [assignedClasses] with its [$elemMatch]. *)
Definition teachersQuery (currentUser : User.t) (uid : ObjectId)
    (className section : option string) : User.t -> bool :=
  let base :=
    if Role_eqb (User.role currentUser) teacher
    then Some (map cs_class (User.assignedClasses currentUser))
    else None in
  fun u =>
    Role_eqb (User.role u) teacher
    && (if Role_eqb (User.role currentUser) admin
        then match User.createdBy u with
             | Some c => String.eqb c uid
             | None => false
             end
        else true)
    && match assignedFilter base className section with
       | Some cond => existsb cond (User.assignedClasses u)
       | None => true
       end.

Definition roleMessage (r : Role) : string :=
  match r with
  | admin => " teachers created by you"
  | teacher => " teachers in your assigned classes"
  | super_admin => " teachers in the system"
  | student => " teachers found"
  end.

(** [GET /teachers] with the query parameters [class] and [section]; the
    entity is the [teachers] array and [userRole]. *)
Definition listTeachers (db : DB) (authHeader : option string)
    (className section : option string) : Sent (list Listed * Role) :=
  match
    uid <- authenticateToken authHeader ;;
    currentUser <- requireRole [admin; super_admin; teacher] db uid ;;
    _ <- replyIf (Role_eqb (User.role currentUser) student)
           (reply 403 "Unauthorized access") ;;
    let teachers :=
      map (listed db)
        (newestFirst
           (filter (teachersQuery currentUser uid className section)
              (users db))) in
    inr (mkSent
           (reply 200
              (StudentRoutes.countMessage (List.length teachers)
                 (roleMessage (User.role currentUser))))
           (Some (teachers, User.role currentUser)))
  with
  | inl r => mkSent r None
  | inr a => a
  end.

End WithCollaborators.
End TeacherList.

(* ================================================================== *)
(** * A sample installation *)
(* ================================================================== *)

Unset Implicit Arguments.

(** A grade policy and a subjects table for the examples. *)
Definition sampleGrade (p : float) : string * float :=
  if (80 <=? p)%float then ("A+"%string, 5%float)
  else if (70 <=? p)%float then ("A"%string, 4%float)
  else if (60 <=? p)%float then ("A-"%string, 3.5%float)
  else if (50 <=? p)%float then ("B"%string, 3%float)
  else if (40 <=? p)%float then ("C"%string, 2%float)
  else if (33 <=? p)%float then ("D"%string, 1%float)
  else ("F"%string, 0%float).

Definition sampleSubjects (k : string) : option (list string) :=
  if String.eqb k "9" then Some ["Bangla"; "English"; "Math"]%string else None.

(** Tokens of the examples are ["tok-" ++ id]. *)
Definition sampleVerify (t : string) : option ObjectId :=
  match t with
  | String "t" (String "o" (String "k" (String "-" id))) => Some id
  | _ => None
  end.

Definition sampleCollaborators : Collaborators :=
  {| getGrade := sampleGrade;
     subjectsConfig := sampleSubjects;
     jwt_verify := sampleVerify;
     jwt_sign := fun id => String.append "tok-" id;
     bcrypt_hash := fun p => String.append "h:" p;
     bcrypt_compare := fun p h => String.eqb (String.append "h:" p) h |}.

(** A small installation: the super admin [u0], an admin [u1] created by
    [u0], a teacher [u2] created by [u1] and assigned to class 9 section A,
    and two students of class 9, [s1] in section A and [s2] in section B. *)
Definition sampleSuper : User.t :=
  User.mk "u0" "Root" "Admin" "root@school.test" "h:secret0" super_admin
    [] None None [] 1000.

Definition sampleAdmin : User.t :=
  User.mk "u1" "Ada" "Min" "ada@school.test" "h:secret1" admin
    [] (Some "2511001"%string) (Some "u0"%string) [] 2000.

Definition sampleTeacher : User.t :=
  User.mk "u2" "Tea" "Cher" "tea@school.test" "h:secret2" teacher
    [mkClassSection "9" "A"] None (Some "u1"%string) [] 3000.

Definition sampleStudentA : Student.t :=
  Student.mk "s1" "Sam" "sam9a" "h:secret3" 5 "9" "A" 0 false []
    (Some "u1"%string) [] 4000 None.

Definition sampleStudentB : Student.t :=
  Student.mk "s2" "Bea" "bea9b" "h:secret4" 6 "9" "B" 0 false []
    (Some "u1"%string) [] 4500 None.

Definition sampleDB : DB :=
  mkDB [sampleSuper; sampleAdmin; sampleTeacher]
       [sampleStudentA; sampleStudentB] [].

(* ================================================================== *)
(** * Properties of the grading hook and of the result routes *)
(* ================================================================== *)

(** The sum of a list of numbers as a loop accumulates it: from [0], one
    double addition per element, in list order. *)
Definition sumF (l : list float) : float := fold_left PrimFloat.add l 0%float.

Module GradingFacts.
Section WithCollaborators.
Context {C : Collaborators}.
Import Grading.

(** What the callback returns for an entry within its total. *)
Definition graded (m : Mark.t) : Mark.t :=
  Mark.mk (Mark.subject m) (Mark.mcqScore m) (Mark.mcqTotal m)
    (Mark.cqScore m) (Mark.cqTotal m) (subjectTotalScore m)
    (Some (fst (getGrade (percentage m))))
    (Some (snd (getGrade (percentage m)))).

Lemma gradeEntry_ok st m :
  exceeds m = false ->
  gradeEntry st m =
    (mkLocals (totalMcq st + JS.num_or0 (Mark.mcqScore m))%float
       (totalCq st + JS.num_or0 (Mark.cqScore m))%float
       (totalMarks st + subjectTotalScore m)%float
       (gpaSum st + snd (getGrade (percentage m)))%float
       (S (subjectCount st)) (nextCalls st),
     Some (graded m)).
Proof.
  intros H. unfold gradeEntry, graded. rewrite H.
  destruct (getGrade (percentage m)); reflexivity.
Qed.

(** The calls to [next] made while mapping: one per entry over its total,
    in list order. *)
Lemma gradeAll_nextCalls ms : forall st,
  nextCalls (fst (gradeAll st ms)) =
  nextCalls st ++ map (fun m => Some (scoreError m)) (filter exceeds ms).
Proof.
  induction ms as [|m ms IH]; intros st; simpl.
  - now rewrite app_nil_r.
  - destruct (gradeEntry st m) as [st1 r] eqn:E.
    specialize (IH st1).
    destruct (gradeAll st1 ms) as [st2 rs]; simpl in *.
    rewrite IH. unfold gradeEntry in E.
    destruct (exceeds m).
    + inversion E; subst; simpl. now rewrite <- app_assoc.
    + destruct (getGrade (percentage m)). inversion E; subst; reflexivity.
Qed.

Lemma filter_head_find (A : Type) (f : A -> bool) (l : list A) :
  hd_error (filter f l) = find f l.
Proof.
  induction l as [|a l IH]; simpl; [reflexivity|].
  destruct (f a); [reflexivity | exact IH].
Qed.

Lemma existsb_find (A : Type) (f : A -> bool) (l : list A) :
  existsb f l = true -> exists a, find f l = Some a /\ In a l /\ f a = true.
Proof.
  induction l as [|a l IH]; simpl; [discriminate|].
  destruct (f a) eqn:E; intros H.
  - exists a; auto.
  - destruct (IH H) as (b & Hb & Hin & Hf). exists b; auto.
Qed.

(** With an entry over its total, the first call to [next] carries the
    error of the first such entry. *)
Lemma pre_save_first_call doc m :
  find exceeds (Result.marks doc) = Some m ->
  exists rest doc',
    pre_save doc = (doc', Some (scoreError m) :: rest).
Proof.
  intros Hf. unfold pre_save.
  destruct (Result.marks doc) as [|m0 ms] eqn:Em; [discriminate|].
  pose proof (gradeAll_nextCalls (m0 :: ms) locals0) as Hc.
  destruct (gradeAll locals0 (m0 :: ms)) as [st rs]. simpl fst in Hc.
  rewrite Hc. simpl nextCalls.
  pose proof (filter_head_find _ exceeds (m0 :: ms)) as Hh.
  rewrite Hf in Hh.
  destruct (filter exceeds (m0 :: ms)) as [|x xs]; [discriminate|].
  simpl in Hh. inversion Hh; subst.
  eexists. eexists. simpl. reflexivity.
Qed.

(** All entries within their totals: the traversal returns every graded
    entry, calls [next] for none, and each local has accumulated its
    addends in list order. *)
Lemma gradeAll_ok ms : forall st,
  forallb (fun m => negb (exceeds m)) ms = true ->
  exists st',
    gradeAll st ms = (st', map (fun m => Some (graded m)) ms) /\
    nextCalls st' = nextCalls st /\
    subjectCount st' = (subjectCount st + List.length ms)%nat /\
    totalMcq st' =
      fold_left PrimFloat.add
        (map (fun m => JS.num_or0 (Mark.mcqScore m)) ms) (totalMcq st) /\
    totalCq st' =
      fold_left PrimFloat.add
        (map (fun m => JS.num_or0 (Mark.cqScore m)) ms) (totalCq st) /\
    totalMarks st' =
      fold_left PrimFloat.add (map subjectTotalScore ms) (totalMarks st) /\
    gpaSum st' =
      fold_left PrimFloat.add
        (map (fun m => snd (getGrade (percentage m))) ms) (gpaSum st).
Proof.
  induction ms as [|m ms IH]; intros st H; simpl in *.
  - exists st. repeat split; try reflexivity; lia.
  - apply andb_true_iff in H. destruct H as [Hm Hms].
    apply negb_true_iff in Hm.
    rewrite (gradeEntry_ok st m Hm).
    match goal with
    | |- context [gradeAll ?s ms] =>
        destruct (IH s Hms) as (st' & E & Hn & Hc & H1 & H2 & H3 & H4)
    end.
    exists st'. rewrite E. simpl in *.
    repeat split; try assumption; lia.
Qed.

Lemma definedEntries_map_Some (A : Type) (f : A -> Mark.t) (l : list A) :
  definedEntries (map (fun a => Some (f a)) l) = map f l.
Proof. induction l; simpl; congruence. Qed.

End WithCollaborators.
End GradingFacts.

(** [toFixed(2)] read back as a number.  [y] is [x] rounded to two
    decimals when [y] is the double nearest to a multiple [n / 100] of one
    hundredth that lies within half a hundredth of the magnitude of [x],
    with the sign of [x]. *)
Definition rounded2 (x y : float) : Prop :=
  exists n : Z,
    (0 <= n)%Z /\
    Qabs (inject_Z n / 100 - Qabs (JS.exact x)) <= 1 # 200 /\
    y = if (x <? 0)%float then (- JS.nearest (inject_Z n / 100))%float
        else JS.nearest (inject_Z n / 100).

Lemma toFixed2_rounds (x : float) :
  is_nan x || is_infinity x = false ->
  (1e21 <=? abs x)%float = false ->
  rounded2 x (JS.toFixed2 x).
Proof.
  intros Hfin Hsmall. unfold rounded2, JS.toFixed2. rewrite Hfin, Hsmall.
  set (q := Qabs (JS.exact x)).
  assert (Hq : 0 <= q) by apply Qabs_nonneg.
  exists (Qfloor (q * 100 + (1 # 2))). split; [|split; [|reflexivity]].
  - change 0%Z with (Qfloor 0). apply Qfloor_resp_le. lra.
  - pose proof (Qfloor_le (q * 100 + (1 # 2))) as Hl.
    pose proof (Qlt_floor (q * 100 + (1 # 2))) as Hu.
    rewrite inject_Z_plus in Hu. change (inject_Z 1) with 1 in Hu.
    apply Qabs_Qle_condition. unfold Qdiv. change (/ 100) with (1 # 100).
    split; lra.
Qed.

(** Where [toFixed] falls back on [toString], the number comes back as it
    is. *)
Lemma toFixed2_kept (x : float) :
  is_nan x || is_infinity x = true \/ (1e21 <=? abs x)%float = true ->
  JS.toFixed2 x = x.
Proof.
  unfold JS.toFixed2. intros [H|H].
  - now rewrite H.
  - rewrite H. now destruct (is_nan x || is_infinity x).
Qed.


(** The responses of the two middlewares carry a message only. *)
Section MiddlewareFacts.
Context {C : Collaborators}.

Lemma authenticateToken_refusal h r :
  authenticateToken h = inl r ->
  r = reply 401 "Access token required"
  \/ r = reply 403 "Invalid or expired token".
Proof.
  unfold authenticateToken.
  destruct (bearerToken h) as [t|]; [destruct (jwt_verify t)|];
    intros E; inversion E; auto.
Qed.

Lemma requireRole_refusal roles db id r :
  requireRole roles db id = inl r ->
  r = reply 404 "User not found"
  \/ r = reply 403 "Insufficient permissions".
Proof.
  unfold requireRole.
  destruct (findUser db id) as [u|];
    [destruct (existsb (Role_eqb (User.role u)) roles)|];
    intros E; inversion E; auto.
Qed.

End MiddlewareFacts.

Ltac refusals :=
  repeat match goal with
    | H : authenticateToken _ = inl _ |- _ =>
        apply authenticateToken_refusal in H; destruct H; subst
    | H : requireRole _ _ _ = inl _ |- _ =>
        apply requireRole_refusal in H; destruct H; subst
    end.

Section ResultClaims.
Context {C : Collaborators}.
Import Grading ResultRoutes GradingFacts.

(** The per-entry computation as the specification words it, in the
    arithmetic of the language: an absent score counts as [0], sums and
    quotients are double operations. *)
Definition ref_totalScore (m : Mark.t) : float :=
  (JS.num_or0 (Mark.mcqScore m) + JS.num_or0 (Mark.cqScore m))%float.

Definition ref_totalPossible (m : Mark.t) : float :=
  (JS.num_or0 (Mark.mcqTotal m) + JS.num_or0 (Mark.cqTotal m))%float.

Definition ref_percentage (m : Mark.t) : float :=
  if (0 <? ref_totalPossible m)%float
  then (ref_totalScore m / ref_totalPossible m * 100)%float
  else 0%float.

(** The entry's score is above its total, both sums taken in doubles. *)
Definition over_total (m : Mark.t) : bool :=
  (ref_totalPossible m <? ref_totalScore m)%float.

(** The same comparison on the exact values of the four numbers. *)
Definition exactOf (x : option float) : Q := JS.exact (JS.num_or0 x).

Definition exactly_over_total (m : Mark.t) : Prop :=
  exactOf (Mark.mcqTotal m) + exactOf (Mark.cqTotal m)
  < exactOf (Mark.mcqScore m) + exactOf (Mark.cqScore m).

Lemma save_over_total db doc m :
  validate doc = true ->
  find exceeds (Result.marks doc) = Some m ->
  save db doc = (inl (HookError (scoreError m)), db).
Proof.
  intros Hv Hf. unfold save. rewrite Hv.
  destruct (pre_save_first_call doc m Hf) as (rest & doc' & E).
  now rewrite E.
Qed.

Lemma save_over_total_fails db doc :
  existsb exceeds (Result.marks doc) = true ->
  exists e, save db doc = (inl e, db).
Proof.
  intros H. destruct (existsb_find _ _ _ H) as (m & Hf & _ & _).
  destruct (validate doc) eqn:Hv.
  - exists (HookError (scoreError m)). now apply save_over_total.
  - unfold save. rewrite Hv. eexists; reflexivity.
Qed.

(** C1, as the code has it.  A marks list with an entry whose score sum
    [(mcqScore || 0) + (cqScore || 0)] is above its total sum
    [(mcqTotal || 0) + (cqTotal || 0)], both sums and the comparison taken
    in doubles as the hook takes them, is never stored: [save] fails and
    leaves the collections as they were; on a document that passes the
    schema validators the failure is the hook's error, whose message names
    the subject of the first such entry; and [POST /submit/combined] with
    such formatted marks answers with an error, no entity, and stores
    nothing. *)
Theorem C1_score_over_total_aborts_save :
  (forall (db : DB) (doc : Result.t),
      existsb over_total (Result.marks doc) = true ->
      (exists e, save db doc = (inl e, db)) /\
      (validate doc = true ->
       exists m, find over_total (Result.marks doc) = Some m /\
                 In m (Result.marks doc) /\ over_total m = true /\
                 save db doc =
                   (inl (HookError
                           (String.append
                              "Score exceeds total marks for subject "
                              (Mark.subject m))), db))) /\
  (forall now newId (db : DB) authHeader (b : SubmitBody) key subjects o,
      classKey b = Some key ->
      subjectsConfig key = Some subjects ->
      marks b = Some o ->
      existsb over_total (map (formatCombined o) subjects) = true ->
      exists r, submitCombined now newId db authHeader b = (r, db) /\
                (400 <= status r)%Z /\ payload r = NoData).
Proof.
  change over_total with exceeds.
  split.
  - intros db doc H. split; [now apply save_over_total_fails|].
    intros Hv. destruct (existsb_find _ _ _ H) as (m & Hf & Hin & Hm).
    exists m. repeat split; try assumption.
    now apply save_over_total.
  - intros now newId db authHeader b key subjects o Hk Hs Hm Hx.
    unfold submitCombined, finish.
    destruct (authenticateToken authHeader) as [r|uid] eqn:Ea;
      [refusals; eexists; repeat split; simpl; lia|].
    destruct (requireRole _ db uid) as [r|u] eqn:Er;
      [refusals; eexists; repeat split; simpl; lia|].
    destruct (studentId b) as [sid|]; simpl;
      [|eexists; repeat split; simpl; lia].
    destruct (findStudent db sid); simpl;
      [|eexists; repeat split; simpl; lia].
    rewrite Hk; simpl. rewrite Hs; simpl. rewrite Hm.
    match goal with
    | |- context [save db ?d] =>
        destruct (save_over_total_fails db d Hx) as (e & E); rewrite E
    end.
    eexists; repeat split; simpl; lia.
Qed.

(** A stored entry [g] is the graded form of the submitted entry [m]. *)
Definition graded_as (m g : Mark.t) : Prop :=
  Mark.subject g = Mark.subject m /\
  Mark.mcqScore g = Mark.mcqScore m /\ Mark.mcqTotal g = Mark.mcqTotal m /\
  Mark.cqScore g = Mark.cqScore m /\ Mark.cqTotal g = Mark.cqTotal m /\
  Mark.totalScore g = ref_totalScore m /\
  Mark.grade g = Some (fst (getGrade (ref_percentage m))) /\
  Mark.gpa g = Some (snd (getGrade (ref_percentage m))).

(** The grade point a stored entry carries. *)
Definition gpaOf (g : Mark.t) : float :=
  match Mark.gpa g with
  | Some p => p
  | None => 0%float
  end.

(** The mean grade point of stored entries, in doubles. *)
Definition meanGpa (gs : list Mark.t) : float :=
  (sumF (map gpaOf gs) / JS.ofNat (List.length gs))%float.

Lemma graded_graded_as m : graded_as m (graded m).
Proof. unfold graded_as, graded; simpl. repeat split; reflexivity. Qed.

Lemma Forall2_graded l : Forall2 graded_as l (map graded l).
Proof.
  induction l; simpl; constructor; [apply graded_graded_as | assumption].
Qed.

(** C2, as the code has it.  A non-empty marks list that passes the schema
    validators and has no entry above its total is stored, and the stored
    record carries the reference values in double arithmetic: every entry
    keeps its input and gets [totalScore = mcqScore + cqScore] and the
    grade and grade point of its percentage; each of [totalMcqMarks],
    [totalCqMarks] and [totalMarks] is the sum of its addends accumulated
    in list order; and [averageGPA] is the mean grade point through
    [toFixed(2)], which for a finite mean below [1e21] is the double
    nearest to a multiple of 1/100 within half a hundredth of it. *)
Theorem C2_saved_record_matches_reference :
  forall (db : DB) (doc : Result.t),
    Result.marks doc <> [] ->
    validate doc = true ->
    forallb (fun m => negb (over_total m)) (Result.marks doc) = true ->
    exists saved,
      save db doc =
        (inr saved, mkDB (users db) (students db) (results db ++ [saved])) /\
      Forall2 graded_as (Result.marks doc) (Result.marks saved) /\
      Result.totalMcqMarks saved =
        sumF (map (fun m => JS.num_or0 (Mark.mcqScore m)) (Result.marks doc)) /\
      Result.totalCqMarks saved =
        sumF (map (fun m => JS.num_or0 (Mark.cqScore m)) (Result.marks doc)) /\
      Result.totalMarks saved =
        sumF (map Mark.totalScore (Result.marks saved)) /\
      Result.averageGPA saved = JS.toFixed2 (meanGpa (Result.marks saved)) /\
      (is_nan (meanGpa (Result.marks saved))
       || is_infinity (meanGpa (Result.marks saved)) = false ->
       (1e21 <=? abs (meanGpa (Result.marks saved)))%float = false ->
       rounded2 (meanGpa (Result.marks saved)) (Result.averageGPA saved)).
Proof.
  intros db doc Hne Hv Hok.
  change over_total with exceeds in Hok.
  destruct (gradeAll_ok (Result.marks doc) locals0 Hok)
    as (st & E & Hn & Hc & H1 & H2 & H3 & H4).
  unfold save. rewrite Hv. unfold pre_save.
  destruct (Result.marks doc) as [|m0 ms] eqn:Em; [congruence|].
  rewrite E, Hn. simpl nextCalls. simpl app at 1.
  eexists. split; [reflexivity|].
  cbn [Result.marks Result.totalMcqMarks Result.totalCqMarks
       Result.totalMarks Result.averageGPA].
  rewrite Hc. cbn [subjectCount locals0 Nat.add List.length].
  rewrite definedEntries_map_Some.
  assert (Hmean : (gpaSum st / JS.ofNat (S (List.length ms)))%float
                  = meanGpa (map graded (m0 :: ms))).
  { unfold meanGpa, sumF. rewrite H4, length_map, map_map. reflexivity. }
  rewrite Hmean.
  split; [|split; [|split; [|split; [|split]]]].
  - apply (Forall2_graded (m0 :: ms)).
  - exact H1.
  - exact H2.
  - rewrite H3, map_map. reflexivity.
  - reflexivity.
  - apply toFixed2_rounds.
Qed.

End ResultClaims.

#[local] Open Scope float_scope.

(** C1 at the specification's own example, [{mcqScore: 80, mcqTotal: 50}]. *)
Definition overMarks (subject : string) : option ResultRoutes.SubjectMarks :=
  if String.eqb subject "Math"
  then Some (ResultRoutes.mkSubjectMarks (Some 80) (Some 50) None None)
  else Some (ResultRoutes.mkSubjectMarks (Some 30) (Some 50) (Some 20) (Some 50)).

Definition overBody : ResultRoutes.SubmitBody :=
  ResultRoutes.mkSubmitBody (Some "s1"%string) (Some "9"%string) None
    (Some "1st"%string) (Some overMarks).

Definition overDoc : Result.t :=
  Result.mk "r1" "s1" "9" (Some "1st"%string) combined
    [Mark.mk "Bangla" (Some 30) (Some 50) (Some 20) (Some 50) 0 None None;
     Mark.mk "Math" (Some 80) (Some 50) (Some 0) (Some 0) 0 None None]
    0 0 0 0 5000.

Lemma C1_witness :
  (exists e,
      ResultRoutes.save (C := sampleCollaborators) sampleDB overDoc
      = (inl e, sampleDB)) /\
  (exists m,
      find over_total (Result.marks overDoc) = Some m /\
      In m (Result.marks overDoc) /\ over_total m = true /\
      ResultRoutes.save (C := sampleCollaborators) sampleDB overDoc
      = (inl (HookError
                (String.append "Score exceeds total marks for subject "
                   (Mark.subject m))), sampleDB)) /\
  (exists r,
      ResultRoutes.submitCombined (C := sampleCollaborators) 5000 "r1"
        sampleDB (Some "Bearer tok-u2"%string) overBody = (r, sampleDB) /\
      (400 <= status r)%Z /\ payload r = NoData).
Proof.
  pose proof (@C1_score_over_total_aborts_save sampleCollaborators)
    as [Hsave Hroute].
  destruct (Hsave sampleDB overDoc eq_refl) as [Hfail Hname].
  split; [exact Hfail|]. split; [exact (Hname eq_refl)|].
  exact (Hroute 5000%Z "r1"%string sampleDB (Some "Bearer tok-u2"%string)
           overBody "9"%string ["Bangla"; "English"; "Math"]%string overMarks
           eq_refl eq_refl eq_refl eq_refl).
Defined.

(** An entry whose scores add up to more than its totals, by one mark in
    [2^53 + 1]: the double sum of the scores rounds to [2^53], the
    comparison of the hook sees no excess, and the record is stored. *)
Definition roundedMarks (subject : string) : option ResultRoutes.SubjectMarks :=
  if String.eqb subject "Math"
  then Some (ResultRoutes.mkSubjectMarks
               (Some 9007199254740992) (Some 9007199254740992) (Some 1) None)
  else None.

Definition roundedBody : ResultRoutes.SubmitBody :=
  ResultRoutes.mkSubmitBody (Some "s1"%string) (Some "9"%string) None
    (Some "1st"%string) (Some roundedMarks).

Definition roundedMark : Mark.t :=
  Mark.mk "Math" (Some 9007199254740992) (Some 9007199254740992)
    (Some 1) (Some 0) 0 None None.

Definition roundedDoc : Result.t :=
  Result.mk "r3" "s1" "9" (Some "1st"%string) combined [roundedMark]
    0 0 0 0 5000.

(** C1 as the specification states it fails there: the entry's
    [mcqScore + cqScore] is strictly greater than its [mcqTotal + cqTotal],
    and the save succeeds and the route stores the record. *)
Lemma C1_exact_excess_is_stored :
  In roundedMark (Result.marks roundedDoc) /\
  exactly_over_total roundedMark /\
  (exists saved,
      ResultRoutes.save (C := sampleCollaborators) sampleDB roundedDoc =
        (inr saved, mkDB (users sampleDB) (students sampleDB) [saved])) /\
  (exists saved,
      In roundedMark
        (map (ResultRoutes.formatCombined roundedMarks)
           ["Bangla"; "English"; "Math"]%string) /\
      ResultRoutes.submitCombined (C := sampleCollaborators)
        5000 "r3" sampleDB (Some "Bearer tok-u2"%string) roundedBody =
        (mkResponse 201 (Some "Combined result submitted successfully"%string)
           (ResultData saved),
         mkDB (users sampleDB) (students sampleDB) [saved])).
Proof.
  split; [left; reflexivity|].
  split; [vm_compute; reflexivity|].
  split; eexists; [|split; [right; right; left|]]; vm_compute; reflexivity.
Qed.

(** A submission within its totals, for class 9. *)
Definition fineDoc : Result.t :=
  Result.mk "r2" "s1" "9" (Some "2nd"%string) combined
    [Mark.mk "Bangla" (Some 30) (Some 50) (Some 20) (Some 50) 0 None None;
     Mark.mk "English" (Some 45) (Some 50) (Some 40) (Some 50) 0 None None;
     Mark.mk "Math" (Some 50) (Some 50) (Some 50) (Some 50) 0 None None]
    0 0 0 0 6000.

(** The stored record of that submission, computed. *)
Definition fineSaved : Result.t :=
  Result.mk "r2" "s1" "9" (Some "2nd"%string) combined
    [Mark.mk "Bangla" (Some 30) (Some 50) (Some 20) (Some 50)
       50 (Some "B"%string) (Some 3);
     Mark.mk "English" (Some 45) (Some 50) (Some 40) (Some 50)
       85 (Some "A+"%string) (Some 5);
     Mark.mk "Math" (Some 50) (Some 50) (Some 50) (Some 50)
       100 (Some "A+"%string) (Some 5)]
    125 110 235 4.33 6000.

Example fineDoc_saved :
  ResultRoutes.save (C := sampleCollaborators) sampleDB fineDoc =
  (inr fineSaved, mkDB (users sampleDB) (students sampleDB) [fineSaved]).
Proof. vm_compute. reflexivity. Qed.

Lemma C2_witness :
  ResultRoutes.save (C := sampleCollaborators) sampleDB fineDoc =
    (inr fineSaved,
     mkDB (users sampleDB) (students sampleDB) (results sampleDB ++ [fineSaved])) /\
  Forall2 (graded_as (C := sampleCollaborators))
    (Result.marks fineDoc) (Result.marks fineSaved) /\
  Result.totalMcqMarks fineSaved = sumF [30; 45; 50] /\
  Result.totalCqMarks fineSaved = sumF [20; 40; 50] /\
  Result.totalMarks fineSaved = sumF [50; 85; 100] /\
  Result.averageGPA fineSaved = JS.toFixed2 (sumF [3; 5; 5] / 3) /\
  rounded2 (sumF [3; 5; 5] / 3) (Result.averageGPA fineSaved).
Proof.
  destruct (@C2_saved_record_matches_reference sampleCollaborators
              sampleDB fineDoc)
    as (saved & E & Hg & H1 & H2 & H3 & H4 & H5).
  - discriminate.
  - reflexivity.
  - reflexivity.
  - assert (Hs : saved = fineSaved).
    { rewrite fineDoc_saved in E. now inversion E. }
    subst saved.
    split; [exact E|]. split; [exact Hg|]. split; [exact H1|].
    split; [exact H2|]. split; [exact H3|]. split; [exact H4|].
    apply H5; reflexivity.
Defined.

(** Scores in tenths, each entry within its total. *)
Definition tenthsDoc : Result.t :=
  Result.mk "r4" "s1" "9" (Some "1st"%string) combined
    [Mark.mk "Bangla" (Some 0.1) (Some 1) (Some 0.1) (Some 1) 0 None None;
     Mark.mk "English" (Some 0.2) (Some 1) (Some 0.3) (Some 1) 0 None None]
    0 0 0 0 7000.

(** C2 as the specification states it fails there: the list is not empty,
    passes the validators and has no entry above its total, and the stored
    [totalMarks] is not [totalMcqMarks + totalCqMarks], neither as doubles
    nor as the exact values of the three stored numbers. *)
Lemma C2_totals_not_additive :
  Result.marks tenthsDoc <> [] /\
  ResultRoutes.validate tenthsDoc = true /\
  forallb (fun m => negb (over_total m)) (Result.marks tenthsDoc) = true /\
  exists saved,
    ResultRoutes.save (C := sampleCollaborators) sampleDB tenthsDoc =
      (inr saved, mkDB (users sampleDB) (students sampleDB) [saved]) /\
    Result.totalMarks saved = 0.7 /\
    (Result.totalMcqMarks saved + Result.totalCqMarks saved)
    = 0.7000000000000001 /\
    (Result.totalMarks saved
     =? Result.totalMcqMarks saved + Result.totalCqMarks saved) = false /\
    ~ (JS.exact (Result.totalMarks saved)
       == JS.exact (Result.totalMcqMarks saved)
          + JS.exact (Result.totalCqMarks saved))%Q.
Proof.
  split; [discriminate|]. split; [reflexivity|]. split; [reflexivity|].
  eexists. split; [vm_compute; reflexivity|].
  split; [vm_compute; reflexivity|]. split; [vm_compute; reflexivity|].
  split; [vm_compute; reflexivity|].
  intros H. vm_compute in H. discriminate H.
Qed.

(** [toFixed(2)] on doubles: [3.5 / 20] lies just below [0.175] and goes
    down, [0.125] is a tie and goes up, [1.005] lies just below the tie,
    and a small number below zero keeps its sign. *)
Example toFixed2_samples :
  JS.toFixed2 (3.5 / 20) = 0.17 /\ JS.toFixed2 (13 / 3) = 4.33 /\
  JS.toFixed2 0.125 = 0.13 /\ JS.toFixed2 1.005 = 1 /\
  JS.toFixed2 (-0.001) = -0 /\ JS.toFixed2 (0 / 0) = nan /\
  JS.toFixed2 1e21 = 1e21.
Proof. repeat split; vm_compute; reflexivity. Qed.

#[local] Close Scope float_scope.


(* ================================================================== *)
(** * The payment cycle and the payment fields *)
(* ================================================================== *)

Section PaymentCycleClaims.
Import Payments.
Local Open Scope Z_scope.

Definition day : Z := 86400000.

(** Whole days elapsed: the floor of the elapsed time over one day. *)
Lemma elapsed_days now last d :
  d * day <= now - last < (d + 1) * day ->
  (now - last) / (1000 * 60 * 60 * 24) = d.
Proof.
  unfold day. intros [Hl Hu].
  change (1000 * 60 * 60 * 24) with 86400000.
  symmetry. apply (Z.div_unique_pos _ _ d (now - last - d * 86400000)); lia.
Qed.

(** C3.  With [elapsedDays] the whole days between [lastPaymentDate] and
    [now]: from 30 days on the cycle is [{needsReset: true, daysLeft: 0,
    isOverdue: true}], before that
    [{needsReset: false, daysLeft: max(0, 30 - elapsedDays),
    isOverdue: false}]; 29 days back gives one day left and not overdue,
    30 days back gives the reset. *)
Theorem C3_payment_cycle :
  (forall now lastPaymentDate elapsedDays,
      elapsedDays * day <= now - lastPaymentDate < (elapsedDays + 1) * day ->
      (30 <= elapsedDays ->
       calculatePaymentCycle now lastPaymentDate
       = mkPaymentCycle true 0 true) /\
      (elapsedDays < 30 ->
       calculatePaymentCycle now lastPaymentDate
       = mkPaymentCycle false (Z.max 0 (30 - elapsedDays)) false)) /\
  (forall now,
      calculatePaymentCycle now (now - 29 * day)
      = mkPaymentCycle false 1 false) /\
  (forall now,
      calculatePaymentCycle now (now - 30 * day)
      = mkPaymentCycle true 0 true).
Proof.
  assert (main : forall now last d,
             d * day <= now - last < (d + 1) * day ->
             calculatePaymentCycle now last
             = if 30 <=? d then mkPaymentCycle true 0 true
               else mkPaymentCycle false (Z.max 0 (30 - d)) false).
  { intros now last d H. unfold calculatePaymentCycle.
    now rewrite (elapsed_days now last d H). }
  split; [|split].
  - intros now last d H. rewrite (main now last d H). split; intros Hd.
    + apply Z.leb_le in Hd. now rewrite Hd.
    + apply Z.leb_gt in Hd. now rewrite Hd.
  - intros now. rewrite (main now _ 29); [reflexivity | unfold day; lia].
  - intros now. rewrite (main now _ 30); [reflexivity | unfold day; lia].
Qed.

End PaymentCycleClaims.

Lemma C3_witness :
  Payments.calculatePaymentCycle 1762041600000 (1762041600000 - 12 * day - 5000)
  = Payments.mkPaymentCycle false (Z.max 0 (30 - 12)) false.
Proof.
  refine (proj2 (proj1 C3_payment_cycle 1762041600000%Z
                   (1762041600000 - 12 * day - 5000)%Z 12%Z _) _).
  - unfold day; lia.
  - lia.
Defined.

Section StoreFacts.

Lemma find_upsert (A : Type) (id : A -> ObjectId) (d : A) (l : list A) :
  find (fun x => String.eqb (id x) (id d)) (upsert id d l) = Some d.
Proof.
  induction l as [|x l IH]; simpl.
  - now rewrite String.eqb_refl.
  - destruct (String.eqb (id x) (id d)) eqn:E; simpl.
    + now rewrite String.eqb_refl.
    + now rewrite E.
Qed.

Lemma findStudent_id db id s : findStudent db id = Some s -> Student._id s = id.
Proof.
  unfold findStudent. intros H. apply find_some in H.
  now apply String.eqb_eq.
Qed.

Lemma nth_error_last (A : Type) (l : list A) :
  nth_error l (List.length l - 1) = hd_error (rev l).
Proof.
  destruct (rev l) as [|a r] eqn:E.
  - apply (f_equal (@rev A)) in E. rewrite rev_involutive in E. now subst.
  - apply (f_equal (@rev A)) in E. rewrite rev_involutive in E. subst l.
    simpl. rewrite length_app, nth_error_app2; rewrite length_rev; simpl.
    + replace (List.length r + 1 - 1 - List.length r)%nat with 0%nat by lia.
      reflexivity.
    + lia.
Qed.

End StoreFacts.

Section PaymentFieldClaims.
Context {C : Collaborators}.
Import Payments.

(** The derivation rule as the specification words it: from the latest
    entry of the payment history and the current date. *)
Definition derivedPayment (now : Z) (history : list PaymentDetail) : Q * bool :=
  match hd_error (rev history) with
  | None => (0, false)
  | Some latest =>
      (if isPaid latest then 0
       else if Z.ltb (dueDate latest) now then increasedAmount latest
            else initialAmount latest,
       isPaid latest)
  end.

Definition payment_derived (now : Z) (s : Student.t) : Prop :=
  (Student.paymentAmount s, Student.hasPaid s)
  = derivedPayment now (Student.paymentDetails s).

Lemma pre_save_derived now s :
  payment_derived now (StudentModel.pre_save now s).
Proof.
  unfold payment_derived, StudentModel.pre_save, derivedPayment.
  rewrite nth_error_last.
  destruct (hd_error (rev (Student.paymentDetails s))) as [d|] eqn:E;
    simpl; rewrite E; reflexivity.
Qed.

(** What a request may do to the students: nothing, or write one student
    whose payment fields follow the derivation rule. *)
Definition written (now : Z) (db db' : DB) : Prop :=
  students db' = students db \/
  exists s', payment_derived now s' /\
             students db' = upsert Student._id s' (students db).

Lemma save_written now db s :
  written now db (snd (StudentModel.save now db s)).
Proof.
  unfold StudentModel.save.
  destruct (StudentModel.validate s); [|left; reflexivity].
  destruct (StudentModel.userNameTaken db _); [left; reflexivity|].
  right. eexists. split; [apply pre_save_derived | reflexivity].
Qed.

Lemma saveStudent_written now db s ok :
  written now db (snd (TokenRoutes.saveStudent now db s ok)).
Proof.
  unfold TokenRoutes.saveStudent.
  pose proof (save_written now db s) as H.
  destruct (StudentModel.save now db s) as [[e|s'] db']; exact H.
Qed.

Lemma saveUser_written now db u ok :
  written now db (snd (TokenRoutes.saveUser db u ok)).
Proof.
  unfold TokenRoutes.saveUser, UserModel.save.
  destruct (UserModel.validate u); [|left; reflexivity].
  destruct (UserModel.emailTaken db u); [left; reflexivity|].
  destruct (UserModel.adminCodeTaken db u); left; reflexivity.
Qed.

(** A handler that stops early or ends on a step that writes through
    [save]. *)
Lemma finish_written now db (m : step (Response * DB)) :
  (forall p, m = inr p -> written now db (snd p)) ->
  written now db (snd (finish db m)).
Proof.
  intros H. destruct m as [r|p]; simpl; [left; reflexivity | now apply H].
Qed.

Ltac early H :=
  repeat match type of H with
    | (let _ := _ in _) = _ => cbv zeta in H
    | match ?m with inl _ => _ | inr _ => _ end = inr _ =>
        let E := fresh "E" in
        destruct m eqn:E; [discriminate H|]; clear E
    | match ?m with Some _ => _ | None => _ end = inr _ =>
        destruct m
    | (if ?c then _ else _) = inr _ => destruct c
    | inl _ = inr _ => discriminate H
    end.

Lemma token_routes_written now db :
  (forall t b, written now db (snd (TokenRoutes.signin now t db b))) /\
  (forall t old, written now db (snd (TokenRoutes.refresh now t db old))) /\
  (forall h old, written now db (snd (TokenRoutes.logout now db h old))).
Proof.
  split; [|split]; intros; apply finish_written; intros p H; early H;
    inversion H; subst;
    first [apply saveUser_written | apply saveStudent_written].
Qed.

Lemma student_updates_written now db h id b :
  written now db (snd (UpdateRoutes.updateStudent now db h id b)) /\
  written now db (snd (StudentRoutes.putStudent now db h id b)).
Proof.
  split; apply finish_written; intros p H; early H.
  all: match type of H with
       | context [StudentModel.save ?n ?d0 ?d] =>
           pose proof (save_written n d0 d) as W;
           destruct (StudentModel.save n d0 d) as [[e|s'] db']
       end.
  all: try (destruct e); inversion H; subst; exact W.
Qed.

(** C6, as the code has it.  A student written through [save] carries the
    payment fields of the derivation rule, whatever they were before; the
    requests that write a student ([POST /signin], [POST /refresh],
    [POST /logout] and both [PUT /student/:id]) write at most one and do
    it through [save]; [PUT /payments/:studentId] stores the amount and
    the flag of the request as they are. *)
Theorem C6_payment_fields :
  (forall now db s s' db',
      StudentModel.save now db s = (inr s', db') ->
      payment_derived now s' /\ findStudent db' (Student._id s') = Some s') /\
  (forall now db,
      (forall t b, written now db (snd (TokenRoutes.signin now t db b))) /\
      (forall t old, written now db (snd (TokenRoutes.refresh now t db old))) /\
      (forall h old, written now db (snd (TokenRoutes.logout now db h old))) /\
      (forall h id b,
          written now db (snd (UpdateRoutes.updateStudent now db h id b))) /\
      (forall h id b,
          written now db (snd (StudentRoutes.putStudent now db h id b)))) /\
  (forall now db authHeader studentId b r db',
      updatePayment now db authHeader studentId b = (r, db') ->
      status r = 200%Z ->
      exists s amount paid,
        paymentAmount b = Some amount /\ hasPaid b = Some paid /\
        findStudent db' studentId = Some s /\
        Student.paymentAmount s = amount /\ Student.hasPaid s = paid).
Proof.
  split; [|split].
  - intros now db s s' db'. unfold StudentModel.save.
    destruct (StudentModel.validate s); [|discriminate].
    destruct (StudentModel.userNameTaken db _); [discriminate|].
    intros E; inversion E; subst. split; [apply pre_save_derived|].
    unfold findStudent. cbn [students]. apply find_upsert.
  - intros now db.
    destruct (token_routes_written now db) as (H1 & H2 & H3).
    repeat split; try assumption; intros; apply student_updates_written.
  - intros now db authHeader studentId b r db'.
    unfold updatePayment, finish.
    destruct (authenticateToken authHeader) as [r0|uid] eqn:Ea;
      [refusals; intros E; inversion E; subst; discriminate|].
    destruct (requireRole _ db uid) as [r0|u] eqn:Er;
      [refusals; intros E; inversion E; subst; discriminate|].
    destruct (paymentAmount b) as [amount|]; simpl;
      [|intros E; inversion E; subst; discriminate].
    destruct (Qle_bool 0 amount); simpl;
      [|intros E; inversion E; subst; discriminate].
    destruct (hasPaid b) as [paid|]; simpl;
      [|intros E; inversion E; subst; discriminate].
    destruct (findStudent db studentId) as [st|] eqn:Ef; simpl;
      [|intros E; inversion E; subst; discriminate].
    apply findStudent_id in Ef.
    assert (done : forall upd rsp,
               Student._id upd = studentId ->
               Student.paymentAmount upd = amount ->
               Student.hasPaid upd = paid ->
               (rsp, mkDB (users db) (upsert Student._id upd (students db))
                       (results db)) = (r, db') ->
               exists s a p, Some amount = Some a /\ Some paid = Some p /\
                 findStudent db' studentId = Some s /\
                 Student.paymentAmount s = a /\ Student.hasPaid s = p).
    { intros upd rsp Hid Ha Hp E. inversion E.
      exists upd, amount, paid.
      repeat split; try assumption.
      unfold findStudent. cbn [students]. rewrite <- Hid.
      apply find_upsert. }
    destruct (Role_eqb (User.role u) super_admin).
    + simpl. intros E _. eapply done; [| | |exact E]; auto.
    + destruct (Student.createdBy st) as [c|]; simpl;
        [|intros E; inversion E; subst; discriminate].
      destruct (negb (String.eqb c uid)); simpl;
        [intros E; inversion E; subst; discriminate|].
      intros E _. eapply done; [| | |exact E]; auto.
Qed.

End PaymentFieldClaims.

(** The admin [u1] records a payment of 500 for the student [s1], whose
    payment history is empty. *)
Definition paidBody : Payments.PaymentBody :=
  Payments.mkPaymentBody (Some 500) (Some true).

Lemma C6_counterexample :
  exists r db' s,
    Payments.updatePayment (C := sampleCollaborators) 9000 sampleDB
      (Some "Bearer tok-u1"%string) "s1" paidBody = (r, db') /\
    status r = 200%Z /\
    findStudent db' "s1" = Some s /\
    ~ payment_derived 9000 s.
Proof.
  eexists. eexists. eexists.
  split; [reflexivity|]. split; [reflexivity|]. split; [reflexivity|].
  unfold payment_derived. simpl. discriminate.
Qed.

Lemma C6_witness :
  (exists s' db',
      StudentModel.save 9000 sampleDB sampleStudentA = (inr s', db') /\
      payment_derived 9000 s' /\ findStudent db' (Student._id s') = Some s') /\
  (exists s amount paid,
      Payments.paymentAmount paidBody = Some amount /\
      Payments.hasPaid paidBody = Some paid /\
      findStudent
        (snd (Payments.updatePayment (C := sampleCollaborators) 9000 sampleDB
                (Some "Bearer tok-u1"%string) "s1" paidBody)) "s1" = Some s /\
      Student.paymentAmount s = amount /\ Student.hasPaid s = paid).
Proof.
  pose proof (@C6_payment_fields sampleCollaborators) as (Hsave & _ & Hput).
  split.
  - eexists. eexists. split; [reflexivity|].
    exact (Hsave 9000%Z sampleDB sampleStudentA _ _ eq_refl).
  - exact (Hput 9000%Z sampleDB (Some "Bearer tok-u1"%string) "s1"%string
             paidBody _ _ eq_refl eq_refl).
Defined.

(* ================================================================== *)
(** * Updating a student, deleting an account *)
(* ================================================================== *)

Section DeleteClaims.
Context {C : Collaborators}.
Import UpdateRoutes.

Lemma deleteOne_keeps id l x u :
  find (fun v => String.eqb (User._id v) id) l = Some x ->
  In u l -> u <> x -> In u (deleteOne id l).
Proof.
  induction l as [|y l IH]; simpl; [discriminate|].
  destruct (String.eqb (User._id y) id).
  - intros E [H|H] Hne; [|exact H]. inversion E; subst. contradiction.
  - intros E [H|H] Hne; [left; exact H | right; now apply IH].
Qed.

(** One request to [DELETE /user/:id] removes no super admin account. *)
Lemma deleteUser_keeps_super db authHeader id u :
  In u (users db) -> User.role u = super_admin ->
  In u (users (snd (deleteUser db authHeader id))).
Proof.
  intros Hin Hrole. unfold deleteUser, finish.
  destruct (authenticateToken authHeader) as [r|uid]; [exact Hin|].
  destruct (requireRole _ db uid) as [r|cu]; [exact Hin|].
  destruct (findUser db id) as [user|] eqn:Ef; simpl; [|exact Hin].
  destruct (findUser db uid) as [currentUser|]; simpl; [|exact Hin].
  assert (last_steps :
    In u (users (snd
      match
        (_ <- replyIf (Role_eqb (User.role user) super_admin)
                (reply 403 "Super admin cannot be deleted") ;;
         inr (reply 200 "User deleted successfully",
              mkDB (deleteOne id (users db)) (students db) (results db)))
      with
      | inl r => (r, db)
      | inr p => p
      end))).
  { destruct (Role_eqb (User.role user) super_admin) eqn:Er; simpl;
      [exact Hin|].
    apply (deleteOne_keeps id (users db) user u Ef Hin).
    intros ->. rewrite Hrole in Er. discriminate. }
  destruct (Role_eqb (User.role currentUser) super_admin); simpl.
  - exact last_steps.
  - destruct (User.createdBy user) as [c|]; simpl; [|exact Hin].
    destruct (negb (String.eqb c uid)); simpl; [exact Hin | exact last_steps].
Qed.

(** A run of delete requests, each with its own header and target. *)
Definition deleteRun (reqs : list (option string * ObjectId)) (db : DB) : DB :=
  fold_left (fun d rq => snd (deleteUser d (fst rq) (snd rq))) reqs db.

(** C5.  A delete request whose target is a super admin account is
    answered with an error, whoever sends it, and leaves the collections
    as they were; and after any run of delete requests every super admin
    account is still stored. *)
Theorem C5_super_admin_not_deletable :
  (forall db authHeader id target,
      findUser db id = Some target ->
      User.role target = super_admin ->
      exists r, deleteUser db authHeader id = (r, db)
                /\ (400 <= status r)%Z /\ payload r = NoData) /\
  (forall reqs db u,
      In u (users db) -> User.role u = super_admin ->
      In u (users (deleteRun reqs db))).
Proof.
  split.
  - intros db authHeader id target Hf Hrole. unfold deleteUser, finish.
    destruct (authenticateToken authHeader) as [r|uid] eqn:Ea;
      [refusals; eexists; repeat split; simpl; lia|].
    destruct (requireRole _ db uid) as [r|cu] eqn:Er;
      [refusals; eexists; repeat split; simpl; lia|].
    rewrite Hf; simpl.
    destruct (findUser db uid) as [currentUser|]; simpl;
      [|eexists; repeat split; simpl; lia].
    rewrite Hrole.
    destruct (Role_eqb (User.role currentUser) super_admin); simpl;
      [eexists; repeat split; simpl; lia|].
    destruct (User.createdBy target) as [c|]; simpl;
      [|eexists; repeat split; simpl; lia].
    destruct (negb (String.eqb c uid)); simpl;
      eexists; repeat split; simpl; lia.
  - induction reqs as [|rq reqs IH]; intros db u Hin Hrole; simpl.
    + exact Hin.
    + apply IH; [|exact Hrole]. now apply deleteUser_keeps_super.
Qed.

End DeleteClaims.

Lemma C5_witness :
  (exists r,
      UpdateRoutes.deleteUser (C := sampleCollaborators) sampleDB
        (Some "Bearer tok-u1"%string) "u0" = (r, sampleDB)
      /\ (400 <= status r)%Z /\ payload r = NoData) /\
  In sampleSuper
    (users (deleteRun (C := sampleCollaborators)
              [(Some "Bearer tok-u0"%string, "u0"%string);
               (Some "Bearer tok-u0"%string, "u2"%string);
               (Some "Bearer tok-u1"%string, "u0"%string);
               (None, "u0"%string)]
              sampleDB)).
Proof.
  pose proof (@C5_super_admin_not_deletable sampleCollaborators) as [Hone Hrun].
  split.
  - exact (Hone sampleDB (Some "Bearer tok-u1"%string) "u0"%string sampleSuper
             eq_refl eq_refl).
  - apply Hrun; [left; reflexivity | reflexivity].
Defined.

(** The run above does delete the teacher [u2], on the super admin's request. *)
Example deleteRun_removes_teacher :
  map User._id
    (users (deleteRun (C := sampleCollaborators)
              [(Some "Bearer tok-u0"%string, "u0"%string);
               (Some "Bearer tok-u0"%string, "u2"%string)]
              sampleDB))
  = ["u0"; "u1"]%string.
Proof. reflexivity. Qed.

Section UpdateStudentFacts.
Context {C : Collaborators}.
Import UpdateRoutes.

(** The save hook of the student model touches the payment fields only. *)
Lemma pre_save_id now s :
  Student._id (StudentModel.pre_save now s) = Student._id s.
Proof.
  unfold StudentModel.pre_save. now destruct (nth_error _ _).
Qed.

Lemma pre_save_roll now s :
  Student.roll (StudentModel.pre_save now s) = Student.roll s.
Proof.
  unfold StudentModel.pre_save. now destruct (nth_error _ _).
Qed.


(** What the teacher branch of [PUT /student/:id] refuses: a student
    outside the assigned classes, and a request that carries a user name,
    a class or a section. *)
Lemma teacher_update_denied now db authHeader id b uid u s :
  authenticateToken authHeader = inr uid ->
  findUser db uid = Some u -> User.role u = teacher ->
  findStudent db id = Some s ->
  (isAssigned u s = false ->
   updateStudent now db authHeader id b
   = (reply 403 "Not authorized to update this student", db)) /\
  (isAssigned u s = true ->
   JS.truthy_str (userName b) || JS.truthy_str (class b)
   || JS.truthy_str (section b) = true ->
   updateStudent now db authHeader id b
   = (reply 403 "Teachers can only update name or roll", db)).
Proof.
  intros Ha Hu Hr Hs. unfold updateStudent, finish.
  rewrite Ha, Hs, Hu, Hr. simpl.
  split; [intros -> | intros -> ->]; reflexivity.
Qed.

(** The teacher branch never stores a new roll number: line 220 of the
    route applies [roll] for the roles super_admin and admin only. *)
Lemma teacher_update_keeps_roll now db authHeader id b uid u s r db' :
  authenticateToken authHeader = inr uid ->
  findUser db uid = Some u -> User.role u = teacher ->
  findStudent db id = Some s ->
  updateStudent now db authHeader id b = (r, db') ->
  status r = 200%Z ->
  exists s', findStudent db' id = Some s' /\ Student.roll s' = Student.roll s.
Proof.
  intros Ha Hu Hr Hs. unfold updateStudent, finish.
  rewrite Ha, Hs, Hu. cbn [orReply]. unfold isAdminRole. rewrite Hr.
  cbn [Role_eqb existsb orb]. rewrite !andb_false_r.
  assert (Hroll : match roll b with
                  | Some _ => Student.roll s
                  | None => Student.roll s
                  end = Student.roll s) by (destruct (roll b); reflexivity).
  rewrite Hroll. clear Hroll.
  destruct (replyIf (negb (isAssigned u s)) _) as [r0|[]] eqn:E1;
    [unfold replyIf in E1; destruct (negb _); inversion E1; subst;
     intros E; inversion E; subst; discriminate|].
  destruct (replyIf (JS.truthy_str (userName b) || _ || _) _) as [r0|[]] eqn:E2;
    [unfold replyIf in E2;
     destruct (JS.truthy_str (userName b) || _ || _); inversion E2; subst;
     intros E; inversion E; subst; discriminate|].
  match goal with
  | |- context [x <- ?m ;; _] => destruct m as [r0|newUserName] eqn:E3
  end.
  { revert E3. unfold replyIf.
    destruct (JS.truthy_str (userName b) && _); [|discriminate].
    destruct (match find _ (students db) with Some _ => _ | None => _ end);
      [|discriminate].
    intros E3 E; inversion E3; inversion E; subst; discriminate. }
  destruct (replyIf (JS.truthy_int (roll b) && _ && _ && _) _) as [r0|[]] eqn:E5;
    [unfold replyIf in E5;
     destruct (JS.truthy_int (roll b) && _ && _ && _); inversion E5; subst;
     intros E; inversion E; subst; discriminate|].
  destruct (replyIf (JS.truthy_str (password b) && _) _) as [r0|[]] eqn:E6;
    [unfold replyIf in E6;
     destruct (JS.truthy_str (password b) && _); inversion E6; subst;
     intros E; inversion E; subst; discriminate|].
  match goal with
  | |- context [StudentModel.save now db ?d] =>
      destruct (StudentModel.save now db d) as [[e|saved] db1] eqn:Es
  end.
  { destruct e; intros E; inversion E; subst; discriminate. }
  intros E _. inversion E; subst.
  unfold StudentModel.save in Es.
  destruct (StudentModel.validate _); [|discriminate].
  destruct (StudentModel.userNameTaken db _); [discriminate|].
  inversion Es; subst.
  eexists. split.
  - unfold findStudent. cbn [students].
    rewrite <- (findStudent_id db id s Hs).
    match goal with
    | |- find _ (upsert _ (StudentModel.pre_save now ?d) _) = _ =>
        replace (Student._id s)
          with (Student._id (StudentModel.pre_save now d))
          by (rewrite pre_save_id; reflexivity)
    end.
    apply find_upsert.
  - rewrite pre_save_roll. reflexivity.
Qed.

End UpdateStudentFacts.

(** The teacher [u2], assigned to class 9 section A, sets the roll number of
    [s1] (class 9 section A, roll 5) to 7. *)
Definition rollBody : UpdateRoutes.StudentBody :=
  UpdateRoutes.mkStudentBody None None None (Some 7%Z) None None.

(** The same teacher sets the password of [s1]. *)
Definition passwordBody : UpdateRoutes.StudentBody :=
  UpdateRoutes.mkStudentBody None None (Some "changed1"%string) None None None.

(** [PUT /student/:id] of the update router, which the mount order keeps
    from answering, for a teacher on a student of an assigned class: a
    request that sets [roll] is answered 200 "Student updated
    successfully" while the stored roll number stays as it was; and a
    request that sets [password] succeeds and stores the new hash. *)
Example updateStudent_teacher_roll_kept :
  UpdateRoutes.updateStudent (C := sampleCollaborators) 9000 sampleDB
    (Some "Bearer tok-u2"%string) "s1" rollBody
  = (mkResponse 200 (Some "Student updated successfully"%string)
       (UpdatedStudent (mkStudentBrief "s1" "Sam" "sam9a" 5 "9" "A"
                          (Some "u1"%string))),
     sampleDB) /\
  (exists s,
      findStudent
        (snd (UpdateRoutes.updateStudent (C := sampleCollaborators) 9000
                sampleDB (Some "Bearer tok-u2"%string) "s1" passwordBody))
        "s1" = Some s /\
      Student.password s = "h:changed1"%string).
Proof.
  split; [reflexivity|]. eexists. split; reflexivity.
Qed.

(** The teacher [u2], assigned to class 9 section A only, renames the
    account of [s2], a student of section B, and moves it to class 10. *)
Definition moveBody : UpdateRoutes.StudentBody :=
  UpdateRoutes.mkStudentBody None (Some "renamed"%string) None None
    (Some "10"%string) None.

Section DeployedUpdate.
Context {C : Collaborators}.

(** C4.  [PUT /student/:id] is registered by the students router and by
    the update router, and the application mounts the students router
    first: every such request is answered by the students router's chain,
    which has no assigned-class gate and no restriction on the fields, so
    that a teacher's update of an existing student is never answered 403.
    In the sample installation the teacher [u2], assigned to class 9
    section A only, sets the user name and the class of the student [s2]
    of section B and is answered 200 with the fields stored; the update
    router's own chain answers the same request 403 and writes nothing. *)
Theorem C4_teacher_update_not_scoped :
  (forall now db authHeader id b,
      Api.putStudent now db authHeader id b
      = StudentRoutes.putStudent now db authHeader id b) /\
  (forall now db authHeader uid actor id s b,
      authenticateToken authHeader = inr uid ->
      findUser db uid = Some actor ->
      User.role actor = teacher ->
      findStudent db id = Some s ->
      In (status (fst (Api.putStudent now db authHeader id b)))
        [200; 400; 500]%Z) /\
  UpdateRoutes.isAssigned sampleTeacher sampleStudentB = false /\
  Api.putStudent (C := sampleCollaborators) 9000 sampleDB
    (Some "Bearer tok-u2"%string) "s2" moveBody
  = (mkResponse 200 (Some "Student updated successfully"%string)
       (OneStudent
          (mkStudentView "s2" "Bea" "renamed" 6 "10" "B" 0 false []
             (Some (mkCreator "u1" "Ada" "Min" "ada@school.test" admin))
             4500)),
     mkDB [sampleSuper; sampleAdmin; sampleTeacher]
       [sampleStudentA;
        Student.mk "s2" "Bea" "renamed" "h:secret4" 6 "10" "B" 0 false []
          (Some "u1"%string) [] 4500 None] []) /\
  UpdateRoutes.updateStudent (C := sampleCollaborators) 9000 sampleDB
    (Some "Bearer tok-u2"%string) "s2" moveBody
  = (reply 403 "Not authorized to update this student", sampleDB).
Proof.
  split; [reflexivity|]. split; [|repeat split; reflexivity].
  intros now db authHeader uid actor id s b Ha Hu Hr Hs.
  change (Api.putStudent now db authHeader id b)
    with (StudentRoutes.putStudent now db authHeader id b).
  unfold StudentRoutes.putStudent, finish, requireRole.
  rewrite Ha, Hu, Hr, Hs. cbn [existsb Role_eqb orb orReply].
  destruct (replyIf _ _) as [r|[]] eqn:Ep.
  - unfold replyIf in Ep. destruct (_ && _); inversion Ep; subst.
    simpl. auto.
  - destruct (StudentModel.save now db _) as [[[| | |]|saved] db'];
      simpl; auto.
Qed.

End DeployedUpdate.

Lemma C4_witness :
  In (status (fst (Api.putStudent (C := sampleCollaborators) 9000 sampleDB
                     (Some "Bearer tok-u2"%string) "s2" moveBody)))
    [200; 400; 500]%Z.
Proof.
  exact (proj1 (proj2 (@C4_teacher_update_not_scoped sampleCollaborators))
           9000%Z sampleDB (Some "Bearer tok-u2"%string) "u2"%string
           sampleTeacher "s2"%string sampleStudentB moveBody
           eq_refl eq_refl eq_refl eq_refl).
Defined.

(* ================================================================== *)
(** * The refresh-token set *)
(* ================================================================== *)

Section TokenClaims.
Context {C : Collaborators}.
Import TokenRoutes.










(** The requests that touch the token sets. *)
Inductive TokenRequest :=
| Signin (now : Z) (refreshToken : string) (b : SigninBody)
| Refresh (now : Z) (newRefreshToken : string) (refreshToken : option string)
| Logout (now : Z) (authHeader refreshToken : option string).

Definition handle (db : DB) (rq : TokenRequest) : Response * DB :=
  match rq with
  | Signin now t b => signin now t db b
  | Refresh now t old => refresh now t db old
  | Logout now h old => logout now db h old
  end.

Definition serve (rqs : list TokenRequest) (db : DB) : DB :=
  fold_left (fun d rq => snd (handle d rq)) rqs db.









End TokenClaims.

(** Six sign-ins of the admin [u1], then a refresh and a logout. *)
Definition adminLogin : TokenRoutes.SigninBody :=
  TokenRoutes.mkSigninBody (Some "ada@school.test"%string)
    (Some "secret1"%string).

Definition fiveSignins : list TokenRequest :=
  [Signin 10 "r1" adminLogin; Signin 20 "r2" adminLogin;
   Signin 30 "r3" adminLogin; Signin 40 "r4" adminLogin;
   Signin 50 "r5" adminLogin].

Definition sixSignins : list TokenRequest :=
  fiveSignins ++ [Signin 60 "r6" adminLogin].

Example sixSignins_tokens :
  option_map (fun u => map token (User.refreshTokens u))
    (findUser (serve (C := sampleCollaborators) sixSignins sampleDB) "u1")
  = Some ["r2"; "r3"; "r4"; "r5"; "r6"]%string.
Proof. reflexivity. Qed.




(* ================================================================== *)
(** * Reading results and students *)
(* ================================================================== *)

(** The student [s2] with a payment on record, a paid flag, an amount and
    a refresh token, and the sample installation with that student. *)
Definition paidStudentB : Student.t :=
  Student.mk "s2" "Bea" "bea9b" "h:secret4" 6 "9" "B" 750 true
    [mkPaymentDetail 500 750 9000 true 4600]
    (Some "u1"%string) [mkRefreshToken "rt-9" 4700] 4500 None.

Definition paidSampleDB : DB :=
  mkDB [sampleSuper; sampleAdmin; sampleTeacher]
       [sampleStudentA; paidStudentB] [].

(** The sample installation after the submission [fineDoc] is stored. *)
Definition sampleDBWithResult : DB :=
  snd (ResultRoutes.save (C := sampleCollaborators) sampleDB fineDoc).

Section ReadClaims.
Context {C : Collaborators}.
Import ResultRoutes StudentRoutes.

(** C9.  [GET /results/:studentId] answers without looking at the
    [Authorization] header: a request that carries no token at all gets
    the student's name, roll, class and section and the latest result;
    the sibling route [GET /results/:studentId/:examType] answers such a
    request 401. *)
Theorem C9_results_read_without_token :
  (forall db authHeader studentId,
      getResults db authHeader studentId = getResults db None studentId) /\
  getResults sampleDBWithResult None "s1"
  = mkResponse 200 None
      (ResultsOf (mkStudentSummary "Sam" 5 "9" "A")
         (mkResultSummary combined (Some "2nd"%string)
            [Mark.mk "Bangla" (Some 30%float) (Some 50%float)
               (Some 20%float) (Some 50%float)
               50 (Some "B"%string) (Some 3%float);
             Mark.mk "English" (Some 45%float) (Some 50%float)
               (Some 40%float) (Some 50%float)
               85 (Some "A+"%string) (Some 5%float);
             Mark.mk "Math" (Some 50%float) (Some 50%float)
               (Some 50%float) (Some 50%float)
               100 (Some "A+"%string) (Some 5%float)]
            125 110 235 4.33)) /\
  (forall db studentId examType,
      getResultsByType db None studentId examType
      = reply 401 "Access token required").
Proof.
  split; [|split]; reflexivity.
Qed.

(** C10.  [GET /student/:id], for an actor whose token verifies and whose
    role is super_admin, admin or teacher, answers 200 with the record of
    the student of that id, whoever created the student and whatever
    classes the actor is assigned to.  The record carries every stored
    field of the student but the password and the refresh tokens: the
    identifier, name, user name, roll, class, section, payment amount,
    paid flag, payment details and creation time as stored, and in place
    of the creator's identifier the creator's identifier, names, email and
    role when that account exists.  In the sample installation the teacher
    [u2], assigned to class 9 section A only, reads the student [s2] of
    section B on this route, while the collection route lists [s1]
    alone. *)
Theorem C10_single_student_read_unscoped :
  (forall db authHeader uid actor id s,
      authenticateToken authHeader = inr uid ->
      findUser db uid = Some actor ->
      In (User.role actor) [super_admin; admin; teacher] ->
      findStudent db id = Some s ->
      getStudent db authHeader id
      = mkResponse 200 None
          (OneStudent
             (mkStudentView (Student._id s) (Student.name s)
                (Student.userName s) (Student.roll s) (Student.class s)
                (Student.section s) (Student.paymentAmount s)
                (Student.hasPaid s) (Student.paymentDetails s)
                match Student.createdBy s with
                | Some creator =>
                    match findUser db creator with
                    | Some u =>
                        Some (mkCreator (User._id u) (User.firstName u)
                                (User.lastName u) (User.email u)
                                (User.role u))
                    | None => None
                    end
                | None => None
                end
                (Student.createdAt s)))) /\
  getStudent (C := sampleCollaborators) paidSampleDB
    (Some "Bearer tok-u2"%string) "s2"
  = mkResponse 200 None
      (OneStudent
         (mkStudentView "s2" "Bea" "bea9b" 6 "9" "B" 750 true
            [mkPaymentDetail 500 750 9000 true 4600]
            (Some (mkCreator "u1" "Ada" "Min" "ada@school.test" admin))
            4500)) /\
  payload (listStudents (C := sampleCollaborators) paidSampleDB
             (Some "Bearer tok-u2"%string) None None)
  = ManyStudents
      [mkStudentView "s1" "Sam" "sam9a" 5 "9" "A" 0 false []
         (Some (mkCreator "u1" "Ada" "Min" "ada@school.test" admin)) 4000]
      teacher (Some [mkClassSection "9" "A"]).
Proof.
  split; [|split; reflexivity].
  intros db authHeader uid actor id s Ha Hu Hr Hs.
  unfold getStudent, requireRole. rewrite Ha, Hu, Hs.
  destruct Hr as [H|[H|[H|[]]]]; rewrite <- H; reflexivity.
Qed.

End ReadClaims.

Lemma C10_witness :
  StudentRoutes.getStudent (C := sampleCollaborators) paidSampleDB
    (Some "Bearer tok-u2"%string) "s2"
  = mkResponse 200 None
      (OneStudent
         (mkStudentView "s2" "Bea" "bea9b" 6 "9" "B" 750 true
            [mkPaymentDetail 500 750 9000 true 4600]
            (Some (mkCreator "u1" "Ada" "Min" "ada@school.test" admin))
            4500)).
Proof.
  exact (proj1 (@C10_single_student_read_unscoped sampleCollaborators)
           paidSampleDB (Some "Bearer tok-u2"%string) "u2"%string
           sampleTeacher "s2"%string paidStudentB eq_refl eq_refl
           (or_intror (or_intror (or_introl eq_refl))) eq_refl).
Defined.

(** [PUT /student/:id] as the students router answers it: the teacher [u2]
    moves the student [s2], of a section [u2] is not assigned to, to class
    10 and renames the account. *)
Example putStudent_teacher_any_field :
  option_map (fun s => (Student.userName s, Student.class s))
    (findStudent
       (snd (StudentRoutes.putStudent (C := sampleCollaborators) 9000 sampleDB
               (Some "Bearer tok-u2"%string) "s2"
               (UpdateRoutes.mkStudentBody None (Some "renamed"%string) None
                  None (Some "10"%string) None)))
       "s2")
  = Some ("renamed", "10")%string.
Proof. reflexivity. Qed.

(* ================================================================== *)
(** * Admin codes *)
(* ================================================================== *)

Section AdminCodeFacts.
Import AdminRoutes.
Local Open Scope Z_scope.

(** A sequence number as the generator prints it. *)
Definition pad3 (k : Z) : string := JS.padStart0 3 (JS.toString k).

Definition sequenceNumbers : list Z := map Z.of_nat (seq 0 1000).

Lemma in_sequenceNumbers k : 0 <= k <= 999 -> In k sequenceNumbers.
Proof.
  intros H. unfold sequenceNumbers.
  rewrite <- (Z2Nat.id k) by lia. apply in_map. apply in_seq. lia.
Qed.

(** The three facts about the numbers 000 to 999 that the generator rests
    on, each checked over the whole table: they print on three
    characters, [parseInt] reads them back, and the order of the strings
    is the order of the numbers. *)
Lemma pad3_table :
  forallb (fun k => Nat.eqb (String.length (pad3 k)) 3
                    && match JS.parseInt (pad3 k) with
                       | Some n => Z.eqb n k
                       | None => false
                       end) sequenceNumbers = true.
Proof. vm_compute. reflexivity. Qed.

Lemma pad3_order_table :
  forallb (fun j =>
             forallb (fun k => Bool.eqb (String.ltb (pad3 j) (pad3 k))
                                 (Z.ltb j k)) sequenceNumbers)
    sequenceNumbers = true.
Proof. vm_compute. reflexivity. Qed.

Lemma pad3_length k : 0 <= k <= 999 -> String.length (pad3 k) = 3%nat.
Proof.
  intros H. pose proof pad3_table as T. rewrite forallb_forall in T.
  specialize (T k (in_sequenceNumbers k H)).
  apply andb_true_iff in T. destruct T as [T _]. now apply Nat.eqb_eq.
Qed.

Lemma pad3_parseInt k : 0 <= k <= 999 -> JS.parseInt (pad3 k) = Some k.
Proof.
  intros H. pose proof pad3_table as T. rewrite forallb_forall in T.
  specialize (T k (in_sequenceNumbers k H)).
  apply andb_true_iff in T. destruct T as [_ T].
  destruct (JS.parseInt (pad3 k)); [|discriminate].
  apply Z.eqb_eq in T. now subst.
Qed.

Lemma pad3_ltb j k :
  0 <= j <= 999 -> 0 <= k <= 999 ->
  String.ltb (pad3 j) (pad3 k) = Z.ltb j k.
Proof.
  intros Hj Hk. pose proof pad3_order_table as T.
  rewrite forallb_forall in T.
  specialize (T j (in_sequenceNumbers j Hj)).
  rewrite forallb_forall in T.
  specialize (T k (in_sequenceNumbers k Hk)).
  now apply Bool.eqb_prop in T.
Qed.

Lemma ascii_compare_refl c : Ascii.compare c c = Eq.
Proof.
  pose proof (Ascii.compare_antisym c c) as H.
  destruct (Ascii.compare c c); simpl in H; congruence.
Qed.

Lemma ltb_append p a b :
  String.ltb (String.append p a) (String.append p b) = String.ltb a b.
Proof.
  unfold String.ltb. induction p as [|c p IH]; simpl; [reflexivity|].
  now rewrite ascii_compare_refl.
Qed.

Lemma drop_append p s : JS.drop (String.length p) (String.append p s) = s.
Proof.
  induction p as [|c p IH]; simpl; [now destruct s | exact IH].
Qed.

Lemma length_append p s :
  String.length (String.append p s) = (String.length p + String.length s)%nat.
Proof. induction p; simpl; congruence. Qed.

Lemma sliceLast_append p s :
  JS.sliceLast (String.length s) (String.append p s) = s.
Proof.
  unfold JS.sliceLast. rewrite length_append.
  replace (String.length p + String.length s - String.length s)%nat
    with (String.length p) by lia.
  apply drop_append.
Qed.

(** The greatest of a list of numbers, scanned as [greatest] scans. *)
Definition later (best : option Z) (k : Z) : option Z :=
  match best with
  | None => Some k
  | Some b0 => if Z.ltb b0 k then Some k else Some b0
  end.

Definition inTable (k : Z) : Prop := 0 <= k <= 999.

Lemma greatest_codes p ks : forall best,
  Forall inTable ks ->
  match best with Some b0 => inTable b0 | None => True end ->
  fold_left (fun best c =>
               match best with
               | None => Some c
               | Some b0 => if String.ltb b0 c then Some c else Some b0
               end)
    (map (fun k => String.append p (pad3 k)) ks)
    (option_map (fun k => String.append p (pad3 k)) best)
  = option_map (fun k => String.append p (pad3 k)) (fold_left later ks best).
Proof.
  induction ks as [|k ks IH]; intros best Hks Hb; simpl; [reflexivity|].
  inversion Hks as [|? ? Hk Hks']; subst.
  destruct best as [b0|]; simpl.
  - rewrite ltb_append, (pad3_ltb b0 k Hb Hk).
    destruct (Z.ltb b0 k).
    + apply (IH (Some k)); assumption.
    + apply (IH (Some b0)); assumption.
  - apply (IH (Some k)); assumption.
Qed.

Lemma later_max ks : forall best m,
  fold_left later ks best = Some m ->
  (In m ks \/ best = Some m) /\
  (forall k, In k ks -> k <= m) /\
  (forall b0, best = Some b0 -> b0 <= m).
Proof.
  induction ks as [|k ks IH]; intros best m; simpl.
  - intros ->. repeat split; auto; try contradiction.
    intros b0 E; inversion E; lia.
  - intros H. destruct (IH _ _ H) as (Hin & Hub & Hb).
    assert (Hk : k <= m /\ forall b0, best = Some b0 -> b0 <= m).
    { destruct best as [b0|]; simpl in Hb.
      - destruct (Z.ltb b0 k) eqn:E.
        + apply Z.ltb_lt in E. specialize (Hb k eq_refl).
          split; [lia|]. intros ? E'; inversion E'; lia.
        + apply Z.ltb_ge in E. specialize (Hb b0 eq_refl).
          split; [lia|]. intros ? E'; inversion E'; lia.
      - split; [apply Hb; reflexivity | discriminate]. }
    destruct Hk as [Hk Hbest]. repeat split.
    + destruct Hin as [Hin|Hin]; [left; right; exact Hin|].
      destruct best as [b0|]; simpl in Hin.
      * destruct (Z.ltb b0 k); inversion Hin; subst; auto.
      * inversion Hin; subst; auto.
    + intros k' [->|Hk']; [exact Hk | now apply Hub].
    + exact Hbest.
Qed.

Lemma later_some ks k best : exists m, fold_left later (k :: ks) best = Some m.
Proof.
  simpl. assert (H : exists b1, later best k = Some b1).
  { destruct best as [b0|]; simpl; [destruct (Z.ltb b0 k)|]; eauto. }
  destruct H as [b1 ->]. revert b1.
  induction ks as [|k' ks IH]; intros b1; simpl; [eauto|].
  destruct (Z.ltb b1 k'); apply IH.
Qed.

End AdminCodeFacts.

Section AdminCodeClaims.
Context {C : Collaborators}.
Import AdminRoutes.

(** What the checks of [POST /admin/create] have established when the
    handler reaches the generation. *)
Lemma createAdminChecks_ok db authHeader b uid :
  createAdminChecks db authHeader b = inr uid ->
  JS.truthy_str (firstName b) = true /\ JS.truthy_str (lastName b) = true /\
  JS.truthy_str (email b) = true /\
  existsb (fun u => String.eqb (User.email u) (UpdateRoutes.str (email b)))
    (users db) = false.
Proof.
  unfold createAdminChecks, replyIf.
  destruct (authenticateToken authHeader) as [r|uid0]; [discriminate|].
  destruct (requireRole _ db uid0) as [r|u]; [discriminate|].
  destruct (JS.truthy_str (firstName b)); [|discriminate].
  destruct (JS.truthy_str (lastName b)); [|discriminate].
  destruct (JS.truthy_str (email b)); [|discriminate].
  destruct (JS.truthy_str (password b)); [|discriminate]. simpl.
  destruct (Nat.ltb _ 6); [discriminate|].
  destruct (existsb _ (users db)); [discriminate|]. auto.
Qed.

Lemma truthy_nonEmpty x :
  JS.truthy_str x = true -> nonEmpty (UpdateRoutes.str x) = true.
Proof. destruct x; simpl; [auto | discriminate]. Qed.

Lemma existsb_weaken (A : Type) (f g : A -> bool) (l : list A) :
  existsb g l = false -> existsb (fun a => f a && g a) l = false.
Proof.
  induction l as [|a l IH]; simpl; [reflexivity|].
  intros H. apply orb_false_iff in H. destruct H as [Ha Hl].
  rewrite Ha, andb_false_r. now apply IH.
Qed.

(** C7, as the code has it.  While the codes of the month are the
    month's prefix followed by a number from 000 to 999 on three digits,
    the generated code is the prefix followed by the greatest of these
    numbers plus one, padded with zeros to three digits, and by 001 when
    there is none.  When the generated code is already stored on another
    account at the time of the save, [POST /admin/create] answers 400
    "Admin code already exists. Please try again." and stores nothing: it
    does not generate again. *)
Theorem C7_admin_code :
  (forall t db ks,
      codesWith (codePrefix t) (users db)
      = map (fun k => String.append (codePrefix t) (pad3 k)) ks ->
      Forall inTable ks ->
      (ks = [] ->
       generateAdminCode t db = String.append (codePrefix t) "001") /\
      (ks <> [] ->
       exists m, In m ks /\ (forall k, In k ks -> (k <= m)%Z) /\
                 generateAdminCode t db
                 = String.append (codePrefix t)
                     (JS.padStart0 3 (JS.toString (m + 1))))) /\
  (forall t now newId db authHeader b uid u,
      createAdminChecks db authHeader b = inr uid ->
      (6 <= String.length
              (bcrypt_hash (UpdateRoutes.str (password b))))%nat ->
      In u (users db) -> User._id u <> newId ->
      User.adminCode u = Some (generateAdminCode t db) ->
      createAdmin t now newId db authHeader b
      = (reply 400 "Admin code already exists. Please try again.", db)).
Proof.
  split.
  - intros t db ks Hcodes Hks. unfold generateAdminCode, greatest.
    rewrite Hcodes. split.
    + intros ->. reflexivity.
    + intros Hne. destruct ks as [|k0 ks']; [congruence|].
      pose proof (greatest_codes (codePrefix t) (k0 :: ks') None Hks I) as G.
      cbn [option_map] in G. rewrite G.
      destruct (later_some ks' k0 None) as [m Hm]. rewrite Hm.
      destruct (later_max _ _ _ Hm) as ([Hin|Hin] & Hub & _);
        [|discriminate].
      assert (Hrange : inTable m)
        by (rewrite Forall_forall in Hks; now apply Hks).
      cbn [option_map]. unfold nonEmpty.
      pose proof (pad3_length m Hrange) as Hlen.
      replace (String.eqb (String.append (codePrefix t) (pad3 m)) EmptyString)
        with false.
      2:{ symmetry. apply String.eqb_neq. intros E.
          apply (f_equal String.length) in E.
          rewrite length_append, Hlen in E. simpl in E. lia. }
      cbn [negb].
      pose proof (sliceLast_append (codePrefix t) (pad3 m)) as Hs.
      rewrite Hlen in Hs. rewrite Hs, (pad3_parseInt m Hrange).
      cbn [option_map showSequence].
      exists m. repeat split; [exact Hin | exact Hub].
  - intros t now newId db authHeader b uid u Hchk Hhash Hin Hid Hcode.
    destruct (createAdminChecks_ok _ _ _ _ Hchk) as (Hf & Hl & He & Hfresh).
    unfold createAdmin. rewrite Hchk.
    unfold createAdminWith, UserModel.save, UserModel.validate.
    cbn [User.firstName User.lastName User.email User.password
         User.assignedClasses User.refreshTokens forallb andb].
    rewrite (truthy_nonEmpty _ Hf), (truthy_nonEmpty _ Hl),
      (truthy_nonEmpty _ He).
    apply Nat.leb_le in Hhash. rewrite Hhash. cbn [andb].
    unfold UserModel.emailTaken. cbn [User.email User._id].
    rewrite (existsb_weaken _ _ _ _ Hfresh).
    unfold UserModel.adminCodeTaken. cbn [User.adminCode User._id].
    replace (existsb _ (users db)) with true; [reflexivity|].
    symmetry. apply existsb_exists. exists u. split; [exact Hin|].
    rewrite Hcode, String.eqb_refl, andb_true_r.
    apply negb_true_iff. now apply String.eqb_neq.
Qed.

End AdminCodeClaims.

(** November 2025, and two requests of the super admin [u0]. *)
Definition nov2025 : AdminRoutes.Today := AdminRoutes.mkToday 2025 10.

Definition adminBodyA : AdminRoutes.AdminBody :=
  AdminRoutes.mkAdminBody (Some "Bob"%string) (Some "Ray"%string)
    (Some "bob@school.test"%string) (Some "secret5"%string).

Definition adminBodyB : AdminRoutes.AdminBody :=
  AdminRoutes.mkAdminBody (Some "Cy"%string) (Some "Dee"%string)
    (Some "cy@school.test"%string) (Some "secret6"%string).

(** The collections once the first request is served. *)
Definition afterFirst : DB :=
  snd (AdminRoutes.createAdmin (C := sampleCollaborators) nov2025 100 "a2"
         sampleDB (Some "Bearer tok-u0"%string) adminBodyA).

(** A month in which the codes 999 and 1000 have been given. *)
Definition overflowDB : DB :=
  mkDB [sampleSuper;
        User.mk "a999" "Nia" "Nine" "nia@school.test" "h:secret7" admin []
          (Some "2511999"%string) (Some "u0"%string) [] 5000;
        User.mk "a1000" "Tom" "Thou" "tom@school.test" "h:secret8" admin []
          (Some "25111000"%string) (Some "u0"%string) [] 6000]
       [] [].

Example generateAdminCode_samples :
  AdminRoutes.generateAdminCode nov2025 (mkDB [sampleSuper] [] [])
  = "2511001"%string /\
  AdminRoutes.generateAdminCode nov2025 sampleDB = "2511002"%string /\
  AdminRoutes.generateAdminCode nov2025 afterFirst = "2511003"%string /\
  AdminRoutes.generateAdminCode nov2025 overflowDB = "25111000"%string.
Proof. repeat split; reflexivity. Qed.

(** Two requests that both read the codes before either saved: the second
    save meets the code of the first and the handler answers 400, although
    generating again on the collections as they then are gives a free
    code.  And once 999 and 1000 are both given, every later request of the
    month is answered 400. *)
Lemma C7_counterexample :
  status (fst (AdminRoutes.createAdmin (C := sampleCollaborators) nov2025 100
                 "a2" sampleDB (Some "Bearer tok-u0"%string) adminBodyA))
  = 201%Z /\
  AdminRoutes.createAdminWith (C := sampleCollaborators)
    (AdminRoutes.generateAdminCode nov2025 sampleDB) 101 "a3" afterFirst
    "u0" adminBodyB
  = (reply 400 "Admin code already exists. Please try again.", afterFirst) /\
  status (fst (AdminRoutes.createAdmin (C := sampleCollaborators) nov2025 101
                 "a3" afterFirst (Some "Bearer tok-u0"%string) adminBodyB))
  = 201%Z /\
  AdminRoutes.createAdmin (C := sampleCollaborators) nov2025 102 "a4"
    overflowDB (Some "Bearer tok-u0"%string) adminBodyA
  = (reply 400 "Admin code already exists. Please try again.", overflowDB).
Proof. repeat split; reflexivity. Qed.

Lemma C7_witness :
  AdminRoutes.generateAdminCode nov2025 sampleDB
  = String.append (AdminRoutes.codePrefix nov2025)
      (JS.padStart0 3 (JS.toString (1 + 1))) /\
  AdminRoutes.createAdmin (C := sampleCollaborators) nov2025 102 "a4"
    overflowDB (Some "Bearer tok-u0"%string) adminBodyA
  = (reply 400 "Admin code already exists. Please try again.", overflowDB).
Proof.
  pose proof (@C7_admin_code sampleCollaborators) as [Hgen Hdup].
  split.
  - destruct (Hgen nov2025 sampleDB [1%Z] eq_refl) as [_ Hmax].
    + repeat constructor; unfold inTable; lia.
    + destruct (Hmax ltac:(discriminate)) as (m & [Hm|[]] & _ & E).
      subst m. exact E.
  - apply (Hdup nov2025 102%Z "a4"%string overflowDB
             (Some "Bearer tok-u0"%string) adminBodyA "u0"%string
             (User.mk "a1000" "Tom" "Thou" "tom@school.test" "h:secret8"
                admin [] (Some "25111000"%string) (Some "u0"%string) [] 6000)).
    + reflexivity.
    + simpl. lia.
    + right; right; left; reflexivity.
    + discriminate.
    + reflexivity.
Defined.

(* ================================================================== *)
(** * Further properties *)
(* ================================================================== *)

From Stdlib Require Import Permutation Sorted.

(** ** Reading a handler backwards *)

Lemma replyIf_inr cond r u : replyIf cond r = inr u -> cond = false.
Proof. unfold replyIf. destruct cond; [discriminate | reflexivity]. Qed.

Lemma replyIf_inl cond r r0 : replyIf cond r = inl r0 -> cond = true /\ r0 = r.
Proof. unfold replyIf. destruct cond; intros E; inversion E; auto. Qed.

Lemma orReply_inr (A : Type) (o : option A) r a :
  orReply o r = inr a -> o = Some a.
Proof. destruct o; simpl; intros E; inversion E; reflexivity. Qed.

Lemma orReply_inl (A : Type) (o : option A) r r0 :
  orReply o r = inl r0 -> o = None /\ r0 = r.
Proof. destruct o; simpl; intros E; inversion E; auto. Qed.

Lemma finish_cases db (m : step (Response * DB)) r db' :
  finish db m = (r, db') -> (m = inl r /\ db' = db) \/ m = inr (r, db').
Proof.
  destruct m as [r0|[r0 d0]]; simpl; intros E; inversion E; subst; auto.
Qed.

Lemma conclude_cases (A : Type) db (m : step (Sent A * DB)) a db' :
  conclude db m = (a, db') ->
  (exists r, m = inl r /\ a = mkSent r None /\ db' = db) \/ m = inr (a, db').
Proof.
  destruct m as [r0|[a0 d0]]; simpl; intros E; inversion E; subst; eauto.
Qed.

(** Split the outermost step of a sequence of steps in [H]. *)
Ltac unbind H :=
  cbv zeta in H;
  match type of H with
  | match ?m with inl _ => _ | inr _ => _ end = _ =>
      let E := fresh "E" in destruct m eqn:E
  end.

(** Turn what is known of the steps passed into plain facts. *)
Ltac passed :=
  repeat match goal with
    | H : replyIf _ _ = inr _ |- _ => apply replyIf_inr in H
    | H : replyIf _ _ = inl _ |- _ =>
        apply replyIf_inl in H; destruct H as [H ?]; subst
    | H : orReply _ _ = inr _ |- _ => apply orReply_inr in H
    | H : orReply _ _ = inl _ |- _ =>
        apply orReply_inl in H; destruct H as [H ?]; subst
    | H : inl _ = inl _ |- _ => inversion H; clear H; subst
    | H : inr _ = inr _ |- _ => inversion H; clear H; subst
    | H : inl _ = inr _ |- _ => inversion H
    | H : inr _ = inl _ |- _ => inversion H
    end.

(** An answer of the middlewares or a [reply] of 400 and above is not a
    success. *)
Ltac not_sent :=
  refusals; passed;
  match goal with
  | H : status _ = _ |- _ => simpl in H; discriminate H
  | H : (status _ < _)%Z |- _ => simpl in H; lia
  end.

(* ------------------------------------------------------------------ *)
(** ** The grading hook, continued *)

Section GradingMore.
Context {C : Collaborators}.
Import Grading GradingFacts ResultRoutes.

Lemma filter_nil_forallb (A : Type) (f : A -> bool) (l : list A) :
  filter f l = [] -> forallb (fun a => negb (f a)) l = true.
Proof.
  induction l as [|a l IH]; simpl; [reflexivity|].
  destruct (f a); [discriminate | exact IH].
Qed.

Lemma forallb_negb_existsb (A : Type) (f : A -> bool) (l : list A) :
  forallb (fun a => negb (f a)) l = negb (existsb f l).
Proof.
  induction l as [|a l IH]; simpl; [reflexivity|].
  rewrite IH. now destruct (f a).
Qed.

(** The record the hook leaves when no entry is above its total. *)
Definition gradedDoc (doc : Result.t) : Result.t :=
  fst (pre_save doc).

(** What a successful [save] tells. *)
Lemma save_inv db doc saved db' :
  save db doc = (inr saved, db') ->
  validate doc = true /\ Result.marks doc <> [] /\
  forallb (fun m => negb (exceeds m)) (Result.marks doc) = true /\
  pre_save doc = (saved, [None]) /\
  db' = mkDB (users db) (students db) (results db ++ [saved]) /\
  Result.marks saved = map graded (Result.marks doc) /\
  Result._id saved = Result._id doc /\
  Result.student saved = Result.student doc /\
  Result.class saved = Result.class doc /\
  Result.semester saved = Result.semester doc /\
  Result.examType saved = Result.examType doc /\
  Result.createdAt saved = Result.createdAt doc /\
  Result.totalMcqMarks saved =
    sumF (map (fun m => JS.num_or0 (Mark.mcqScore m)) (Result.marks doc)) /\
  Result.totalCqMarks saved =
    sumF (map (fun m => JS.num_or0 (Mark.cqScore m)) (Result.marks doc)) /\
  Result.totalMarks saved = sumF (map subjectTotalScore (Result.marks doc)).
Proof.
  unfold save. destruct (validate doc); [|discriminate].
  destruct (pre_save doc) as [doc' calls] eqn:Ep.
  destruct calls as [|[e|] rest]; try discriminate.
  intros E; inversion E; subst doc' db'; clear E.
  split; [reflexivity|].
  pose proof Ep as Ep0. unfold pre_save in Ep.
  destruct (Result.marks doc) as [|m0 ms] eqn:Em; [discriminate|].
  split; [discriminate|].
  pose proof (gradeAll_nextCalls (m0 :: ms) locals0) as Hc.
  destruct (gradeAll locals0 (m0 :: ms)) as [st rs] eqn:Eg.
  injection Ep as Hdoc Hcalls.
  cbn [fst] in Hc. rewrite Hc in Hcalls. cbn [nextCalls locals0 app] in Hcalls.
  assert (Hf : filter exceeds (m0 :: ms) = []).
  { destruct (filter exceeds (m0 :: ms)); [reflexivity | discriminate]. }
  rewrite Hf in Hcalls. cbn in Hcalls. injection Hcalls as Hrest.
  subst rest.
  pose proof (filter_nil_forallb _ _ _ Hf) as Hok.
  split; [exact Hok|]. split; [reflexivity|]. split; [reflexivity|].
  destruct (gradeAll_ok (m0 :: ms) locals0 Hok)
    as (st' & E' & Hn & Hcnt & H1 & H2 & H3 & H4).
  rewrite Eg in E'. injection E' as Hst Hrs. subst st' rs.
  rewrite <- Hdoc.
  cbn [Result.marks Result._id Result.student Result.class Result.semester
       Result.examType Result.createdAt Result.totalMcqMarks
       Result.totalCqMarks Result.totalMarks].
  pose proof (definedEntries_map_Some _ graded (m0 :: ms)) as Hd.
  cbn [map] in Hd |- *. rewrite Hd.
  repeat split; try reflexivity; assumption.
Qed.

(** The schema validators of a result, written out: the student, the
    class and every subject are present, the semester is one of the three,
    and each of the four numbers of an entry is absent or at least [0]. *)
Definition passes_validators (doc : Result.t) : Prop :=
  Result.student doc <> EmptyString /\
  Result.class doc <> EmptyString /\
  (exists s, Result.semester doc = Some s /\ In s ["1st"; "2nd"; "3rd"]%string) /\
  forall m, In m (Result.marks doc) ->
    Mark.subject m <> EmptyString /\
    forall x q,
      In x [Mark.mcqScore m; Mark.mcqTotal m; Mark.cqScore m; Mark.cqTotal m] ->
      x = Some q -> (0 <=? q)%float = true.

Lemma eqb_empty s : negb (String.eqb s EmptyString) = true <-> s <> EmptyString.
Proof.
  rewrite negb_true_iff. split.
  - intros H E. subst s. discriminate H.
  - intros H. destruct (String.eqb s EmptyString) eqn:E; [|reflexivity].
    apply String.eqb_eq in E. contradiction.
Qed.

Lemma min0_spec x : min0 x = true <-> forall q, x = Some q -> (0 <=? q)%float = true.
Proof.
  destruct x as [q|]; simpl; split.
  - intros H q0 E. now inversion E; subst.
  - intros H. now apply H.
  - discriminate.
  - reflexivity.
Qed.

Lemma validMark_spec m :
  validMark m = true <->
  Mark.subject m <> EmptyString /\
  forall x q,
    In x [Mark.mcqScore m; Mark.mcqTotal m; Mark.cqScore m; Mark.cqTotal m] ->
    x = Some q -> (0 <=? q)%float = true.
Proof.
  unfold validMark. rewrite !andb_true_iff, eqb_empty, !min0_spec. split.
  - intros ((((Hs & H1) & H2) & H3) & H4). split; [exact Hs|].
    intros x q [<-|[<-|[<-|[<-|[]]]]]; auto.
  - intros (Hs & H). repeat split; try exact Hs; intros q E;
      eapply H; try exact E; simpl; auto.
Qed.

Lemma validate_spec doc : validate doc = true <-> passes_validators doc.
Proof.
  unfold validate, passes_validators.
  rewrite !andb_true_iff, !eqb_empty, forallb_forall. split.
  - intros (((Hst & Hc) & Hsem) & Hm). repeat split; try assumption.
    + destruct (Result.semester doc) as [s|]; [|discriminate].
      exists s. split; [reflexivity|].
      apply existsb_exists in Hsem. destruct Hsem as (x & Hx & E).
      apply String.eqb_eq in E. now subst x.
    + apply validMark_spec. now apply Hm.
    + apply validMark_spec. now apply Hm.
  - intros (Hst & Hc & (s & Es & Hin) & Hm). repeat split; try assumption.
    + rewrite Es. apply existsb_exists. exists s. split; [exact Hin|].
      apply String.eqb_refl.
    + intros m Hin'. apply validMark_spec. now apply Hm.
Qed.

(** X1.  [save] on a result succeeds exactly when the document passes the
    schema validators, has at least one mark and has no entry whose score
    sum is above its total sum, the sums and the comparison taken in
    doubles. *)
Theorem X1_save_succeeds_iff db doc :
  (exists saved db', save db doc = (inr saved, db')) <->
  passes_validators doc /\ Result.marks doc <> [] /\
  forallb (fun m => negb (over_total m)) (Result.marks doc) = true.
Proof.
  rewrite <- validate_spec. change over_total with exceeds.
  split.
  - intros (saved & db' & E).
    destruct (save_inv _ _ _ _ E) as (Hv & Hne & Hok & _). auto.
  - intros (Hv & Hne & Hok). unfold save. rewrite Hv. unfold pre_save.
    destruct (Result.marks doc) as [|m0 ms] eqn:Em; [congruence|].
    destruct (gradeAll_ok (m0 :: ms) locals0 Hok) as (st & E & Hn & _).
    rewrite E, Hn. cbn [nextCalls locals0 app]. eauto.
Qed.

Lemma gradeEntry_graded st m :
  exceeds m = false -> gradeEntry st (graded m) = gradeEntry st m.
Proof.
  intros H. rewrite (gradeEntry_ok st m H).
  assert (H' : exceeds (graded m) = false) by exact H.
  rewrite (gradeEntry_ok st (graded m) H'). reflexivity.
Qed.

Lemma gradeAll_graded ms : forall st,
  forallb (fun m => negb (exceeds m)) ms = true ->
  gradeAll st (map graded ms) = gradeAll st ms.
Proof.
  induction ms as [|m ms IH]; intros st H; simpl; [reflexivity|].
  simpl in H. apply andb_true_iff in H. destruct H as [Hm Hms].
  apply negb_true_iff in Hm.
  change (gradeEntry st (graded m)) with (gradeEntry st (graded m)).
  rewrite (gradeEntry_graded st m Hm).
  destruct (gradeEntry st m) as [st1 r]. now rewrite IH.
Qed.

(** X2.  Grading is idempotent: running the hook again on a record that
    [save] has stored leaves every field as it is and calls [next()] with
    no error. *)
Theorem X2_regrading_is_identity db doc saved db' :
  save db doc = (inr saved, db') ->
  pre_save saved = (saved, [None]).
Proof.
  intros E.
  destruct (save_inv _ _ _ _ E)
    as (_ & Hne & Hok & Hp & _ & Hm & _).
  destruct (Result.marks doc) as [|m0 ms] eqn:Em; [congruence|].
  unfold pre_save in Hp. rewrite Em in Hp.
  destruct (gradeAll_ok (m0 :: ms) locals0 Hok) as (st & Eg & Hn & _).
  rewrite Eg, Hn in Hp. cbn [nextCalls locals0 app] in Hp.
  rewrite definedEntries_map_Some in Hp.
  injection Hp as Hs. subst saved. clear Hm.
  unfold pre_save.
  cbn [Result.marks Result._id Result.student Result.class Result.semester
       Result.examType Result.createdAt].
  pose proof (gradeAll_graded (m0 :: ms) locals0 Hok) as Hg.
  rewrite Eg in Hg. cbn [map] in Hg |- *. rewrite Hg, Hn.
  cbn [nextCalls locals0 app].
  pose proof (definedEntries_map_Some _ graded (m0 :: ms)) as Hd.
  cbn [map] in Hd. rewrite Hd. reflexivity.
Qed.

End GradingMore.

Lemma X2_witness :
  Grading.pre_save (C := sampleCollaborators)
    (fst (Grading.pre_save (C := sampleCollaborators) fineDoc))
  = (fst (Grading.pre_save (C := sampleCollaborators) fineDoc), [None]).
Proof.
  apply (@X2_regrading_is_identity sampleCollaborators sampleDB fineDoc _
           (snd (ResultRoutes.save (C := sampleCollaborators) sampleDB fineDoc))).
  reflexivity.
Defined.

(* ------------------------------------------------------------------ *)
(** ** The three submission routes *)

(** Walk the steps of a handler in [H]: a step that answered early either
    contradicts [H] or is no success. *)
Ltac walk H :=
  repeat (unbind H; [try solve [not_sent] | ]).

Section SubmissionShape.
Context {C : Collaborators}.
Import Grading GradingFacts ResultRoutes.

(** [x || 0] is never [NaN] nor the negative zero, and adding the double
    [0] to such a number returns it. *)
Lemma num_or0_cases x :
  JS.num_or0 x = 0%float \/
  (is_zero (JS.num_or0 x) = false /\ is_nan (JS.num_or0 x) = false).
Proof.
  destruct x as [q|]; simpl; [|now left].
  destruct (is_zero q) eqn:Ez; simpl; [now left|].
  destruct (is_nan q) eqn:En; [now left|]. right. now rewrite Ez, En.
Qed.

Lemma add_zero q :
  is_zero q = false -> is_nan q = false ->
  (q + 0 = q)%float /\ (0 + q = q)%float.
Proof.
  unfold is_zero, is_nan. rewrite !eqb_spec. intros Hz Hn.
  split; apply Prim2SF_inj; rewrite add_spec;
    change (Prim2SF 0) with (S754_zero false);
    change (Prim2SF zero) with (S754_zero false) in Hz;
    destruct (Prim2SF q) as [[|]|[|]| |[|] m e]; try discriminate; reflexivity.
Qed.

Lemma num_or0_add_zero x :
  (JS.num_or0 x + 0 = JS.num_or0 x)%float /\
  (0 + JS.num_or0 x = JS.num_or0 x)%float.
Proof.
  destruct (num_or0_cases x) as [E|[Hz Hn]].
  - rewrite E. split; reflexivity.
  - now apply add_zero.
Qed.

Lemma num_or0_again x : JS.num_or0 (Some (JS.num_or0 x)) = JS.num_or0 x.
Proof.
  destruct (num_or0_cases x) as [E|[Hz Hn]].
  - rewrite E. reflexivity.
  - cbn [JS.num_or0]. now rewrite Hz, Hn.
Qed.

Lemma sumF_zero (A : Type) (f : A -> float) (l : list A) :
  (forall a, In a l -> f a = 0%float) -> sumF (map f l) = 0%float.
Proof.
  unfold sumF. induction l as [|a l IH]; intros H; simpl; [reflexivity|].
  rewrite (H a (or_introl eq_refl)). apply IH.
  intros x Hx. apply H. now right.
Qed.

Lemma sumF_ext (A : Type) (f g : A -> float) (l : list A) :
  (forall a, In a l -> f a = g a) -> sumF (map f l) = sumF (map g l).
Proof. intros H. unfold sumF. now rewrite (map_ext_in _ _ _ H). Qed.

(** What a 201 of one of the two single-channel routes tells. *)
Lemma submitScores_sent examType format submitted now newId db h b r db' :
  ScoreRoutes.submitScores examType format submitted now newId db h b
  = (r, db') ->
  status r = 201%Z ->
  exists o subjects key sid st saved,
    ScoreRoutes.classKey b = Some key /\ subjectsConfig key = Some subjects /\
    ScoreRoutes.studentId b = Some sid /\ findStudent db sid = Some st /\
    save db (Result.mk newId sid key (ScoreRoutes.semester b) examType
               (map (format o) subjects) 0 0 0 0 now)
    = (inr saved, db') /\
    payload r = ResultData saved.
Proof.
  intros H Hs. unfold ScoreRoutes.submitScores in H.
  apply finish_cases in H. destruct H as [[H Hdb]|H].
  - walk H.
    + revert E5. destruct (ScoreRoutes.marks b), l; intros E5;
        inversion E5; subst. inversion H; subst. discriminate Hs.
    + match type of H with
      | context [save db ?d] =>
          revert H; destruct (save db d) as [[e|saved] d1]; intros H
      end; inversion H.
  - walk H.
    match type of H with
    | context [save db ?d] =>
        revert H; destruct (save db d) as [[e|saved] d1] eqn:Es; intros H
    end.
    + inversion H; subst. discriminate Hs.
    + inversion H; subst. passed.
      eexists _, _, _, _, _, saved. repeat split; eassumption.
Qed.

Lemma submitCombined_sent now newId db h b r db' :
  submitCombined now newId db h b = (r, db') ->
  status r = 201%Z ->
  exists o subjects key sid st saved,
    classKey b = Some key /\ subjectsConfig key = Some subjects /\
    studentId b = Some sid /\ findStudent db sid = Some st /\
    save db (Result.mk newId sid key (semester b) combined
               (map (formatCombined o) subjects) 0 0 0 0 now)
    = (inr saved, db') /\
    payload r = ResultData saved.
Proof.
  intros H Hs. unfold submitCombined in H.
  apply finish_cases in H. destruct H as [[H Hdb]|H].
  - walk H.
    + revert E5. destruct (marks b), l; intros E5;
        inversion E5; subst. inversion H; subst. discriminate Hs.
    + match type of H with
      | context [save db ?d] =>
          revert H; destruct (save db d) as [[e|saved] d1]; intros H
      end; inversion H.
  - walk H.
    match type of H with
    | context [save db ?d] =>
        revert H; destruct (save db d) as [[e|saved] d1] eqn:Es; intros H
    end.
    + inversion H; subst. discriminate Hs.
    + inversion H; subst. passed.
      eexists _, _, _, _, _, saved. repeat split; eassumption.
Qed.

(** X4.  A result stored by [POST /submit/mcq] has exam type mcq, zero CQ
    score and total in every entry, [totalCqMarks] zero and [totalMarks]
    equal to [totalMcqMarks]; a result stored by [POST /submit/cq] has the
    same with the two channels exchanged. *)
Theorem X4_single_channel_submissions now newId db h b r db' :
  (ScoreRoutes.submitMcq now newId db h b = (r, db') ->
   status r = 201%Z ->
   exists saved,
     payload r = ResultData saved /\ Result.examType saved = mcq /\
     Forall (fun g => Mark.cqScore g = Some 0%float
                      /\ Mark.cqTotal g = Some 0%float)
       (Result.marks saved) /\
     Result.totalCqMarks saved = 0%float /\
     Result.totalMarks saved = Result.totalMcqMarks saved) /\
  (ScoreRoutes.submitCq now newId db h b = (r, db') ->
   status r = 201%Z ->
   exists saved,
     payload r = ResultData saved /\ Result.examType saved = cq /\
     Forall (fun g => Mark.mcqScore g = Some 0%float
                      /\ Mark.mcqTotal g = Some 0%float)
       (Result.marks saved) /\
     Result.totalMcqMarks saved = 0%float /\
     Result.totalMarks saved = Result.totalCqMarks saved).
Proof.
  split; intros H Hs;
    destruct (submitScores_sent _ _ _ _ _ _ _ _ _ _ H Hs)
      as (o & subjects & key & sid & st & saved & _ & _ & _ & _ & Es & Hp);
    destruct (save_inv _ _ _ _ Es)
      as (_ & _ & _ & _ & _ & Hms & _ & _ & _ & _ & Het & _ & H1 & H2 & H3);
    cbn [Result.marks Result.examType] in *;
    exists saved; rewrite Het;
    (split; [exact Hp|]); (split; [reflexivity|]).
  - split; [|split].
    + rewrite Hms. apply Forall_forall. intros g Hg.
      apply in_map_iff in Hg. destruct Hg as (m & <- & Hin).
      apply in_map_iff in Hin. destruct Hin as (s & <- & _).
      unfold ScoreRoutes.formatMcq. destruct (o s); split; reflexivity.
    + rewrite H2, map_map. apply sumF_zero. intros s _.
      unfold ScoreRoutes.formatMcq. destruct (o s); reflexivity.
    + rewrite H3, H1, !map_map. apply sumF_ext. intros s _.
      unfold ScoreRoutes.formatMcq, subjectTotalScore.
      destruct (o s) as [sm|]; cbn [Mark.mcqScore Mark.cqScore];
        [|reflexivity].
      rewrite num_or0_again.
      apply (proj1 (num_or0_add_zero (ScoreRoutes.score sm))).
  - split; [|split].
    + rewrite Hms. apply Forall_forall. intros g Hg.
      apply in_map_iff in Hg. destruct Hg as (m & <- & Hin).
      apply in_map_iff in Hin. destruct Hin as (s & <- & _).
      unfold ScoreRoutes.formatCq. destruct (o s); split; reflexivity.
    + rewrite H1, map_map. apply sumF_zero. intros s _.
      unfold ScoreRoutes.formatCq. destruct (o s); reflexivity.
    + rewrite H3, H2, !map_map. apply sumF_ext. intros s _.
      unfold ScoreRoutes.formatCq, subjectTotalScore.
      destruct (o s) as [sm|]; cbn [Mark.mcqScore Mark.cqScore];
        [|reflexivity].
      rewrite num_or0_again.
      apply (proj2 (num_or0_add_zero (ScoreRoutes.score sm))).
Qed.

(** The stored subjects are the subjects of the class, in their order. *)
Lemma graded_subjects (A : Type) (format : A -> string -> Mark.t) o subjects :
  (forall s, Mark.subject (format o s) = s) ->
  map Mark.subject (map graded (map (format o) subjects)) = subjects.
Proof.
  intros Hf. rewrite !map_map. cbn [graded Mark.subject].
  induction subjects as [|s l IH]; simpl; [reflexivity|].
  now rewrite Hf, IH.
Qed.

(** A submission was stored for the student [sid] under the class key
    [key]: the student exists, the subjects of the record are those the
    subjects table gives for the key, in its order, and the collections
    have grown by this one record. *)
Definition stored_as (newId : ObjectId) (db : DB) (key : option string)
    (sid : option ObjectId) (saved : Result.t) (db' : DB) : Prop :=
  exists k subjects i st,
    key = Some k /\ subjectsConfig k = Some subjects /\
    sid = Some i /\ findStudent db i = Some st /\
    map Mark.subject (Result.marks saved) = subjects /\
    Result._id saved = newId /\ Result.student saved = i /\
    Result.class saved = k /\
    db' = mkDB (users db) (students db) (results db ++ [saved]).

(** X5.  A 201 of any of the three submission routes stores one record,
    for an existing student, whose subjects are exactly those configured
    for the class key of the request, whatever subjects the body names; the
    accounts, the students and the earlier results are untouched. *)
Theorem X5_submission_stores_class_subjects now newId db h :
  (forall b r db',
      submitCombined now newId db h b = (r, db') -> status r = 201%Z ->
      exists saved, payload r = ResultData saved /\
                    stored_as newId db (classKey b) (studentId b) saved db') /\
  (forall b r db',
      ScoreRoutes.submitMcq now newId db h b = (r, db') -> status r = 201%Z ->
      exists saved, payload r = ResultData saved /\
                    stored_as newId db (ScoreRoutes.classKey b)
                      (ScoreRoutes.studentId b) saved db') /\
  (forall b r db',
      ScoreRoutes.submitCq now newId db h b = (r, db') -> status r = 201%Z ->
      exists saved, payload r = ResultData saved /\
                    stored_as newId db (ScoreRoutes.classKey b)
                      (ScoreRoutes.studentId b) saved db').
Proof.
  assert (shape : forall (A : Type) (format : A -> string -> Mark.t) o subjects
                    k i sem e saved db',
             (forall s, Mark.subject (format o s) = s) ->
             save db (Result.mk newId i k sem e (map (format o) subjects)
                        0 0 0 0 now) = (inr saved, db') ->
             map Mark.subject (Result.marks saved) = subjects /\
             Result._id saved = newId /\ Result.student saved = i /\
             Result.class saved = k /\
             db' = mkDB (users db) (students db) (results db ++ [saved])).
  { intros A format o subjects k i sem e saved db' Hf Es.
    destruct (save_inv _ _ _ _ Es)
      as (_ & _ & _ & _ & Hdb & Hms & Hid & Hst & Hcl & _).
    cbn [Result.marks Result._id Result.student Result.class] in *.
    rewrite Hms, (graded_subjects _ format o subjects Hf). auto. }
  split; [|split]; intros b r db' H Hs.
  - destruct (submitCombined_sent _ _ _ _ _ _ _ H Hs)
      as (o & subjects & key & sid & st & saved & Hk & Hc & Hi & Hf & Es & Hp).
    exists saved. split; [exact Hp|].
    exists key, subjects, sid, st. repeat split; try assumption;
      eapply (shape _ formatCombined); try exact Es;
      intros s; unfold formatCombined; destruct (o s); reflexivity.
  - destruct (submitScores_sent _ _ _ _ _ _ _ _ _ _ H Hs)
      as (o & subjects & key & sid & st & saved & Hk & Hc & Hi & Hf & Es & Hp).
    exists saved. split; [exact Hp|].
    exists key, subjects, sid, st. repeat split; try assumption;
      eapply (shape _ ScoreRoutes.formatMcq); try exact Es;
      intros s; unfold ScoreRoutes.formatMcq; destruct (o s); reflexivity.
  - destruct (submitScores_sent _ _ _ _ _ _ _ _ _ _ H Hs)
      as (o & subjects & key & sid & st & saved & Hk & Hc & Hi & Hf & Es & Hp).
    exists saved. split; [exact Hp|].
    exists key, subjects, sid, st. repeat split; try assumption;
      eapply (shape _ ScoreRoutes.formatCq); try exact Es;
      intros s; unfold ScoreRoutes.formatCq; destruct (o s); reflexivity.
Qed.

End SubmissionShape.

(** Submissions of the teacher [u2] for the student [s1] of class 9. *)
Definition fineBody : ResultRoutes.SubmitBody :=
  ResultRoutes.mkSubmitBody (Some "s1"%string) (Some "9"%string) None
    (Some "1st"%string)
    (Some (fun _ => Some (ResultRoutes.mkSubjectMarks
                            (Some 30%float) (Some 50%float)
                            (Some 20%float) (Some 50%float)))).

Definition scoreBody : ScoreRoutes.ScoreBody :=
  ScoreRoutes.mkScoreBody (Some "s1"%string) None (Some "9"%string)
    (Some "3rd"%string)
    (Some (fun s => if String.eqb s "Math"
                    then Some (ScoreRoutes.mkScoreTotal (Some 40%float)
                                 (Some 50%float))
                    else None)).

Lemma X4_witness :
  (exists saved,
      payload (fst (ScoreRoutes.submitMcq (C := sampleCollaborators) 7000 "r3"
                      sampleDB (Some "Bearer tok-u2"%string) scoreBody))
      = ResultData saved /\ Result.examType saved = mcq /\
      Forall (fun g => Mark.cqScore g = Some 0%float
                       /\ Mark.cqTotal g = Some 0%float)
        (Result.marks saved) /\
      Result.totalCqMarks saved = 0%float /\
      Result.totalMarks saved = Result.totalMcqMarks saved) /\
  (exists saved,
      payload (fst (ScoreRoutes.submitCq (C := sampleCollaborators) 7000 "r3"
                      sampleDB (Some "Bearer tok-u2"%string) scoreBody))
      = ResultData saved /\ Result.examType saved = cq /\
      Forall (fun g => Mark.mcqScore g = Some 0%float
                       /\ Mark.mcqTotal g = Some 0%float)
        (Result.marks saved) /\
      Result.totalMcqMarks saved = 0%float /\
      Result.totalMarks saved = Result.totalCqMarks saved).
Proof.
  split.
  - exact (proj1 (@X4_single_channel_submissions sampleCollaborators 7000%Z
                    "r3"%string sampleDB (Some "Bearer tok-u2"%string)
                    scoreBody _ _) eq_refl eq_refl).
  - exact (proj2 (@X4_single_channel_submissions sampleCollaborators 7000%Z
                    "r3"%string sampleDB (Some "Bearer tok-u2"%string)
                    scoreBody _ _) eq_refl eq_refl).
Defined.

Lemma X5_witness :
  exists saved,
    payload (fst (ResultRoutes.submitCombined (C := sampleCollaborators) 7000
                    "r3" sampleDB (Some "Bearer tok-u2"%string) fineBody))
    = ResultData saved /\
    stored_as (C := sampleCollaborators) "r3" sampleDB
      (ResultRoutes.classKey fineBody) (ResultRoutes.studentId fineBody) saved
      (snd (ResultRoutes.submitCombined (C := sampleCollaborators) 7000
              "r3" sampleDB (Some "Bearer tok-u2"%string) fineBody)).
Proof.
  exact (proj1 (@X5_submission_stores_class_subjects sampleCollaborators
                  7000%Z "r3"%string sampleDB (Some "Bearer tok-u2"%string))
           fineBody _ _ eq_refl eq_refl).
Defined.

(* ------------------------------------------------------------------ *)
(** ** The payment cycle, continued *)

Section CycleFacts.
Import Payments.
Local Open Scope Z_scope.

(** X6.  Whatever the two dates: the days left are never negative; the
    cycle is overdue exactly when it needs a reset, and exactly when no day
    is left; a start that is not in the future leaves at most 30 days; and
    a later clock never shows more days left. *)
Theorem X6_cycle_days_left now lastPaymentDate :
  0 <= daysLeft (calculatePaymentCycle now lastPaymentDate) /\
  isOverdue (calculatePaymentCycle now lastPaymentDate)
  = needsReset (calculatePaymentCycle now lastPaymentDate) /\
  (daysLeft (calculatePaymentCycle now lastPaymentDate) = 0 <->
   needsReset (calculatePaymentCycle now lastPaymentDate) = true) /\
  (lastPaymentDate <= now ->
   daysLeft (calculatePaymentCycle now lastPaymentDate) <= 30) /\
  (forall later, now <= later ->
     daysLeft (calculatePaymentCycle later lastPaymentDate)
     <= daysLeft (calculatePaymentCycle now lastPaymentDate)).
Proof.
  unfold calculatePaymentCycle.
  change (1000 * 60 * 60 * 24) with 86400000.
  assert (mono : forall later, now <= later ->
             (now - lastPaymentDate) / 86400000
             <= (later - lastPaymentDate) / 86400000)
    by (intros; apply Z.div_le_mono; lia).
  destruct (30 <=? (now - lastPaymentDate) / 86400000) eqn:E;
    cbn [daysLeft isOverdue needsReset].
  - apply Z.leb_le in E.
    split; [lia|]. split; [reflexivity|]. split; [split; auto|].
    split; [lia|].
    intros later Hl. specialize (mono later Hl).
    destruct (30 <=? (later - lastPaymentDate) / 86400000) eqn:E';
      cbn [daysLeft]; [lia|]. apply Z.leb_gt in E'. lia.
  - apply Z.leb_gt in E.
    split; [lia|]. split; [reflexivity|].
    split; [split; [intros Hm; exfalso; lia | discriminate]|].
    split.
    + intros Hle.
      assert (0 <= (now - lastPaymentDate) / 86400000)
        by (apply Z.div_pos; lia). lia.
    + intros later Hl. specialize (mono later Hl).
      destruct (30 <=? (later - lastPaymentDate) / 86400000) eqn:E';
        cbn [daysLeft]; lia.
Qed.

End CycleFacts.

Lemma X6_witness :
  (Payments.daysLeft
     (Payments.calculatePaymentCycle 1762041600000 1761000000000) <= 30)%Z.
Proof.
  apply (proj1 (proj2 (proj2 (proj2
           (X6_cycle_days_left 1762041600000 1761000000000))))).
  lia.
Defined.

(* ------------------------------------------------------------------ *)
(** ** The payment routes, continued *)

Section PaymentRoutesMore.
Context {C : Collaborators}.
Import Payments PaymentReads.
Local Open Scope Z_scope.

Lemma setHasPaid_same s : setHasPaid s (Student.hasPaid s) = s.
Proof. destruct s; reflexivity. Qed.

(** X7.  [GET /payments/:studentId] writes at most the [hasPaid] flag of
    the student it reads, and only to turn it off: after a 200 the stored
    student is the one that was read with [hasPaid] as the answer shows it,
    the answer never shows an overdue student as paid, and the accounts
    and the results are untouched. *)
Theorem X7_payment_read_resets_only_hasPaid now db h id r db' :
  getPayment now db h id = (r, db') ->
  status r = 200 ->
  exists s v,
    findStudent db id = Some s /\ payload r = PaymentInfo v /\
    (pv_isOverdue v = true -> pv_hasPaid v = false) /\
    (pv_hasPaid v = true -> Student.hasPaid s = true) /\
    findStudent db' id = Some (setHasPaid s (pv_hasPaid v)) /\
    users db' = users db /\ results db' = results db.
Proof.
  intros H Hs. unfold getPayment in H.
  apply finish_cases in H. destruct H as [[H Hdb]|H].
  - walk H; try solve [inversion H].
    all: try (revert E2; destruct (Role_eqb _ _); [discriminate|];
              unfold notCreator; destruct (Student.createdBy _);
              intros E2; inversion E2; subst; inversion H; subst;
              discriminate Hs).
  - walk H; try solve [inversion H].
    all: try (revert E2; destruct (Role_eqb _ _); [discriminate|];
              unfold notCreator; destruct (Student.createdBy _);
              intros E2; inversion E2; subst; inversion H; subst;
              discriminate Hs).
    passed.
    pose proof (findStudent_id _ _ _ E1) as Hid.
    exists t0. eexists. split; [exact E1|]. split; [reflexivity|].
    cbn [pv_hasPaid pv_isOverdue].
    unfold calculatePaymentCycle.
    destruct (30 <=? _) eqn:Ec; cbn [needsReset isOverdue andb].
    + split; [reflexivity|]. split; [discriminate|].
      destruct (Student.hasPaid t0) eqn:Eh.
      * cbn [users results]. repeat split.
        unfold findStudent. cbn [students]. rewrite <- Hid.
        change (Student._id t0) with (Student._id (setHasPaid t0 false)).
        apply find_upsert.
      * repeat split. rewrite <- Eh, setHasPaid_same. exact E1.
    + split; [discriminate|]. split; [auto|].
      repeat split. rewrite setHasPaid_same. exact E1.
Qed.

Lemma sweep_not_due t l : filter (due t) (sweep t l) = [].
Proof.
  unfold sweep. induction l as [|s l IH]; simpl; [reflexivity|].
  destruct (due t s) eqn:E.
  - unfold due at 1. cbn [Student.hasPaid setHasPaid]. rewrite andb_false_r.
    exact IH.
  - rewrite E. exact IH.
Qed.

Lemma sweep_fixed t l : filter (due t) l = [] -> sweep t l = l.
Proof.
  unfold sweep. induction l as [|s l IH]; simpl; [reflexivity|].
  destruct (due t s); [discriminate|]. intros H. now rewrite IH.
Qed.

(** X8.  The payment sweep is idempotent and only turns [hasPaid] off: a
    successful [POST /payments/auto-reset] reports the number of students
    that were due, changes each of them in the [hasPaid] flag only and no
    other student, and the same request served again reports 0 and leaves
    the collections as they are. *)
Theorem X8_sweep_idempotent thirtyDaysAgo db h a db' :
  autoReset thirtyDaysAgo db h = (a, db') ->
  status (head a) = 200 ->
  entity a = Some (List.length (filter (due thirtyDaysAgo) (students db))) /\
  Forall2 (fun s s' => if due thirtyDaysAgo s
                       then s' = setHasPaid s false else s' = s)
    (students db) (students db') /\
  users db' = users db /\ results db' = results db /\
  autoReset thirtyDaysAgo db' h
  = (mkSent (reply 200 (resetMessage 0)) (Some 0%nat), db').
Proof.
  intros H Hs. unfold autoReset in H |- *.
  apply conclude_cases in H. destruct H as [(r0 & H & Ha & Hdb)|H].
  - subst a. cbn [head] in Hs. walk H. inversion H.
  - walk H. inversion H; subst; clear H.
    cbn [entity users students results].
    split; [reflexivity|]. split.
    { generalize (students db). unfold sweep.
      induction l as [|s l IH]; simpl; constructor;
        [destruct (due thirtyDaysAgo s); reflexivity | exact IH]. }
    split; [reflexivity|]. split; [reflexivity|].
    assert (Hr : requireRole [super_admin]
                   (mkDB (users db) (sweep thirtyDaysAgo (students db))
                      (results db)) o = inr t) by exact E0.
    rewrite Hr. cbn [conclude users students results].
    rewrite sweep_not_due.
    rewrite (sweep_fixed _ _ (sweep_not_due thirtyDaysAgo (students db))).
    reflexivity.
Qed.

End PaymentRoutesMore.

(** The admin [u1] records a payment of 750 for the student [s1]. *)
Definition settledBody : Payments.PaymentBody :=
  Payments.mkPaymentBody (Some 750) (Some true).

(** The installation forty days after that payment. *)
Definition paidDB : DB :=
  snd (Payments.updatePayment (C := sampleCollaborators) 5000 sampleDB
         (Some "Bearer tok-u1"%string) "s1" settledBody).

Definition fortyDaysOn : Z := 5000 + 40 * 86400000.

Lemma X7_witness :
  exists s v,
    findStudent paidDB "s1" = Some s /\
    payload (fst (PaymentReads.getPayment (C := sampleCollaborators)
                    fortyDaysOn paidDB (Some "Bearer tok-u1"%string) "s1"))
    = PaymentInfo v /\
    (pv_isOverdue v = true -> pv_hasPaid v = false) /\
    (pv_hasPaid v = true -> Student.hasPaid s = true) /\
    findStudent
      (snd (PaymentReads.getPayment (C := sampleCollaborators)
              fortyDaysOn paidDB (Some "Bearer tok-u1"%string) "s1")) "s1"
    = Some (PaymentReads.setHasPaid s (pv_hasPaid v)) /\
    users (snd (PaymentReads.getPayment (C := sampleCollaborators)
                  fortyDaysOn paidDB (Some "Bearer tok-u1"%string) "s1"))
    = users paidDB /\
    results (snd (PaymentReads.getPayment (C := sampleCollaborators)
                    fortyDaysOn paidDB (Some "Bearer tok-u1"%string) "s1"))
    = results paidDB.
Proof.
  exact (@X7_payment_read_resets_only_hasPaid sampleCollaborators fortyDaysOn
           paidDB (Some "Bearer tok-u1"%string) "s1"%string _ _
           eq_refl eq_refl).
Defined.

Lemma X8_witness :
  entity (fst (PaymentReads.autoReset (C := sampleCollaborators)
                 (fortyDaysOn - 30 * 86400000) paidDB
                 (Some "Bearer tok-u0"%string)))
  = Some 1%nat /\
  PaymentReads.autoReset (C := sampleCollaborators)
    (fortyDaysOn - 30 * 86400000)
    (snd (PaymentReads.autoReset (C := sampleCollaborators)
            (fortyDaysOn - 30 * 86400000) paidDB
            (Some "Bearer tok-u0"%string)))
    (Some "Bearer tok-u0"%string)
  = (mkSent (reply 200 (PaymentReads.resetMessage 0)) (Some 0%nat),
     snd (PaymentReads.autoReset (C := sampleCollaborators)
            (fortyDaysOn - 30 * 86400000) paidDB
            (Some "Bearer tok-u0"%string))).
Proof.
  pose proof (@X8_sweep_idempotent sampleCollaborators
                (fortyDaysOn - 30 * 86400000)%Z paidDB
                (Some "Bearer tok-u0"%string) _ _ eq_refl eq_refl) as H.
  split; [exact (proj1 H) | exact (proj2 (proj2 (proj2 (proj2 H))))].
Defined.

(* ------------------------------------------------------------------ *)
(** ** Reading and writing the collections *)

Section StoreFactsMore.

Lemma findUser_id db id u : findUser db id = Some u -> User._id u = id.
Proof.
  unfold findUser. intros H. apply find_some in H.
  now apply String.eqb_eq.
Qed.

Lemma find_upsert_other (A : Type) (id : A -> ObjectId) (d : A) (l : list A) k :
  id d <> k ->
  find (fun x => String.eqb (id x) k) (upsert id d l)
  = find (fun x => String.eqb (id x) k) l.
Proof.
  intros Hk.
  assert (Hd : String.eqb (id d) k = false) by now apply String.eqb_neq.
  induction l as [|x l IH]; simpl.
  - now rewrite Hd.
  - destruct (String.eqb (id x) (id d)) eqn:E; simpl.
    + apply String.eqb_eq in E. now rewrite E, Hd.
    + now rewrite IH.
Qed.

Lemma upsert_fresh (A : Type) (id : A -> ObjectId) (d : A) (l : list A) :
  find (fun x => String.eqb (id x) (id d)) l = None ->
  upsert id d l = l ++ [d].
Proof.
  induction l as [|x l IH]; simpl; [reflexivity|].
  destruct (String.eqb (id x) (id d)); [discriminate|].
  intros H. now rewrite IH.
Qed.

Lemma find_deleteFirst_other (A : Type) (key : A -> ObjectId) id k
    (l : list A) :
  k <> id ->
  find (fun x => String.eqb (key x) k) (deleteFirst key id l)
  = find (fun x => String.eqb (key x) k) l.
Proof.
  intros Hk. induction l as [|x l IH]; simpl; [reflexivity|].
  destruct (String.eqb (key x) id) eqn:E; simpl.
  - apply String.eqb_eq in E.
    destruct (String.eqb (key x) k) eqn:E'; [|reflexivity].
    apply String.eqb_eq in E'. congruence.
  - now rewrite IH.
Qed.

Lemma find_deleteFirst_same (A : Type) (key : A -> ObjectId) id (l : list A) :
  NoDup (map key l) ->
  find (fun x => String.eqb (key x) id) (deleteFirst key id l) = None.
Proof.
  induction l as [|x l IH]; simpl; intros H; [reflexivity|].
  inversion H as [|? ? Hnot Hnd]; subst.
  destruct (String.eqb (key x) id) eqn:E; simpl.
  - apply String.eqb_eq in E. subst id.
    destruct (find _ l) eqn:F; [|reflexivity].
    apply find_some in F. destruct F as [Hin He]. apply String.eqb_eq in He.
    exfalso. apply Hnot. rewrite <- He. now apply in_map.
  - rewrite E. now apply IH.
Qed.

(** The save hook of the student model touches the two payment fields
    only. *)
Lemma pre_save_keeps now s :
  exists amount paid,
    StudentModel.pre_save now s
    = Student.mk (Student._id s) (Student.name s) (Student.userName s)
        (Student.password s) (Student.roll s) (Student.class s)
        (Student.section s) amount paid (Student.paymentDetails s)
        (Student.createdBy s) (Student.refreshTokens s) (Student.createdAt s)
        (Student.lastPaymentDate s).
Proof.
  unfold StudentModel.pre_save. destruct (nth_error _ _); eauto.
Qed.

(** What a successful [save] of a student tells. *)
Lemma student_save_inv now db s saved db' :
  StudentModel.save now db s = (inr saved, db') ->
  saved = StudentModel.pre_save now s /\
  StudentModel.validate s = true /\
  StudentModel.userNameTaken db saved = false /\
  db' = mkDB (users db) (upsert Student._id saved (students db)) (results db).
Proof.
  unfold StudentModel.save.
  destruct (StudentModel.validate s); [|discriminate].
  destruct (StudentModel.userNameTaken db _) eqn:E; [discriminate|].
  intros H; inversion H; subst. auto.
Qed.

Lemma student_save_fails now db s e db' :
  StudentModel.save now db s = (inl e, db') -> db' = db.
Proof.
  unfold StudentModel.save.
  destruct (StudentModel.validate s); [|intros H; now inversion H].
  destruct (StudentModel.userNameTaken db _); intros H; now inversion H.
Qed.

(** What a successful [save] of an account tells. *)
Lemma user_save_inv isNew db u saved db' :
  UserModel.save isNew db u = (inr saved, db') ->
  saved = u /\ UserModel.validate u = true /\
  UserModel.emailTaken db u = false /\ UserModel.adminCodeTaken db u = false /\
  db' = mkDB (if isNew then users db ++ [u] else upsert User._id u (users db))
          (students db) (results db).
Proof.
  unfold UserModel.save.
  destruct (UserModel.validate u); [|discriminate].
  destruct (UserModel.emailTaken db u); [discriminate|].
  destruct (UserModel.adminCodeTaken db u); [discriminate|].
  intros H; inversion H; subst. auto.
Qed.

Lemma user_save_fails isNew db u e db' :
  UserModel.save isNew db u = (inl e, db') -> db' = db.
Proof.
  unfold UserModel.save.
  destruct (UserModel.validate u); [|intros H; now inversion H].
  destruct (UserModel.emailTaken db u); [intros H; now inversion H|].
  destruct (UserModel.adminCodeTaken db u); intros H; now inversion H.
Qed.

End StoreFactsMore.

(* ------------------------------------------------------------------ *)
(** ** Who may change or remove a student *)

(** Split a step of [E] that is a conditional or a lookup. *)
Ltac branch E :=
  repeat match type of E with
    | (if ?c then _ else _) = _ => let B := fresh "B" in destruct c eqn:B
    | match ?o with Some _ => _ | None => _ end = _ =>
        let B := fresh "B" in destruct o eqn:B
    | match ?m with inl _ => _ | inr _ => _ end = _ =>
        let B := fresh "B" in destruct m eqn:B; branch B
    end.

(** The last step of a handler is a [save]: split on its outcome. *)
Ltac saved H Es :=
  match type of H with
  | context [StudentModel.save ?n ?d0 ?d] =>
      revert H; destruct (StudentModel.save n d0 d) as [[[]|?] ?] eqn:Es;
      intros H
  | context [UserModel.save ?n ?d0 ?d] =>
      revert H; destruct (UserModel.save n d0 d) as [[[]|?] ?] eqn:Es;
      intros H
  end.

Lemma notCreator_refusal createdBy uid r :
  Payments.notCreator createdBy uid = inl r -> r = reply 500 "Server error".
Proof.
  unfold Payments.notCreator. destruct createdBy; intros E; now inversion E.
Qed.

(** A step that answered early did not answer with the status at hand. *)
Ltac stopped E :=
  branch E; refusals; passed; subst;
  repeat match goal with
    | H : Payments.notCreator _ _ = inl _ |- _ =>
        apply notCreator_refusal in H; subst
    | H : inl _ = inl _ |- _ => inversion H; clear H; subst
    | H : inr _ = inr _ |- _ => inversion H; clear H; subst
    end;
  try discriminate;
  match goal with
  | H : status _ = _ |- _ => simpl in H; discriminate H
  | H : (_ <= status _)%Z |- _ => simpl in H; lia
  | H : (status _ < _)%Z |- _ => simpl in H; lia
  end.

Section StudentWrites.
Context {C : Collaborators}.
Import UpdateRoutes.

(** X9.  A bearer that is no account, that is a student, is answered 200
    by [PUT /student/:id] of the update router for the own record only,
    and the record stored then has the user name, the roll, the class, the
    section and the creator it had: of the fields a request can name, a
    student changes the own name and password at most. *)
Theorem X9_student_self_update now db h id b uid r db' :
  authenticateToken h = inr uid ->
  findUser db uid = None ->
  updateStudent now db h id b = (r, db') ->
  status r = 200%Z ->
  uid = id /\
  exists s s',
    findStudent db id = Some s /\ findStudent db' id = Some s' /\
    Student.userName s' = Student.userName s /\
    Student.roll s' = Student.roll s /\
    Student.class s' = Student.class s /\
    Student.section s' = Student.section s /\
    Student.createdBy s' = Student.createdBy s /\
    users db' = users db /\ results db' = results db.
Proof.
  intros Ha Hu H Hs. unfold updateStudent in H. rewrite Ha, Hu in H.
  apply finish_cases in H. destruct H as [[H Hdb]|H].
  - walk H; try solve [stopped E0 | stopped E2].
    saved H Es; inversion H.
  - walk H.
    saved H Es; inversion H; subst; try discriminate Hs. clear H Hs.
    passed.
    repeat (apply orb_false_iff in E1; destruct E1 as [E1 ?]).
    match goal with
    | Hn : JS.truthy_str (userName b) = false,
      Hc : JS.truthy_str (class b) = false,
      Hx : JS.truthy_str (section b) = false |- _ =>
        rewrite Hn in E2; rewrite Hc, Hx, E1 in Es
    end.
    cbn [andb] in E2, Es. inversion E2; subst s; clear E2.
    assert (Hroll : match roll b with
                    | Some _ => Student.roll t
                    | None => Student.roll t
                    end = Student.roll t) by (destruct (roll b); reflexivity).
    rewrite Hroll in Es. clear Hroll.
    destruct (findStudent db uid) as [cs|] eqn:Ecs; [|discriminate E0].
    apply replyIf_inr, negb_false_iff, String.eqb_eq in E0.
    apply findStudent_id in Ecs.
    split; [congruence|].
    destruct (student_save_inv _ _ _ _ _ Es) as (Hsv & _ & _ & Hdb).
    destruct (pre_save_keeps now
                (setStudent t
                   (if JS.truthy_str (name b) then str (name b)
                    else Student.name t)
                   (Student.userName t)
                   (if JS.truthy_str (password b)
                    then bcrypt_hash (str (password b))
                    else Student.password t)
                   (Student.roll t) (Student.class t) (Student.section t)))
      as (amount & paid & Hk).
    rewrite Hk in Hsv. cbn in Hsv.
    exists t, t0. split; [exact E|]. split.
    { subst db'. unfold findStudent. cbn [students].
      replace id with (Student._id t0)
        by (subst t0; cbn; now apply findStudent_id in E).
      apply find_upsert. }
    subst t0 db'. repeat split.
Qed.

(** X10.  [DELETE /student/:id] of the update router answers 200 only to
    an account: a teacher for a student of an assigned class and section,
    an admin for a student the admin created, a super admin for any; and
    then the record with that identifier is the only one removed, while
    the accounts and the results stay as they were. *)
Theorem X10_delete_student_authorized db h id r db' :
  AccountUpdate.deleteStudent db h id = (r, db') ->
  status r = 200%Z ->
  exists uid cur s,
    authenticateToken h = inr uid /\ findUser db uid = Some cur /\
    findStudent db id = Some s /\
    (User.role cur = teacher -> isAssigned cur s = true) /\
    (User.role cur = admin -> Student.createdBy s = Some uid) /\
    (forall k, k <> id -> findStudent db' k = findStudent db k) /\
    (NoDup (map Student._id (students db)) -> findStudent db' id = None) /\
    users db' = users db /\ results db' = results db.
Proof.
  intros H Hs. unfold AccountUpdate.deleteStudent in H.
  apply finish_cases in H. destruct H as [[H Hdb]|H].
  - walk H; solve [stopped E2].
  - walk H. passed.
    exists o, t0, t. split; [reflexivity|]. split; [exact E1|].
    split; [exact E0|].
    split; [|split; [|split; [|split; [|split; reflexivity]]]].
    + intros Hr. rewrite Hr in E2. cbn [Role_eqb] in E2.
      now apply replyIf_inr, negb_false_iff in E2.
    + intros Hr. rewrite Hr in E2. cbn [Role_eqb] in E2.
      unfold Payments.notCreator in E2.
      destruct (Student.createdBy t) as [c|]; [|discriminate E2].
      apply replyIf_inr, negb_false_iff, String.eqb_eq in E2. congruence.
    + intros k Hk. unfold findStudent. cbn [students].
      now apply find_deleteFirst_other.
    + intros Hn. unfold findStudent. cbn [students].
      now apply find_deleteFirst_same.
Qed.

(** X11.  [DELETE /student/:id] of the students router answers 200 exactly
    to an admin or a super admin for a student that exists, whoever created
    the student; the record is removed and no other, and the results
    stored for the student stay in the collection, where
    [GET /results/:studentId] no longer finds them: it answers 404
    "Student not found". *)
Theorem X11_removed_student_keeps_results db h id :
  NoDup (map Student._id (students db)) ->
  (status (fst (StudentsRouter.deleteStudent db h id)) = 200%Z <->
   exists uid cur s,
     authenticateToken h = inr uid /\ findUser db uid = Some cur /\
     (User.role cur = super_admin \/ User.role cur = admin) /\
     findStudent db id = Some s) /\
  (status (fst (StudentsRouter.deleteStudent db h id)) = 200%Z ->
   let db' := snd (StudentsRouter.deleteStudent db h id) in
   findStudent db' id = None /\
   (forall k, k <> id -> findStudent db' k = findStudent db k) /\
   users db' = users db /\ results db' = results db /\
   forall h', ResultRoutes.getResults db' h' id
              = reply 404 "Student not found").
Proof.
  intros Hn.
  assert (sent : forall r db',
             StudentsRouter.deleteStudent db h id = (r, db') ->
             status r = 200%Z ->
             (exists uid cur s,
                 authenticateToken h = inr uid /\ findUser db uid = Some cur /\
                 (User.role cur = super_admin \/ User.role cur = admin) /\
                 findStudent db id = Some s) /\
             db' = mkDB (users db) (deleteFirst Student._id id (students db))
                     (results db)).
  { intros r db' H Hs. unfold StudentsRouter.deleteStudent in H.
    apply finish_cases in H. destruct H as [[H Hdb]|H].
    - walk H. inversion H.
    - walk H. passed. split; [|reflexivity].
      unfold requireRole in E0.
      destruct (findUser db o) as [cur|] eqn:Eu; [|discriminate E0].
      destruct (existsb _ _) eqn:Er; [|discriminate E0].
      exists o, cur, t0. repeat split; try assumption.
      revert Er. destruct (User.role cur); cbn; auto; discriminate. }
  split; [split|].
  - intros Hs.
    destruct (StudentsRouter.deleteStudent db h id) as [r db'] eqn:E.
    exact (proj1 (sent r db' eq_refl Hs)).
  - intros (uid & cur & s & Ha & Hu & Hr & Hf).
    unfold StudentsRouter.deleteStudent, finish, requireRole.
    rewrite Ha, Hu, Hf.
    destruct Hr as [-> | ->]; reflexivity.
  - intros Hs db'. subst db'.
    destruct (StudentsRouter.deleteStudent db h id) as [r db'] eqn:E.
    destruct (sent r db' eq_refl Hs) as [_ Hdb]. cbn [fst snd] in *.
    assert (Hgone : findStudent db' id = None).
    { subst db'. unfold findStudent. cbn [students].
      now apply find_deleteFirst_same. }
    split; [exact Hgone|]. split.
    { intros k Hk. subst db'. unfold findStudent. cbn [students].
      now apply find_deleteFirst_other. }
    split; [now subst db'|]. split; [now subst db'|].
    intros h'. unfold ResultRoutes.getResults. now rewrite Hgone.
Qed.

End StudentWrites.

(** The student [s1] changes the own name. *)
Definition ownNameBody : UpdateRoutes.StudentBody :=
  UpdateRoutes.mkStudentBody (Some "Samuel"%string) None None None None None.

Lemma X9_witness :
  "s1"%string = "s1"%string /\
  exists s s',
    findStudent sampleDB "s1" = Some s /\
    findStudent
      (snd (UpdateRoutes.updateStudent (C := sampleCollaborators) 9000
              sampleDB (Some "Bearer tok-s1"%string) "s1" ownNameBody)) "s1"
    = Some s' /\
    Student.userName s' = Student.userName s /\
    Student.roll s' = Student.roll s /\
    Student.class s' = Student.class s /\
    Student.section s' = Student.section s /\
    Student.createdBy s' = Student.createdBy s /\
    users (snd (UpdateRoutes.updateStudent (C := sampleCollaborators) 9000
                  sampleDB (Some "Bearer tok-s1"%string) "s1" ownNameBody))
    = users sampleDB /\
    results (snd (UpdateRoutes.updateStudent (C := sampleCollaborators) 9000
                    sampleDB (Some "Bearer tok-s1"%string) "s1" ownNameBody))
    = results sampleDB.
Proof.
  exact (@X9_student_self_update sampleCollaborators 9000%Z sampleDB
           (Some "Bearer tok-s1"%string) "s1"%string ownNameBody "s1"%string
           _ _ eq_refl eq_refl eq_refl eq_refl).
Defined.

Lemma X10_witness :
  exists uid cur s,
    authenticateToken (C := sampleCollaborators) (Some "Bearer tok-u2"%string)
    = inr uid /\
    findUser sampleDB uid = Some cur /\ findStudent sampleDB "s1" = Some s /\
    (User.role cur = teacher -> UpdateRoutes.isAssigned cur s = true) /\
    (User.role cur = admin -> Student.createdBy s = Some uid) /\
    (forall k, k <> "s1"%string ->
       findStudent
         (snd (AccountUpdate.deleteStudent (C := sampleCollaborators) sampleDB
                 (Some "Bearer tok-u2"%string) "s1")) k
       = findStudent sampleDB k) /\
    (NoDup (map Student._id (students sampleDB)) ->
     findStudent
       (snd (AccountUpdate.deleteStudent (C := sampleCollaborators) sampleDB
               (Some "Bearer tok-u2"%string) "s1")) "s1" = None) /\
    users (snd (AccountUpdate.deleteStudent (C := sampleCollaborators)
                  sampleDB (Some "Bearer tok-u2"%string) "s1"))
    = users sampleDB /\
    results (snd (AccountUpdate.deleteStudent (C := sampleCollaborators)
                    sampleDB (Some "Bearer tok-u2"%string) "s1"))
    = results sampleDB.
Proof.
  exact (@X10_delete_student_authorized sampleCollaborators sampleDB
           (Some "Bearer tok-u2"%string) "s1"%string _ _ eq_refl eq_refl).
Defined.

Lemma sample_ids_differ : NoDup (map Student._id (students sampleDB)).
Proof.
  repeat constructor; simpl; intuition discriminate.
Defined.

Lemma X11_witness :
  findStudent
    (snd (StudentsRouter.deleteStudent (C := sampleCollaborators)
            sampleDBWithResult (Some "Bearer tok-u1"%string) "s1")) "s1"
  = None /\
  results (snd (StudentsRouter.deleteStudent (C := sampleCollaborators)
                  sampleDBWithResult (Some "Bearer tok-u1"%string) "s1"))
  = results sampleDBWithResult /\
  forall h',
    ResultRoutes.getResults
      (snd (StudentsRouter.deleteStudent (C := sampleCollaborators)
              sampleDBWithResult (Some "Bearer tok-u1"%string) "s1")) h' "s1"
    = reply 404 "Student not found".
Proof.
  pose proof (proj2 (@X11_removed_student_keeps_results sampleCollaborators
                       sampleDBWithResult (Some "Bearer tok-u1"%string)
                       "s1"%string sample_ids_differ) eq_refl) as H.
  cbv zeta in H.
  split; [exact (proj1 H)|].
  split; [exact (proj1 (proj2 (proj2 (proj2 H))))|].
  exact (proj2 (proj2 (proj2 (proj2 H)))).
Defined.

(* ------------------------------------------------------------------ *)
(** ** Who may change an account *)

Section AccountWrites.
Context {C : Collaborators}.
Import AccountUpdate.

Lemma Role_eqb_eq a b : Role_eqb a b = true <-> a = b.
Proof. destruct a, b; simpl; split; intros H; congruence. Qed.

Lemma Role_eqb_neq a b : a <> b -> Role_eqb a b = false.
Proof.
  intros H. destruct (Role_eqb a b) eqn:E; [|reflexivity].
  apply Role_eqb_eq in E. contradiction.
Qed.

(** X12.  A 200 of [PUT /user/:id] tells that the bearer is an account
    and that the target existed; the creator and the refresh tokens of the
    target are never changed; a bearer that is no super admin changes
    neither the role nor the admin code; a teacher changes the own account
    only, and not its assigned classes; an admin changes only accounts the
    admin created; no other account, no student and no result is
    touched. *)
Theorem X12_update_user_privileges db h id b a db' :
  updateUser db h id b = (a, db') ->
  status (head a) = 200%Z ->
  exists uid cur u u',
    authenticateToken h = inr uid /\ findUser db uid = Some cur /\
    findUser db id = Some u /\ findUser db' id = Some u' /\
    entity a = Some (accountView u') /\
    User.createdBy u' = User.createdBy u /\
    User.refreshTokens u' = User.refreshTokens u /\
    (User.role cur <> super_admin ->
     User.role u' = User.role u /\ User.adminCode u' = User.adminCode u) /\
    (User.role cur = teacher ->
     id = uid /\ User.assignedClasses u' = User.assignedClasses u) /\
    (User.role cur = admin -> User.createdBy u = Some uid) /\
    (forall k, k <> id -> findUser db' k = findUser db k) /\
    students db' = students db /\ results db' = results db.
Proof.
  intros H Hs. unfold updateUser in H.
  apply conclude_cases in H. destruct H as [(r0 & H & Ha & Hdb)|H].
  - subst a. cbn [head] in Hs.
    walk H;
      try solve [unfold mayUpdate in E2; stopped E2 | stopped E3
                | stopped E5 | stopped E6].
    saved H Es; inversion H.
  - walk H.
    saved H Es; inversion H; subst; try (simpl in Hs; discriminate Hs).
    clear H Hs. passed.
    destruct (user_save_inv _ _ _ _ _ Es) as (Hsv & _ & _ & _ & Hdb).
    pose proof (findUser_id _ _ _ E0) as Hid.
    exists o, t0, t, t1. subst t1 db'.
    split; [reflexivity|]. split; [exact E1|]. split; [exact E0|].
    split.
    { unfold findUser. cbn [users]. rewrite <- Hid.
      match goal with
      | |- find _ (upsert _ ?d ?l) = _ => exact (find_upsert _ User._id d l)
      end. }
    split; [reflexivity|]. split; [reflexivity|]. split; [reflexivity|].
    cbn [User.role User.adminCode User.assignedClasses].
    split; [|split; [|split; [|split; [|split; reflexivity]]]].
    + intros Hr. apply Role_eqb_neq in Hr. rewrite Hr in E5 |- *.
      cbn [andb] in E5. inversion E5; subst o0.
      split; [|reflexivity]. now destruct (allowedRole (role b)).
    + intros Hr. unfold mayUpdate in E2. rewrite Hr in E2, E6.
      cbn [Role_eqb existsb orb] in E2, E6.
      apply replyIf_inr, negb_false_iff, String.eqb_eq in E2.
      split; [congruence|].
      destruct (assignedClasses b); now inversion E6.
    + intros Hr. unfold mayUpdate in E2. rewrite Hr in E2.
      cbn [Role_eqb] in E2. unfold Payments.notCreator in E2.
      destruct (User.createdBy t) as [c|]; [|discriminate E2].
      branch E2; passed; try discriminate.
      apply negb_false_iff, String.eqb_eq in B. now subst c.
    + intros k Hk. unfold findUser. cbn [users].
      apply find_upsert_other. cbn [User._id]. congruence.
Qed.

End AccountWrites.

(** The teacher [u2] renames the own account and asks for the role admin. *)
Definition promoteBody : AccountUpdate.UserBody :=
  AccountUpdate.mkUserBody (Some "Thea"%string) None None None
    (Some "admin"%string) (Some "2511009"%string) None.

Lemma X12_witness :
  exists uid cur u u',
    authenticateToken (C := sampleCollaborators) (Some "Bearer tok-u2"%string)
    = inr uid /\
    findUser sampleDB uid = Some cur /\
    findUser sampleDB "u2" = Some u /\
    findUser
      (snd (AccountUpdate.updateUser (C := sampleCollaborators) sampleDB
              (Some "Bearer tok-u2"%string) "u2" promoteBody)) "u2"
    = Some u' /\
    entity (fst (AccountUpdate.updateUser (C := sampleCollaborators) sampleDB
                   (Some "Bearer tok-u2"%string) "u2" promoteBody))
    = Some (AccountUpdate.accountView u') /\
    User.createdBy u' = User.createdBy u /\
    User.refreshTokens u' = User.refreshTokens u /\
    (User.role cur <> super_admin ->
     User.role u' = User.role u /\ User.adminCode u' = User.adminCode u) /\
    (User.role cur = teacher ->
     "u2"%string = uid /\ User.assignedClasses u' = User.assignedClasses u) /\
    (User.role cur = admin -> User.createdBy u = Some uid) /\
    (forall k, k <> "u2"%string ->
       findUser
         (snd (AccountUpdate.updateUser (C := sampleCollaborators) sampleDB
                 (Some "Bearer tok-u2"%string) "u2" promoteBody)) k
       = findUser sampleDB k) /\
    students (snd (AccountUpdate.updateUser (C := sampleCollaborators)
                     sampleDB (Some "Bearer tok-u2"%string) "u2" promoteBody))
    = students sampleDB /\
    results (snd (AccountUpdate.updateUser (C := sampleCollaborators)
                    sampleDB (Some "Bearer tok-u2"%string) "u2" promoteBody))
    = results sampleDB.
Proof.
  exact (@X12_update_user_privileges sampleCollaborators sampleDB
           (Some "Bearer tok-u2"%string) "u2"%string promoteBody _ _
           eq_refl eq_refl).
Defined.

(* ------------------------------------------------------------------ *)
(** ** Creating accounts and students *)

Section AccountCreation.
Context {C : Collaborators}.
Import AccountCreate.

Lemma filter_none (A : Type) (f : A -> bool) (l : list A) :
  existsb f l = false -> filter f l = [].
Proof.
  induction l as [|x l IH]; simpl; [reflexivity|].
  destruct (f x); [discriminate | exact IH].
Qed.

(** X13.  [POST /setup-super-admin] never adds a second super admin: with
    one stored it answers 400 "Super admin already exists" and writes
    nothing, whatever the body; and after a 201 the new account is the
    last of the accounts and the only super admin, and its stored password
    is the hash of the one sent. *)
Theorem X13_super_admin_set_up_once now newId db b :
  (existsb isSuperAdmin (users db) = true ->
   setupSuperAdmin now newId db b
   = (mkSent (reply 400 "Super admin already exists") None, db)) /\
  (forall a db',
      setupSuperAdmin now newId db b = (a, db') ->
      status (head a) = 201%Z ->
      exists u,
        users db' = users db ++ [u] /\ filter isSuperAdmin (users db') = [u] /\
        User.password u
        = bcrypt_hash (UpdateRoutes.str (AdminRoutes.password b)) /\
        entity a = Some (creatorView u) /\
        students db' = students db /\ results db' = results db).
Proof.
  split.
  - intros Hx. unfold setupSuperAdmin. now rewrite Hx.
  - intros a db' H Hs. unfold setupSuperAdmin in H.
    apply conclude_cases in H. destruct H as [(r0 & H & Ha & Hdb)|H].
    + subst a. cbn [head] in Hs. walk H. saved H Es; inversion H.
    + walk H.
      saved H Es; inversion H; subst; try (simpl in Hs; discriminate Hs).
      clear H Hs. passed.
      destruct (user_save_inv _ _ _ _ _ Es) as (Hsv & _ & _ & _ & Hdb).
      subst t db'. eexists. cbn [users students results].
      split; [reflexivity|]. split; [|repeat split].
      rewrite filter_app, (filter_none _ _ _ E). reflexivity.
Qed.

(** The seat of a student: class, section and roll. *)
Definition seat (s : Student.t) : string * string * Z :=
  (Student.class s, Student.section s, Student.roll s).

Lemma NoDup_snoc (A : Type) (l : list A) (x : A) :
  NoDup l -> ~ In x l -> NoDup (l ++ [x]).
Proof.
  intros Hl Hx. induction Hl as [|y l Hy Hl IH]; simpl.
  - constructor; [intros [] | constructor].
  - constructor.
    + rewrite in_app_iff. intros [Hin|[->|[]]]; [contradiction|].
      apply Hx. now left.
    + apply IH. intros Hin. apply Hx. now right.
Qed.

Lemma existsb_false_not_in (A B : Type) (f : A -> bool) (g : A -> B)
    (l : list A) (y : B) :
  (forall x, g x = y -> f x = true) ->
  existsb f l = false -> ~ In y (map g l).
Proof.
  intros Hf He Hin. apply in_map_iff in Hin. destruct Hin as (x & Hg & Hx).
  assert (Ht : existsb f l = true)
    by (apply existsb_exists; exists x; split; [exact Hx | now apply Hf]).
  congruence.
Qed.

(** What [POST /student/create] does: nothing, or it stores one new
    student whose user name and seat no stored student has. *)
Lemma createStudent_cases now newId db h b r db' :
  createStudent now newId db h b = (r, db') ->
  (db' = db /\ status r <> 201%Z) \/
  (exists uid saved,
      status r = 201%Z /\ authenticateToken h = inr uid /\
      existsb (fun o => String.eqb (Student.userName o)
                          (UpdateRoutes.str (UpdateRoutes.userName b)))
        (students db) = false /\
      existsb (sameSeat
                 match UpdateRoutes.roll b with Some n => n | None => 0%Z end
                 (UpdateRoutes.str (UpdateRoutes.class b))
                 (UpdateRoutes.str (UpdateRoutes.section b)))
        (students db) = false /\
      StudentModel.save now db
        (Student.mk newId (UpdateRoutes.str (UpdateRoutes.name b))
           (UpdateRoutes.str (UpdateRoutes.userName b))
           (bcrypt_hash (UpdateRoutes.str (UpdateRoutes.password b)))
           match UpdateRoutes.roll b with Some n => n | None => 0%Z end
           (UpdateRoutes.str (UpdateRoutes.class b))
           (UpdateRoutes.str (UpdateRoutes.section b))
           0 false [] (Some uid) [] now None)
      = (inr saved, db') /\
      payload r = UpdatedStudent (UpdateRoutes.briefOf saved)).
Proof.
  intros H. unfold createStudent in H.
  apply finish_cases in H. destruct H as [[H Hdb]|H].
  - left. split; [exact Hdb|]. intros Hs. walk H. saved H Es; inversion H.
  - walk H. saved H Es; inversion H; subst; clear H;
      try (left; split; [exact (student_save_fails _ _ _ _ _ Es)
                        | simpl; discriminate]).
    right. passed. exists o, t0. repeat split; assumption.
Qed.

(** X14.  [POST /student/create] keeps user names and seats unique: from
    a collection in which no two students share a user name and no two
    share class, section and roll, every answer leaves such a collection;
    and a 201 adds exactly one student, with the identifier drawn, the
    hash of the password sent, the bearer as creator and nothing paid. *)
Theorem X14_create_student_keeps_unique now newId db h b r db' :
  findStudent db newId = None ->
  NoDup (map Student.userName (students db)) ->
  NoDup (map seat (students db)) ->
  createStudent now newId db h b = (r, db') ->
  NoDup (map Student.userName (students db')) /\
  NoDup (map seat (students db')) /\
  users db' = users db /\ results db' = results db /\
  (status r = 201%Z ->
   exists uid s,
     students db' = students db ++ [s] /\ Student._id s = newId /\
     Student.password s
     = bcrypt_hash (UpdateRoutes.str (UpdateRoutes.password b)) /\
     authenticateToken h = inr uid /\ Student.createdBy s = Some uid /\
     Student.hasPaid s = false /\ Student.paymentAmount s == 0).
Proof.
  intros Hfresh Hn Hseat H.
  destruct (createStudent_cases _ _ _ _ _ _ _ H)
    as [[-> Hs]|(uid & saved & Hs & Ha & Hname & Hst & Es & Hp)].
  - repeat split; try assumption. intros Hs'. contradiction.
  - destruct (student_save_inv _ _ _ _ _ Es) as (Hsv & _ & _ & Hdb).
    unfold StudentModel.pre_save in Hsv. cbn in Hsv.
    assert (Hup : students db' = students db ++ [saved]).
    { subst db'. cbn [students]. apply upsert_fresh.
      subst saved. exact Hfresh. }
    rewrite Hup, !map_app. cbn [map].
    split; [|split; [|split; [|split]]].
    + apply NoDup_snoc; [exact Hn|].
      apply (existsb_false_not_in _ _ _ _ _ _ (fun x Hx => proj2 (String.eqb_eq _ _) Hx)).
      subst saved. exact Hname.
    + apply NoDup_snoc; [exact Hseat|].
      refine (existsb_false_not_in _ _ _ _ _ _ _ Hst).
      subst saved. unfold seat, sameSeat. cbn. intros x Hx.
      inversion Hx. now rewrite !String.eqb_refl, Z.eqb_refl.
    + now subst db'.
    + now subst db'.
    + intros _. exists uid, saved. subst saved. cbn.
      repeat split; try reflexivity. exact Ha.
Qed.

Lemma find_snoc (A : Type) (f : A -> bool) (l : list A) (x : A) :
  find f (l ++ [x])
  = match find f l with
    | Some y => Some y
    | None => if f x then Some x else None
    end.
Proof.
  induction l as [|y l IH]; simpl; [reflexivity|].
  destruct (f y); [reflexivity | exact IH].
Qed.

(** X15.  A 201 of [POST /teacher/create] tells that the bearer is an
    admin or a super admin and that one account was added: a teacher whose
    creator is the bearer and whose assigned classes each carry a
    non-empty class and section.  The creator then has the rights the
    other routes give to creators: [DELETE /user/:id] of the new teacher
    by the same bearer is answered 200. *)
Theorem X15_creator_manages_teacher now newId db h b a db' :
  findUser db newId = None ->
  createTeacher now newId db h b = (a, db') ->
  status (head a) = 201%Z ->
  exists uid cur u,
    authenticateToken h = inr uid /\ findUser db uid = Some cur /\
    (User.role cur = admin \/ User.role cur = super_admin) /\
    users db' = users db ++ [u] /\ findUser db' newId = Some u /\
    User.role u = teacher /\ User.createdBy u = Some uid /\
    forallb UserModel.validClass (User.assignedClasses u) = true /\
    entity a = Some (AccountUpdate.accountView u) /\
    students db' = students db /\ results db' = results db /\
    fst (UpdateRoutes.deleteUser db' h newId)
    = reply 200 "User deleted successfully".
Proof.
  intros Hfresh H Hs. unfold createTeacher in H.
  apply conclude_cases in H. destruct H as [(r0 & H & Ha & Hdb)|H].
  - subst a. cbn [head] in Hs.
    walk H; try solve [stopped E1]. saved H Es; inversion H.
  - walk H.
    saved H Es; inversion H; subst; try (simpl in Hs; discriminate Hs).
    clear H Hs. passed.
    destruct (user_save_inv _ _ _ _ _ Es) as (Hsv & Hv & _ & _ & Hdb).
    subst t0 db'.
    unfold requireRole in E0.
    destruct (findUser db o) as [cur|] eqn:Eu; [|discriminate E0].
    destruct (existsb _ _) eqn:Er; [|discriminate E0].
    inversion E0; subst t; clear E0.
    assert (Hrole : User.role cur = admin \/ User.role cur = super_admin).
    { revert Er. destruct (User.role cur); cbn; auto; discriminate. }
    assert (Hnew : forall d,
               find (fun x => String.eqb (User._id x) newId)
                 (users db ++ [d])
               = if String.eqb (User._id d) newId then Some d else None).
    { intros d. rewrite find_snoc.
      unfold findUser in Hfresh. now rewrite Hfresh. }
    assert (Hcur : forall d,
               find (fun x => String.eqb (User._id x) o) (users db ++ [d])
               = Some cur).
    { intros d. rewrite find_snoc.
      unfold findUser in Eu. now rewrite Eu. }
    eexists o, cur, _. cbn [users students results entity].
    split; [reflexivity|]. split; [exact Eu|]. split; [exact Hrole|].
    split; [reflexivity|].
    split; [unfold findUser; cbn [users]; rewrite Hnew; cbn [User._id];
            now rewrite String.eqb_refl|].
    split; [reflexivity|]. split; [reflexivity|].
    split.
    { unfold UserModel.validate in Hv. cbn [User.assignedClasses] in Hv |- *.
      repeat (apply andb_true_iff in Hv; destruct Hv as [Hv ?]).
      assumption. }
    split; [reflexivity|]. split; [reflexivity|]. split; [reflexivity|].
    unfold UpdateRoutes.deleteUser, finish, requireRole, findUser.
    rewrite E. cbn [users]. rewrite Hcur, Hnew. cbn [User._id].
    rewrite String.eqb_refl. cbn [orReply].
    assert (Hx : existsb (Role_eqb (User.role cur)) [super_admin; admin]
                 = true) by (destruct Hrole as [-> | ->]; reflexivity).
    rewrite Hx. cbn [User.createdBy User.role Payments.notCreator].
    rewrite String.eqb_refl.
    destruct (Role_eqb (User.role cur) super_admin); reflexivity.
Qed.

End AccountCreation.

(** A first installation, and the body that sets up its super admin. *)
Definition emptyDB : DB := mkDB [] [] [].

Definition rootBody : AdminRoutes.AdminBody :=
  AdminRoutes.mkAdminBody (Some "Root"%string) (Some "Admin"%string)
    (Some "root@school.test"%string) (Some "secret0"%string).

Lemma X13_witness :
  AccountCreate.setupSuperAdmin (C := sampleCollaborators) 1000 "u9" sampleDB
    rootBody
  = (mkSent (reply 400 "Super admin already exists") None, sampleDB) /\
  exists u,
    users (snd (AccountCreate.setupSuperAdmin (C := sampleCollaborators) 1000
                  "u0" emptyDB rootBody))
    = users emptyDB ++ [u] /\
    filter AccountCreate.isSuperAdmin
      (users (snd (AccountCreate.setupSuperAdmin (C := sampleCollaborators)
                     1000 "u0" emptyDB rootBody)))
    = [u] /\
    User.password u
    = bcrypt_hash (Collaborators := sampleCollaborators)
        (UpdateRoutes.str (AdminRoutes.password rootBody)) /\
    entity (fst (AccountCreate.setupSuperAdmin (C := sampleCollaborators)
                   1000 "u0" emptyDB rootBody))
    = Some (AccountCreate.creatorView u) /\
    students (snd (AccountCreate.setupSuperAdmin (C := sampleCollaborators)
                     1000 "u0" emptyDB rootBody))
    = students emptyDB /\
    results (snd (AccountCreate.setupSuperAdmin (C := sampleCollaborators)
                    1000 "u0" emptyDB rootBody))
    = results emptyDB.
Proof.
  split.
  - exact (proj1 (@X13_super_admin_set_up_once sampleCollaborators 1000%Z
                    "u9"%string sampleDB rootBody) eq_refl).
  - exact (proj2 (@X13_super_admin_set_up_once sampleCollaborators 1000%Z
                    "u0"%string emptyDB rootBody) _ _ eq_refl eq_refl).
Defined.

(** The admin [u1] enrols a third student of class 9, section A. *)
Definition enrolBody : UpdateRoutes.StudentBody :=
  UpdateRoutes.mkStudentBody (Some "Cal"%string) (Some "cal9a"%string)
    (Some "secret7"%string) (Some 8%Z) (Some "9"%string) (Some "A"%string).

Lemma sample_names_differ : NoDup (map Student.userName (students sampleDB)).
Proof.
  repeat constructor; simpl; intuition discriminate.
Defined.

Lemma sample_seats_differ : NoDup (map seat (students sampleDB)).
Proof.
  repeat constructor; simpl; intuition discriminate.
Defined.

Lemma X14_witness :
  NoDup (map Student.userName
           (students (snd (AccountCreate.createStudent
                             (C := sampleCollaborators) 6000 "s3" sampleDB
                             (Some "Bearer tok-u1"%string) enrolBody)))) /\
  NoDup (map seat
           (students (snd (AccountCreate.createStudent
                             (C := sampleCollaborators) 6000 "s3" sampleDB
                             (Some "Bearer tok-u1"%string) enrolBody)))) /\
  exists uid s,
    students (snd (AccountCreate.createStudent (C := sampleCollaborators)
                     6000 "s3" sampleDB (Some "Bearer tok-u1"%string)
                     enrolBody))
    = students sampleDB ++ [s] /\
    Student._id s = "s3"%string /\
    Student.password s
    = bcrypt_hash (Collaborators := sampleCollaborators)
        (UpdateRoutes.str (UpdateRoutes.password enrolBody)) /\
    authenticateToken (C := sampleCollaborators)
      (Some "Bearer tok-u1"%string) = inr uid /\
    Student.createdBy s = Some uid /\
    Student.hasPaid s = false /\ Student.paymentAmount s == 0.
Proof.
  pose proof (@X14_create_student_keeps_unique sampleCollaborators 6000%Z
                "s3"%string sampleDB (Some "Bearer tok-u1"%string) enrolBody
                _ _ eq_refl sample_names_differ sample_seats_differ eq_refl)
    as H.
  split; [exact (proj1 H)|]. split; [exact (proj1 (proj2 H))|].
  exact (proj2 (proj2 (proj2 (proj2 H))) eq_refl).
Defined.

(** The admin [u1] takes on a teacher for class 9, section B. *)
Definition teacherBody : AccountCreate.TeacherBody :=
  AccountCreate.mkTeacherBody (Some "Ned"%string) (Some "Ward"%string)
    (Some "ned@school.test"%string) (Some "secret8"%string)
    (Some [mkClassInfo (Some "9"%string) (Some "B"%string)]).

Lemma X15_witness :
  exists uid cur u,
    authenticateToken (C := sampleCollaborators) (Some "Bearer tok-u1"%string)
    = inr uid /\
    findUser sampleDB uid = Some cur /\
    (User.role cur = admin \/ User.role cur = super_admin) /\
    users (snd (AccountCreate.createTeacher (C := sampleCollaborators) 7000
                  "u3" sampleDB (Some "Bearer tok-u1"%string) teacherBody))
    = users sampleDB ++ [u] /\
    findUser
      (snd (AccountCreate.createTeacher (C := sampleCollaborators) 7000
              "u3" sampleDB (Some "Bearer tok-u1"%string) teacherBody)) "u3"
    = Some u /\
    User.role u = teacher /\ User.createdBy u = Some uid /\
    forallb UserModel.validClass (User.assignedClasses u) = true /\
    entity (fst (AccountCreate.createTeacher (C := sampleCollaborators) 7000
                   "u3" sampleDB (Some "Bearer tok-u1"%string) teacherBody))
    = Some (AccountUpdate.accountView u) /\
    students (snd (AccountCreate.createTeacher (C := sampleCollaborators)
                     7000 "u3" sampleDB (Some "Bearer tok-u1"%string)
                     teacherBody))
    = students sampleDB /\
    results (snd (AccountCreate.createTeacher (C := sampleCollaborators)
                    7000 "u3" sampleDB (Some "Bearer tok-u1"%string)
                    teacherBody))
    = results sampleDB /\
    fst (UpdateRoutes.deleteUser (C := sampleCollaborators)
           (snd (AccountCreate.createTeacher (C := sampleCollaborators) 7000
                   "u3" sampleDB (Some "Bearer tok-u1"%string) teacherBody))
           (Some "Bearer tok-u1"%string) "u3")
    = reply 200 "User deleted successfully".
Proof.
  exact (@X15_creator_manages_teacher sampleCollaborators 7000%Z "u3"%string
           sampleDB (Some "Bearer tok-u1"%string) teacherBody _ _
           eq_refl eq_refl eq_refl).
Defined.

(* ------------------------------------------------------------------ *)
(** ** The list of students *)

Section StudentLists.
Context {C : Collaborators}.
Import StudentRoutes.

(** The order of [sort({ class: 1, section: 1, roll: 1 })]. *)
Definition inOrder (a b : Student.t) : Prop := before a b = true.

Lemma before_total a b : before a b = false -> before b a = true.
Proof.
  unfold before.
  rewrite (String.compare_antisym (Student.class a) (Student.class b)).
  rewrite (String.compare_antisym (Student.section a) (Student.section b)).
  destruct (String.compare (Student.class b) (Student.class a)); simpl;
    try discriminate; auto.
  destruct (String.compare (Student.section b) (Student.section a)); simpl;
    try discriminate; auto.
  intros H. apply Z.leb_gt in H. apply Z.leb_le. lia.
Qed.

Lemma insert_perm s l : Permutation (insert s l) (s :: l).
Proof.
  induction l as [|x l IH]; simpl; [reflexivity|].
  destruct (before s x); [reflexivity|].
  rewrite IH. apply perm_swap.
Qed.

Lemma insert_head x s l :
  HdRel inOrder x l -> inOrder x s -> HdRel inOrder x (insert s l).
Proof.
  intros Hl Hs. destruct l as [|y l]; simpl; [now constructor|].
  destruct (before s y); constructor; [exact Hs|].
  now inversion Hl.
Qed.

Lemma insert_sorted s l : Sorted inOrder l -> Sorted inOrder (insert s l).
Proof.
  intros H. induction H as [|x l Hl IH Hx]; simpl.
  - repeat constructor.
  - destruct (before s x) eqn:E.
    + constructor; [now constructor | now constructor].
    + constructor; [exact IH|].
      apply insert_head; [exact Hx | now apply before_total].
Qed.

Lemma sorted_perm l : Permutation (sorted l) l.
Proof.
  induction l as [|x l IH]; simpl; [reflexivity|].
  rewrite insert_perm. now constructor.
Qed.

Lemma sorted_sorted l : Sorted inOrder (sorted l).
Proof.
  induction l as [|x l IH]; simpl; [constructor | now apply insert_sorted].
Qed.

(** What a 200 of [GET /student] shows: the students a query selects,
    in order; the query depends on the role of the bearer. *)
Lemma listStudents_sent db h className section r :
  listStudents db h className section = r ->
  status r = 200%Z ->
  exists uid cur shown classes,
    authenticateToken h = inr uid /\ findUser db uid = Some cur /\
    payload r = ManyStudents (map (viewOf db) shown) (User.role cur) classes /\
    ((User.role cur = super_admin /\
      shown = sorted (filter (superQuery className section) (students db)))
     \/ (User.role cur = admin /\
         shown = sorted (filter (adminQuery db cur className section)
                           (students db)))
     \/ (User.role cur = teacher /\
         ((exists q,
              teacherQuery (User.assignedClasses cur) className section
              = Some q /\
              shown = sorted (filter q (students db)))
          \/ shown = []))).
Proof.
  intros H Hs. unfold listStudents in H.
  destruct (authenticateToken h) as [r0|uid] eqn:Ea.
  { subst r. stopped Ea. }
  destruct (requireRole _ db uid) as [r0|cur] eqn:Er.
  { subst r. stopped Er. }
  unfold requireRole in Er.
  destruct (findUser db uid) as [u|] eqn:Eu; [|discriminate Er].
  destruct (existsb _ _) eqn:Ex; [|discriminate Er].
  inversion Er; subst u; clear Er.
  cbv zeta in H.
  destruct (User.role cur) eqn:Erole; try discriminate Ex.
  - subst r. eexists uid, cur, _, _. rewrite Erole.
    split; [reflexivity|]. split; [exact Eu|]. split; [reflexivity|].
    left. split; reflexivity.
  - subst r. eexists uid, cur, _, _. rewrite Erole.
    split; [reflexivity|]. split; [exact Eu|]. split; [reflexivity|].
    right. left. split; reflexivity.
  - rewrite (findUser_id _ _ _ Eu), Eu in H. cbn [orReply] in H.
    subst r.
    destruct (teacherQuery (User.assignedClasses cur) className section)
      as [q|] eqn:Eq.
    + eexists uid, cur, _, _. rewrite Erole.
      split; [reflexivity|]. split; [exact Eu|]. split; [reflexivity|].
      right. right. split; [reflexivity|]. left. exists q.
      split; [exact Eq | reflexivity].
    + exists uid, cur, [], (Some (User.assignedClasses cur)). rewrite Erole.
      split; [reflexivity|]. split; [exact Eu|]. split; [reflexivity|].
      right. right. split; [reflexivity|]. now right.
Qed.

Lemma shown_selected (q : Student.t -> bool) l s :
  In s (sorted (filter q l)) -> In s l /\ q s = true.
Proof.
  intros H. apply filter_In.
  exact (Permutation_in _ (sorted_perm _) H).
Qed.

Lemma inAnyOf_sound classes s :
  inAnyOf classes s = true ->
  exists cls, In cls classes /\ cs_class cls = Student.class s /\
              cs_section cls = Student.section s.
Proof.
  unfold inAnyOf, inClass, inSection. intros H.
  apply existsb_exists in H. destruct H as (cls & Hin & H).
  apply andb_true_iff in H. destruct H as [H1 H2].
  apply String.eqb_eq in H1, H2. exists cls. auto.
Qed.

Lemma assigned_in (u : User.t) s cls :
  In cls (User.assignedClasses u) ->
  cs_class cls = Student.class s -> cs_section cls = Student.section s ->
  UpdateRoutes.isAssigned u s = true.
Proof.
  intros Hin H1 H2. unfold UpdateRoutes.isAssigned.
  apply existsb_exists. exists cls. split; [exact Hin|].
  now rewrite H1, H2, !String.eqb_refl.
Qed.

(** The query of the teacher branch selects students of assigned classes
    only, and within the class and the section asked for. *)
Lemma teacherQuery_sound classes className section q s :
  teacherQuery classes className section = Some q -> q s = true ->
  (exists cls, In cls classes /\ cs_class cls = Student.class s /\
               cs_section cls = Student.section s) /\
  (JS.truthy_str className = true ->
   Student.class s = UpdateRoutes.str className) /\
  (JS.truthy_str section = true ->
   Student.section s = UpdateRoutes.str section).
Proof.
  unfold teacherQuery.
  destruct classes as [|c0 cs] eqn:Ecl; [discriminate|]. rewrite <- Ecl.
  destruct (JS.truthy_str className) eqn:Ec;
    destruct (JS.truthy_str section) eqn:Es; cbn [andb].
  - destruct (existsb _ classes) eqn:Ex; [|discriminate].
    intros Hq Hs. inversion Hq; subst q; clear Hq.
    unfold inClass, inSection in Hs.
    apply andb_true_iff in Hs. destruct Hs as [H1 H2].
    apply String.eqb_eq in H1, H2.
    apply existsb_exists in Ex. destruct Ex as (cls & Hin & Hx).
    apply andb_true_iff in Hx. destruct Hx as [H3 H4].
    apply String.eqb_eq in H3, H4.
    split; [exists cls; repeat split; congruence | auto].
  - destruct (existsb _ classes) eqn:Ex; [|discriminate].
    intros Hq Hs. inversion Hq; subst q; clear Hq.
    apply inAnyOf_sound in Hs. destruct Hs as (cls & Hin & H1 & H2).
    apply filter_In in Hin. destruct Hin as [Hin Hc].
    apply String.eqb_eq in Hc.
    split; [exists cls; auto|]. split; [congruence | discriminate].
  - destruct (existsb _ classes) eqn:Ex; [|discriminate].
    intros Hq Hs. inversion Hq; subst q; clear Hq.
    apply inAnyOf_sound in Hs. destruct Hs as (cls & Hin & H1 & H2).
    apply filter_In in Hin. destruct Hin as [Hin Hc].
    apply String.eqb_eq in Hc.
    split; [exists cls; auto|]. split; [discriminate | congruence].
  - intros Hq Hs. inversion Hq; subst q; clear Hq.
    apply inAnyOf_sound in Hs. destruct Hs as (cls & Hin & H1 & H2).
    split; [exists cls; auto|]. split; discriminate.
Qed.

(** The account [c] is the admin [uid] or a teacher that [uid] created. *)
Definition managedBy (db : DB) (uid c : ObjectId) : Prop :=
  c = uid \/
  exists t, In t (users db) /\ User._id t = c /\ User.role t = teacher /\
            User.createdBy t = Some uid.

Lemma adminQuery_sound db cur className section s :
  adminQuery db cur className section s = true ->
  (exists c, Student.createdBy s = Some c /\ managedBy db (User._id cur) c) /\
  (JS.truthy_str className = true ->
   Student.class s = UpdateRoutes.str className) /\
  (JS.truthy_str section = true ->
   Student.section s = UpdateRoutes.str section).
Proof.
  unfold adminQuery. intros H.
  apply andb_true_iff in H. destruct H as [H Hsec].
  apply andb_true_iff in H. destruct H as [Hby Hcls].
  split; [|split].
  - destruct (Student.createdBy s) as [c|]; [|discriminate].
    exists c. split; [reflexivity|].
    cbn [existsb] in Hby. apply orb_true_iff in Hby.
    destruct Hby as [Hc|Hc].
    + left. now apply String.eqb_eq in Hc.
    + right. apply existsb_exists in Hc. destruct Hc as (i & Hin & Hi).
      apply String.eqb_eq in Hi. subst i.
      apply in_map_iff in Hin. destruct Hin as (t & Ht & Hin).
      apply filter_In in Hin. destruct Hin as [Hin Hf].
      apply andb_true_iff in Hf. destruct Hf as [Hcb Hr].
      exists t. split; [exact Hin|]. split; [exact Ht|].
      split; [now apply Role_eqb_eq|].
      destruct (User.createdBy t) as [c'|]; [|discriminate].
      apply String.eqb_eq in Hcb. now subst c'.
  - intros Ht. rewrite Ht in Hcls. now apply String.eqb_eq in Hcls.
  - intros Ht. rewrite Ht in Hsec. now apply String.eqb_eq in Hsec.
Qed.

Lemma superQuery_sound className section s :
  superQuery className section s = true ->
  (JS.truthy_str className = true ->
   Student.class s = UpdateRoutes.str className) /\
  (JS.truthy_str section = true ->
   Student.section s = UpdateRoutes.str section).
Proof.
  unfold superQuery, inClass, inSection.
  destruct (JS.truthy_str className), (JS.truthy_str section); cbn [andb];
    intros H; split; intros Ht; try discriminate Ht.
  - apply andb_true_iff in H. now apply String.eqb_eq.
  - apply andb_true_iff in H. now apply String.eqb_eq.
  - now apply String.eqb_eq.
  - now apply String.eqb_eq.
Qed.

(** X16.  [GET /student] shows stored students only, in the order of
    class, section and roll, and within the class and the section asked
    for; to a teacher it shows students of the teacher's assigned classes
    only, to an admin only students created by the admin or by a teacher
    the admin created, and to a super admin every student the filter
    selects, each once. *)
Theorem X16_student_list_scope db h className section r :
  listStudents db h className section = r ->
  status r = 200%Z ->
  exists uid cur shown classes,
    authenticateToken h = inr uid /\ findUser db uid = Some cur /\
    payload r = ManyStudents (map (viewOf db) shown) (User.role cur) classes /\
    Sorted inOrder shown /\
    (forall s, In s shown ->
       In s (students db) /\
       (JS.truthy_str className = true ->
        Student.class s = UpdateRoutes.str className) /\
       (JS.truthy_str section = true ->
        Student.section s = UpdateRoutes.str section) /\
       (User.role cur = teacher -> UpdateRoutes.isAssigned cur s = true) /\
       (User.role cur = admin ->
        exists c, Student.createdBy s = Some c /\ managedBy db uid c)) /\
    (User.role cur = super_admin ->
     Permutation shown
       (filter (superQuery className section) (students db))).
Proof.
  intros H Hs.
  destruct (listStudents_sent _ _ _ _ _ H Hs)
    as (uid & cur & shown & classes & Ha & Hu & Hp & Hq).
  pose proof (findUser_id _ _ _ Hu) as Hid.
  exists uid, cur, shown, classes.
  split; [exact Ha|]. split; [exact Hu|]. split; [exact Hp|].
  destruct Hq as [[Hr ->]|[[Hr ->]|[Hr [(q & Hq & ->)| ->]]]].
  - split; [apply sorted_sorted|]. split; [|intros _; apply sorted_perm].
    intros s Hin. apply shown_selected in Hin. destruct Hin as [Hin Hsel].
    destruct (superQuery_sound _ _ _ Hsel) as [Hc Hx].
    repeat split; auto; rewrite Hr; discriminate.
  - split; [apply sorted_sorted|]. split; [|rewrite Hr; discriminate].
    intros s Hin. apply shown_selected in Hin. destruct Hin as [Hin Hsel].
    destruct (adminQuery_sound _ _ _ _ _ Hsel) as (Hm & Hc & Hx).
    rewrite Hid in Hm.
    repeat split; auto. rewrite Hr; discriminate.
  - split; [apply sorted_sorted|]. split; [|rewrite Hr; discriminate].
    intros s Hin. apply shown_selected in Hin. destruct Hin as [Hin Hsel].
    destruct (teacherQuery_sound _ _ _ _ _ Hq Hsel)
      as ((cls & Hcls & H1 & H2) & Hc & Hx).
    repeat split; auto.
    + intros _. exact (assigned_in _ _ _ Hcls H1 H2).
    + rewrite Hr; discriminate.
  - split; [constructor|]. split; [intros s []|rewrite Hr; discriminate].
Qed.

End StudentLists.

Lemma X16_witness :
  exists uid cur shown classes,
    authenticateToken (C := sampleCollaborators) (Some "Bearer tok-u2"%string)
    = inr uid /\
    findUser sampleDB uid = Some cur /\
    payload (StudentRoutes.listStudents (C := sampleCollaborators) sampleDB
               (Some "Bearer tok-u2"%string) (Some "9"%string) None)
    = ManyStudents (map (StudentRoutes.viewOf sampleDB) shown)
        (User.role cur) classes /\
    Sorted inOrder shown /\
    (forall s, In s shown ->
       In s (students sampleDB) /\
       (JS.truthy_str (Some "9"%string) = true ->
        Student.class s = UpdateRoutes.str (Some "9"%string)) /\
       (JS.truthy_str None = true ->
        Student.section s = UpdateRoutes.str None) /\
       (User.role cur = teacher -> UpdateRoutes.isAssigned cur s = true) /\
       (User.role cur = admin ->
        exists c, Student.createdBy s = Some c /\ managedBy sampleDB uid c)) /\
    (User.role cur = super_admin ->
     Permutation shown
       (filter (StudentRoutes.superQuery (Some "9"%string) None)
          (students sampleDB))).
Proof.
  exact (@X16_student_list_scope sampleCollaborators sampleDB
           (Some "Bearer tok-u2"%string) (Some "9"%string) None _
           eq_refl eq_refl).
Defined.

(* ------------------------------------------------------------------ *)
(** ** Refresh tokens: rotation and logout *)

Section TokenUse.
Context {C : Collaborators}.
Import TokenRoutes.
















End TokenUse.








(* ------------------------------------------------------------------ *)
(** ** A refused request writes nothing *)

Lemma result_save_fails {C : Collaborators} db doc e db' :
  ResultRoutes.save db doc = (inl e, db') -> db' = db.
Proof.
  unfold ResultRoutes.save.
  destruct (ResultRoutes.validate doc); [|intros H; now inversion H].
  destruct (Grading.pre_save doc) as [d [|[m|] calls]];
    intros H; now inversion H.
Qed.

(** Follow a handler in [H] to each of its answers. *)
Ltac answers H :=
  repeat match type of H with
    | (let _ := _ in _) = _ => cbv zeta in H
    | inl _ = inr _ => exfalso; inversion H
    | context [TokenRoutes.saveUser] => unfold TokenRoutes.saveUser in H
    | context [TokenRoutes.saveStudent] => unfold TokenRoutes.saveStudent in H
    | context [StudentModel.save ?n ?d0 ?d] =>
        let Es := fresh "Es" in
        revert H; destruct (StudentModel.save n d0 d) as [[[]|?] ?] eqn:Es;
        intros H; try apply student_save_fails in Es
    | context [UserModel.save ?n ?d0 ?d] =>
        let Es := fresh "Es" in
        revert H; destruct (UserModel.save n d0 d) as [[[]|?] ?] eqn:Es;
        intros H; try apply user_save_fails in Es
    | context [ResultRoutes.save ?d0 ?d] =>
        let Es := fresh "Es" in
        revert H; destruct (ResultRoutes.save d0 d) as [[?|?] ?] eqn:Es;
        intros H; try apply result_save_fails in Es
    | match ?m with inl _ => _ | inr _ => _ end = _ =>
        let B := fresh "B" in revert H; destruct m eqn:B; intros H
    | match ?o with Some _ => _ | None => _ end = _ =>
        let B := fresh "B" in revert H; destruct o eqn:B; intros H
    | (if ?c then _ else _) = _ =>
        let B := fresh "B" in revert H; destruct c eqn:B; intros H
    end.

(** Each answer either wrote nothing or is a success. *)
Ltac wrote_nothing H Hs :=
  answers H; inversion H; subst;
  first [reflexivity | assumption | simpl in Hs; lia].

(** An answer of 400 and above came with the collections as they were. *)
Definition refused_unchanged (db : DB) (p : Response * DB) : Prop :=
  (400 <= status (fst p))%Z -> snd p = db.

Definition refused_unchanged' {A : Type} (db : DB) (p : Sent A * DB) : Prop :=
  (400 <= status (head (fst p)))%Z -> snd p = db.

Section RefusedRequests.
Context {C : Collaborators}.

Lemma finish_refused db (m : step (Response * DB)) :
  (forall r db', m = inr (r, db') -> (400 <= status r)%Z -> db' = db) ->
  refused_unchanged db (finish db m).
Proof.
  intros H. destruct m as [r|[r db']]; intros Hs; simpl in *; eauto.
Qed.

Lemma conclude_refused (A : Type) db (m : step (Sent A * DB)) :
  (forall a db', m = inr (a, db') -> (400 <= status (head a))%Z -> db' = db) ->
  refused_unchanged' db (conclude db m).
Proof.
  intros H. destruct m as [r|[a db']]; intros Hs; simpl in *; eauto.
Qed.

(** X19.  A request that is answered with a status of 400 or above has
    written nothing: every handler that writes does it as its last step
    before the success answer, and a [save] that is rejected stores
    nothing. *)
Theorem X19_refused_requests_write_nothing now db h :
  (forall newId b,
      refused_unchanged db (ResultRoutes.submitCombined now newId db h b)) /\
  (forall newId b,
      refused_unchanged db (ScoreRoutes.submitMcq now newId db h b)) /\
  (forall newId b,
      refused_unchanged db (ScoreRoutes.submitCq now newId db h b)) /\
  (forall id b, refused_unchanged db (Payments.updatePayment now db h id b)) /\
  (forall id, refused_unchanged db (PaymentReads.getPayment now db h id)) /\
  (forall t, refused_unchanged' db (PaymentReads.autoReset t db h)) /\
  (forall id b,
      refused_unchanged db (UpdateRoutes.updateStudent now db h id b)) /\
  (forall id b,
      refused_unchanged db (StudentRoutes.putStudent now db h id b)) /\
  (forall id, refused_unchanged db (AccountUpdate.deleteStudent db h id)) /\
  (forall id, refused_unchanged db (StudentsRouter.deleteStudent db h id)) /\
  (forall id b, refused_unchanged' db (AccountUpdate.updateUser db h id b)) /\
  (forall id, refused_unchanged db (UpdateRoutes.deleteUser db h id)) /\
  (forall newId b,
      refused_unchanged' db (AccountCreate.setupSuperAdmin now newId db b)) /\
  (forall t newId b,
      refused_unchanged db (AdminRoutes.createAdmin t now newId db h b)) /\
  (forall newId b,
      refused_unchanged' db (AccountCreate.createTeacher now newId db h b)) /\
  (forall newId b,
      refused_unchanged db (AccountCreate.createStudent now newId db h b)) /\
  (forall t b, refused_unchanged db (TokenRoutes.signin now t db b)) /\
  (forall t old, refused_unchanged db (TokenRoutes.refresh now t db old)) /\
  (forall old, refused_unchanged db (TokenRoutes.logout now db h old)).
Proof.
  repeat split; intros;
    first [apply finish_refused | apply conclude_refused | idtac].
  all: try (intros r db' H Hs; wrote_nothing H Hs).
  all: try (intros a db' H Hs; wrote_nothing H Hs).
  unfold refused_unchanged, AdminRoutes.createAdmin.
  destruct (AdminRoutes.createAdminChecks db h b) as [r|uid]; [reflexivity|].
  unfold AdminRoutes.createAdminWith.
  match goal with
  | |- context [UserModel.save ?n ?d0 ?d] =>
      destruct (UserModel.save n d0 d) as [[[]|?] ?] eqn:Es
  end; try apply user_save_fails in Es; subst;
    try (destruct (String.eqb _ _)); cbn; intros Hs;
    first [reflexivity | lia].
Qed.

End RefusedRequests.

Lemma X19_witness :
  snd (AccountUpdate.deleteStudent (C := sampleCollaborators) sampleDB
         (Some "Bearer tok-u2"%string) "s2")
  = sampleDB.
Proof.
  refine (proj1 (proj2 (proj2 (proj2 (proj2 (proj2 (proj2 (proj2 (proj2
            (@X19_refused_requests_write_nothing sampleCollaborators 9000%Z
               sampleDB (Some "Bearer tok-u2"%string)))))))))) "s2"%string _).
  vm_compute. discriminate.
Defined.

(* ------------------------------------------------------------------ *)
(** ** The [Authorization] header *)

Section HeaderFacts.
Context {C : Collaborators}.

(** A string without a space. *)
Fixpoint noSpace (s : string) : bool :=
  match s with
  | EmptyString => true
  | String c rest => negb (Ascii.eqb c " "%char) && noSpace rest
  end.

Lemma split_word p rest :
  noSpace p = true ->
  split " "%char (String.append p (String " "%char rest))
  = p :: split " "%char rest.
Proof.
  induction p as [|c p IH]; simpl; intros H; [reflexivity|].
  apply andb_true_iff in H. destruct H as [Hc Hp].
  apply negb_true_iff in Hc. rewrite Hc, (IH Hp). reflexivity.
Qed.

Lemma split_one p : noSpace p = true -> split " "%char p = [p].
Proof.
  induction p as [|c p IH]; simpl; intros H; [reflexivity|].
  apply andb_true_iff in H. destruct H as [Hc Hp].
  apply negb_true_iff in Hc. rewrite Hc, (IH Hp). reflexivity.
Qed.

(** X20.  The middleware reads the second field of the [Authorization]
    header and never the first: whatever word stands for the scheme, the
    header is answered as if it said [Bearer]; and a header in one word,
    like an absent one, is answered 401 "Access token required". *)
Theorem X20_scheme_not_checked :
  (forall scheme rest,
      noSpace scheme = true ->
      authenticateToken
        (Some (String.append scheme (String " "%char rest)))
      = authenticateToken (Some (String.append "Bearer " rest))) /\
  (forall word,
      noSpace word = true ->
      authenticateToken (Some word)
      = inl (reply 401 "Access token required")) /\
  authenticateToken None = inl (reply 401 "Access token required").
Proof.
  split; [|split].
  - intros scheme rest H. unfold authenticateToken, bearerToken.
    rewrite (split_word scheme rest H).
    change (String.append "Bearer " rest)
      with (String.append "Bearer" (String " "%char rest)).
    rewrite (split_word "Bearer" rest eq_refl). reflexivity.
  - intros word H. unfold authenticateToken, bearerToken.
    rewrite (split_one word H). reflexivity.
  - reflexivity.
Qed.

End HeaderFacts.

Lemma X20_witness :
  authenticateToken (C := sampleCollaborators) (Some "Basic tok-u1"%string)
  = authenticateToken (C := sampleCollaborators)
      (Some "Bearer tok-u1"%string) /\
  authenticateToken (C := sampleCollaborators) (Some "tok-u1"%string)
  = inl (reply 401 "Access token required").
Proof.
  split.
  - exact (proj1 (@X20_scheme_not_checked sampleCollaborators)
             "Basic"%string "tok-u1"%string eq_refl).
  - exact (proj1 (proj2 (@X20_scheme_not_checked sampleCollaborators))
             "tok-u1"%string eq_refl).
Defined.

(* ------------------------------------------------------------------ *)
(** ** Which result the read routes show *)

Section LatestResult.
Context {C : Collaborators}.
Import ResultRoutes.
Local Open Scope Z_scope.

Lemma latest_from (rs : list Result.t) : forall b r,
  fold_left
    (fun best r =>
       match best with
       | None => Some r
       | Some b0 =>
           if Z.ltb (Result.createdAt b0) (Result.createdAt r)
           then Some r else Some b0
       end) rs (Some b) = Some r ->
  (r = b \/ In r rs) /\ Result.createdAt b <= Result.createdAt r /\
  forall x, In x rs -> Result.createdAt x <= Result.createdAt r.
Proof.
  induction rs as [|y rs IH]; simpl; intros b r H.
  - inversion H; subst. split; [now left|]. split; [lia|]. intros x [].
  - destruct (Z.ltb (Result.createdAt b) (Result.createdAt y)) eqn:E.
    + apply Z.ltb_lt in E. destruct (IH _ _ H) as (Hin & Hle & Hall).
      split; [destruct Hin; subst; auto|]. split; [lia|].
      intros x [<-|Hx]; [exact Hle | now apply Hall].
    + apply Z.ltb_ge in E. destruct (IH _ _ H) as (Hin & Hle & Hall).
      split; [destruct Hin; subst; auto|]. split; [lia|].
      intros x [<-|Hx]; [lia | now apply Hall].
Qed.

(** [latest] picks an element, and none of the list is younger. *)
Lemma latest_spec rs r :
  latest rs = Some r ->
  In r rs /\ forall x, In x rs -> Result.createdAt x <= Result.createdAt r.
Proof.
  unfold latest. destruct rs as [|y rs]; simpl; [discriminate|].
  intros H. destruct (latest_from _ _ _ H) as (Hin & Hle & Hall).
  split; [destruct Hin; subst; auto|].
  intros x [<-|Hx]; [exact Hle | now apply Hall].
Qed.

(** X21.  The result the two read routes show is one stored for the
    student asked for, of the exam type asked for where the route takes
    one, and no stored result of that student (and type) was created
    later. *)
Theorem X21_reads_show_latest db h studentId :
  (forall r,
      getResults db h studentId = r -> status r = 200 ->
      exists s res,
        findStudent db studentId = Some s /\ In res (results db) /\
        Result.student res = studentId /\
        payload r = ResultsOf (summaryOf s) (resultsOf res) /\
        forall x, In x (results db) -> Result.student x = studentId ->
                  Result.createdAt x <= Result.createdAt res) /\
  (forall examType r,
      getResultsByType db h studentId examType = r -> status r = 200 ->
      exists s res,
        findStudent db studentId = Some s /\ In res (results db) /\
        Result.student res = studentId /\
        examTypeName (Result.examType res) = examType /\
        payload r = ResultsOf (summaryOf s) (resultsOf res) /\
        forall x, In x (results db) -> Result.student x = studentId ->
                  examTypeName (Result.examType x) = examType ->
                  Result.createdAt x <= Result.createdAt res).
Proof.
  split.
  - intros r H Hs. unfold getResults in H.
    destruct (findStudent db studentId) as [s|] eqn:Ef;
      [|subst r; discriminate Hs].
    destruct (latest _) as [res|] eqn:El; [|subst r; discriminate Hs].
    apply latest_spec in El. destruct El as [Hin Hall].
    apply filter_In in Hin. destruct Hin as [Hin Hst].
    apply String.eqb_eq in Hst.
    exists s, res. subst r. repeat split; auto.
    intros x Hx Hxs. apply Hall. apply filter_In. split; [exact Hx|].
    now apply String.eqb_eq.
  - intros examType r H Hs. unfold getResultsByType in H.
    destruct (authenticateToken h) as [r0|uid] eqn:Ea;
      [subst r; stopped Ea|].
    destruct (findStudent db studentId) as [s|] eqn:Ef;
      [|subst r; discriminate Hs].
    cbn [orReply] in H.
    destruct (latest _) as [res|] eqn:El; [|subst r; discriminate Hs].
    apply latest_spec in El. destruct El as [Hin Hall].
    apply filter_In in Hin. destruct Hin as [Hin Hst].
    apply andb_true_iff in Hst. destruct Hst as [Hst Het].
    apply String.eqb_eq in Hst, Het.
    exists s, res. subst r. repeat split; auto.
    intros x Hx Hxs Hxe. apply Hall. apply filter_In. split; [exact Hx|].
    apply andb_true_iff. split; now apply String.eqb_eq.
Qed.

End LatestResult.

Lemma X21_witness :
  exists s res,
    findStudent sampleDBWithResult "s1" = Some s /\
    In res (results sampleDBWithResult) /\
    Result.student res = "s1"%string /\
    ResultRoutes.examTypeName (Result.examType res) = "combined"%string /\
    payload (ResultRoutes.getResultsByType (C := sampleCollaborators)
               sampleDBWithResult (Some "Bearer tok-u2"%string) "s1"
               "combined")
    = ResultsOf (ResultRoutes.summaryOf s) (ResultRoutes.resultsOf res) /\
    forall x, In x (results sampleDBWithResult) ->
              Result.student x = "s1"%string ->
              ResultRoutes.examTypeName (Result.examType x)
              = "combined"%string ->
              (Result.createdAt x <= Result.createdAt res)%Z.
Proof.
  exact (proj2 (@X21_reads_show_latest sampleCollaborators sampleDBWithResult
                  (Some "Bearer tok-u2"%string) "s1"%string)
           "combined"%string _ eq_refl eq_refl).
Defined.

(* ------------------------------------------------------------------ *)
(** ** Whom a sign-in lets in *)

Section SigninFacts.
Context {C : Collaborators}.
Import TokenRoutes.


End SigninFacts.



(* ------------------------------------------------------------------ *)
(** ** Who may read or change a payment *)

Section PaymentAccess.
Context {C : Collaborators}.
Import Payments PaymentReads.

Lemma requireRole_inr roles db uid cur :
  requireRole roles db uid = inr cur ->
  findUser db uid = Some cur /\
  existsb (Role_eqb (User.role cur)) roles = true.
Proof.
  unfold requireRole. destruct (findUser db uid) as [u|]; [|discriminate].
  destruct (existsb _ _) eqn:E; [|discriminate].
  intros H; inversion H; subst. auto.
Qed.

Lemma creator_checked (cur : User.t) createdBy uid denied :
  (if Role_eqb (User.role cur) super_admin then inr false
   else notCreator createdBy uid) = inr denied ->
  denied = false ->
  User.role cur = super_admin \/ createdBy = Some uid.
Proof.
  destruct (Role_eqb (User.role cur) super_admin) eqn:E.
  - intros _ _. left. now apply Role_eqb_eq.
  - unfold notCreator. destruct createdBy as [c|]; [|discriminate].
    intros H Hd. inversion H; subst. right.
    apply negb_false_iff, String.eqb_eq in H1. now subst.
Qed.

(** X23.  The two payment routes answer 200 to a super admin, and
    otherwise only to the account that created the student:
    [PUT /payments/:studentId] to an admin who did,
    [GET /payments/:studentId] to an admin or a teacher who did. *)
Theorem X23_payment_routes_creator_only now db h id :
  (forall b r db',
      updatePayment now db h id b = (r, db') -> status r = 200%Z ->
      exists uid cur s,
        authenticateToken h = inr uid /\ findUser db uid = Some cur /\
        findStudent db id = Some s /\
        (User.role cur = super_admin
         \/ (User.role cur = admin /\ Student.createdBy s = Some uid))) /\
  (forall r db',
      getPayment now db h id = (r, db') -> status r = 200%Z ->
      exists uid cur s,
        authenticateToken h = inr uid /\ findUser db uid = Some cur /\
        findStudent db id = Some s /\
        (User.role cur = super_admin
         \/ ((User.role cur = admin \/ User.role cur = teacher) /\
             Student.createdBy s = Some uid))).
Proof.
  split.
  - intros b r db' H Hs. unfold updatePayment in H.
    apply finish_cases in H. destruct H as [[H Hdb]|H].
    + walk H; solve [stopped E5 | inversion H].
    + walk H. passed.
      destruct (requireRole_inr _ _ _ _ E0) as [Hu Hr].
      exists o, t, t0. split; [reflexivity|]. split; [exact Hu|].
      split; [exact E4|].
      destruct (creator_checked _ _ _ _ E5 eq_refl) as [Hsup|Hc]; [now left|].
      destruct (User.role t) eqn:Et; cbn in Hr; try discriminate Hr;
        [now left | right; split; [reflexivity | exact Hc]].
  - intros r db' H Hs. unfold getPayment in H.
    apply finish_cases in H. destruct H as [[H Hdb]|H].
    + walk H; solve [stopped E2 | inversion H].
    + walk H. passed.
      destruct (requireRole_inr _ _ _ _ E0) as [Hu Hr].
      exists o, t, t0. split; [reflexivity|]. split; [exact Hu|].
      split; [exact E1|].
      destruct (creator_checked _ _ _ _ E2 eq_refl) as [Hsup|Hc]; [now left|].
      destruct (User.role t) eqn:Et; cbn in Hr; try discriminate Hr;
        [now left | right; split; [now left | exact Hc]
        | right; split; [now right | exact Hc]].
Qed.

End PaymentAccess.

Lemma X23_witness :
  exists uid cur s,
    authenticateToken (C := sampleCollaborators) (Some "Bearer tok-u1"%string)
    = inr uid /\
    findUser sampleDB uid = Some cur /\ findStudent sampleDB "s1" = Some s /\
    (User.role cur = super_admin
     \/ ((User.role cur = admin \/ User.role cur = teacher) /\
         Student.createdBy s = Some uid)).
Proof.
  exact (proj2 (@X23_payment_routes_creator_only sampleCollaborators 5000%Z
                  sampleDB (Some "Bearer tok-u1"%string) "s1"%string)
           _ _ eq_refl eq_refl).
Defined.

Lemma X1_witness :
  exists saved db',
    ResultRoutes.save (C := sampleCollaborators) sampleDB fineDoc
    = (inr saved, db').
Proof.
  apply (proj2 (@X1_save_succeeds_iff sampleCollaborators sampleDB fineDoc)).
  split; [apply validate_spec; reflexivity|].
  split; [discriminate | reflexivity].
Defined.

(* ------------------------------------------------------------------ *)
(** ** The list of teachers *)

Section TeacherLists.
Context {C : Collaborators}.
Import TeacherList.

(** The teachers that have an assigned class of the class asked for, in
    the section asked for when one is. *)
Definition teachesClass (className : string) (section : option string)
    (u : User.t) : bool :=
  Role_eqb (User.role u) teacher
  && existsb (fun cls =>
                String.eqb (cs_class cls) className
                && (if JS.truthy_str section
                    then String.eqb (cs_section cls) (UpdateRoutes.str section)
                    else true))
       (User.assignedClasses u).

Lemma listTeachers_sent db h className section a :
  listTeachers db h className section = a ->
  status (head a) = 200%Z ->
  exists uid cur,
    authenticateToken h = inr uid /\ findUser db uid = Some cur /\
    entity a
    = Some (map (listed db)
              (newestFirst
                 (filter (teachersQuery cur uid className section)
                    (users db))),
            User.role cur).
Proof.
  intros H Hs. unfold listTeachers in H.
  destruct (authenticateToken h) as [r0|uid] eqn:Ea;
    [subst a; cbn [head] in Hs; stopped Ea|].
  destruct (requireRole _ db uid) as [r0|cur] eqn:Er;
    [subst a; cbn [head] in Hs; stopped Er|].
  destruct (requireRole_inr _ _ _ _ Er) as [Hu _].
  destruct (replyIf _ _) as [r0|[]] eqn:Ex;
    [subst a; cbn [head] in Hs; stopped Ex|].
  subst a. exists uid, cur. auto.
Qed.

(** X24.  [GET /teachers] for a teacher: without a class in the query
    every teacher shown has an assigned class that is a class of the
    bearer; with a class in the query the classes of the bearer play no
    part: the teachers shown are all the teachers with an assigned class
    of that class (and section, when one is asked for), newest first. *)
Theorem X24_teacher_list_class_filter db h className section a :
  listTeachers db h className section = a ->
  status (head a) = 200%Z ->
  exists uid cur,
    authenticateToken h = inr uid /\ findUser db uid = Some cur /\
    (User.role cur = teacher ->
     (JS.truthy_str className = false ->
      exists shown,
        entity a = Some (map (listed db) shown, teacher) /\
        forall u, In u shown ->
          In u (users db) /\ User.role u = teacher /\
          exists cls mine,
            In cls (User.assignedClasses u) /\
            In mine (User.assignedClasses cur) /\
            cs_class cls = cs_class mine) /\
     (JS.truthy_str className = true ->
      entity a
      = Some (map (listed db)
                (newestFirst
                   (filter (teachesClass (UpdateRoutes.str className) section)
                      (users db))),
              teacher))).
Proof.
  intros H Hs.
  destruct (listTeachers_sent _ _ _ _ _ H Hs) as (uid & cur & Ha & Hu & He).
  exists uid, cur. split; [exact Ha|]. split; [exact Hu|].
  intros Hr. rewrite He, Hr. split.
  - intros Hc. eexists. split; [reflexivity|].
    intros u Hin.
    assert (Hin' : In u (filter (teachersQuery cur uid className section)
                           (users db))).
    { revert Hin. generalize (filter (teachersQuery cur uid className section)
                                (users db)).
      intros l. induction l as [|x l IH]; simpl; [auto|].
      intros Hi.
      assert (Hins : forall y m, In u (insert y m) -> u = y \/ In u m).
      { intros y m. induction m as [|z m IHm]; simpl.
        - intros [<-|[]]; auto.
        - destruct (newer y z); simpl.
          + intros [<-|[<-|Hm]]; auto.
          + intros [<-|Hm]; [auto|].
            destruct (IHm Hm) as [->|Hm']; auto. }
      destruct (Hins _ _ Hi) as [->|Hm]; [now left | right; now apply IH]. }
    apply filter_In in Hin'. destruct Hin' as [Hdb Hq].
    unfold teachersQuery in Hq. rewrite Hr in Hq. cbn [Role_eqb] in Hq.
    apply andb_true_iff in Hq. destruct Hq as [Hq Hcls].
    apply andb_true_iff in Hq. destruct Hq as [Hrole _].
    split; [exact Hdb|]. split; [now apply Role_eqb_eq|].
    unfold assignedFilter, merged in Hcls. rewrite Hc in Hcls.
    cbn [orb] in Hcls.
    assert (Hex : existsb (classAmong (map cs_class (User.assignedClasses cur)))
                    (User.assignedClasses u) = true).
    { destruct (JS.truthy_str section); [|exact Hcls].
      apply existsb_exists in Hcls. destruct Hcls as (cls & Hi & Hx).
      apply andb_true_iff in Hx. destruct Hx as [Hx _].
      apply existsb_exists. exists cls. auto. }
    apply existsb_exists in Hex. destruct Hex as (cls & Hi & Hx).
    unfold classAmong in Hx. apply existsb_exists in Hx.
    destruct Hx as (c & Hc' & Hceq). apply String.eqb_eq in Hceq.
    apply in_map_iff in Hc'. destruct Hc' as (mine & Hm & Hmine).
    exists cls, mine. repeat split; auto. congruence.
  - intros Hc. do 3 f_equal. unfold newestFirst. f_equal.
    apply filter_ext. intros u.
    unfold teachersQuery, teachesClass, assignedFilter, merged.
    rewrite Hr, Hc. cbn [Role_eqb orb]. now rewrite andb_true_r.
Qed.

End TeacherLists.

(** A second teacher, of class 10 only, and the teacher [u2] of class 9
    asking for the teachers of class 10. *)
Definition otherTeacher : User.t :=
  User.mk "u5" "Una" "Ward" "una@school.test" "h:secret9" teacher
    [mkClassSection "10" "C"] None (Some "u1"%string) [] 3500.

Definition twoTeachersDB : DB :=
  mkDB (users sampleDB ++ [otherTeacher]) (students sampleDB) [].

Lemma X24_witness :
  exists uid cur,
    authenticateToken (C := sampleCollaborators) (Some "Bearer tok-u2"%string)
    = inr uid /\
    findUser twoTeachersDB uid = Some cur /\
    (User.role cur = teacher ->
     (JS.truthy_str (Some "10"%string) = false ->
      exists shown,
        entity (TeacherList.listTeachers (C := sampleCollaborators)
                  twoTeachersDB (Some "Bearer tok-u2"%string)
                  (Some "10"%string) None)
        = Some (map (TeacherList.listed twoTeachersDB) shown, teacher) /\
        forall u, In u shown ->
          In u (users twoTeachersDB) /\ User.role u = teacher /\
          exists cls mine,
            In cls (User.assignedClasses u) /\
            In mine (User.assignedClasses cur) /\
            cs_class cls = cs_class mine) /\
     (JS.truthy_str (Some "10"%string) = true ->
      entity (TeacherList.listTeachers (C := sampleCollaborators)
                twoTeachersDB (Some "Bearer tok-u2"%string)
                (Some "10"%string) None)
      = Some (map (TeacherList.listed twoTeachersDB)
                (TeacherList.newestFirst
                   (filter (teachesClass (UpdateRoutes.str (Some "10"%string))
                              None)
                      (users twoTeachersDB))),
              teacher))).
Proof.
  exact (@X24_teacher_list_class_filter sampleCollaborators twoTeachersDB
           (Some "Bearer tok-u2"%string) (Some "10"%string) None _
           eq_refl eq_refl).
Defined.
